(** * donkeycar/templates/complete.py: the drive-loop template

    A shallow embedding of the parts that [drive] defines inline and wires
    into the vehicle pipeline (the mode conditions, the command blend of
    [DriveMode], the LED priority logic, the record tracker, the model
    reload callbacks and the drivetrain selector), with the properties the
    specification states about them.

    Conventions.
    - A channel value of unknown Python type is a [pyval]; only equality
      with a string literal and truthiness are used on it.
    - A channel with a single producer has that producer's type: an index
      or [None] is an [option nat], the record alert an [option alert].
    - A nullable float channel is an [option float] over the kernel's
      binary64 floats, which are Python's floats.
    - Python integers are [Z]; [%] and [//] are [Z.modulo] and [Z.div]
      (both floor towards minus infinity, as Python's).
    - A function that can raise returns a [result]. *)

From Stdlib Require Import ZArith String List Bool Lia.
From Stdlib Require Import Floats.PrimFloat.
From stdpp Require Import gmap strings.
Import ListNotations.

#[local] Set Warnings "-inexact-float".
#[local] Open Scope string_scope.
#[local] Open Scope list_scope.

(* ===================================================================== *)
(** ** Python values                                                      *)
(* ===================================================================== *)

Module Py.

(** The values that travel on the channels read by the condition parts. *)
Inductive pyval : Type :=
| PyNone
| PyBool (b : bool)
| PyInt (z : Z)
| PyFloat (f : float)
| PyStr (s : string).

(** [bool(v)]: Python's truth value. *)
Definition truthy (v : pyval) : bool :=
  match v with
  | PyNone => false
  | PyBool b => b
  | PyInt z => negb (z =? 0)%Z
  | PyFloat f => negb (PrimFloat.eqb f 0%float)
  | PyStr s => negb (String.eqb s "")
  end.

(** [v == 'lit'] for a string literal: true only on the equal string. *)
Definition eq_str (v : pyval) (lit : string) : bool :=
  match v with
  | PyStr s => String.eqb s lit
  | _ => false
  end.

(** [v != 'lit']. *)
Definition ne_str (v : pyval) (lit : string) : bool := negb (eq_str v lit).

(** [x if x else 0.0]-style truth value of a nullable float. *)
Definition float_truthy (x : option float) : bool :=
  match x with
  | None => false
  | Some f => negb (PrimFloat.eqb f 0%float)
  end.

(** Numbers a part may return where the source mixes [int] and [float]. *)
Inductive pynum : Type :=
| NumInt (z : Z)
| NumFloat (f : float).

(** The exceptions the embedded code can raise. *)
Inductive exn : Type :=
| IndexError
| ZeroDivisionError
| AssertionError
| UnboundLocalError (name : string)
| Exception (msg : string).

Inductive result (A : Type) : Type :=
| Ok (a : A)
| Raise (e : exn).
Arguments Ok {A} a.
Arguments Raise {A} e.

Definition bind {A B} (r : result A) (k : A -> result B) : result B :=
  match r with
  | Ok a => k a
  | Raise e => Raise e
  end.

(** [s.endswith(suffix)]: some tail of [s] is [suffix]. *)
Fixpoint endswith (s suffix : string) : bool :=
  String.eqb s suffix ||
  match s with
  | EmptyString => false
  | String _ rest => endswith rest suffix
  end.

(** [s.startswith(p)]. *)
Definition startswith (s p : string) : bool := String.prefix p s.

(** [pat in s] on strings: [pat] starts at some position of [s]. *)
Fixpoint contains (pat s : string) : bool :=
  String.prefix pat s ||
  match s with
  | EmptyString => false
  | String _ rest => contains pat rest
  end.

(** [s.replace(old, new)] for a non-empty [old]: left to right, without
    overlap.  [skip] counts the characters of a match still to be dropped. *)
Fixpoint replace_from (skip : nat) (old new s : string) : string :=
  match s with
  | EmptyString => EmptyString
  | String c rest =>
      match skip with
      | S k => replace_from k old new rest
      | O =>
          if String.prefix old s
          then new +:+ replace_from (String.length old - 1) old new rest
          else String c (replace_from 0 old new rest)
      end
  end.

Definition replace (s old new : string) : string := replace_from 0 old new s.

End Py.
Import Py.

(* ===================================================================== *)
(** ** Startup configuration                                              *)
(* ===================================================================== *)

(** An LED colour as the configuration gives it: [(r, g, b)]. *)
Definition rgb : Type := (Z * Z * Z)%type.

(** The options of [cfg] that the embedded code reads.  The configuration
    module is not part of this file; its values are parameters. *)
Record Config : Type := {
  DONKEY_GYM : bool;
  TRAIN_LOCALIZER : bool;
  TRAIN_BEHAVIORS : bool;
  DEFAULT_MODEL_TYPE : string;
  HAVE_ODOM : bool;
  DRIVE_TRAIN_TYPE : string;
  CAMERA_TYPE : string;
  RECORD_DURING_AI : bool;
  AI_THROTTLE_MULT : float;
  LED_R : Z; LED_G : Z; LED_B : Z;
  MODEL_RELOADED_LED_R : Z; MODEL_RELOADED_LED_G : Z; MODEL_RELOADED_LED_B : Z;
  LOC_COLORS : list rgb;
  BEHAVIOR_LED_COLORS : list rgb;
  REC_COUNT_ALERT : Z;
  REC_COUNT_ALERT_CYC : Z;
  REC_COUNT_ALERT_BLINK_RATE : pynum;
  RECORD_ALERT_COLOR_ARR : list (Z * rgb);
  STEERING_LEFT_PWM : Z;
  STEERING_RIGHT_PWM : Z
}.

(** [drive], lines 74-80: the model type in effect. *)
Definition resolve_model_type (cfg : Config) (model_type : option string) : string :=
  match model_type with
  | Some t => t
  | None =>
      if TRAIN_LOCALIZER cfg then "localizer"
      else if TRAIN_BEHAVIORS cfg then "behavior"
      else DEFAULT_MODEL_TYPE cfg
  end.

(** [drive], lines 82-84. *)
Definition is_velocity_model (cfg : Config) (model_type : option string) : bool :=
  endswith (resolve_model_type cfg model_type) "velocity".

Definition have_speed_control (cfg : Config) (model_type : option string) : bool :=
  HAVE_ODOM cfg && is_velocity_model cfg model_type.

Definition is_differential_drive (cfg : Config) : bool :=
  startswith (DRIVE_TRAIN_TYPE cfg) "DC_TWO_WHEEL".

(* ===================================================================== *)
(** ** Mode conditions                                                    *)
(* ===================================================================== *)

(** [PilotCondition.run]. *)
Definition PilotCondition_run (mode : pyval) : bool :=
  if eq_str mode "user" then false else true.

(** [SpeedControlCondition.run], with the flag given to its constructor. *)
Definition SpeedControlCondition_run (have_speed_control : bool) (mode : pyval) : bool :=
  have_speed_control && eq_str mode "local".

(** [NotCondition.run]. *)
Definition NotCondition_run (condition : pyval) : bool := negb (truthy condition).

(** [AiRunCondition.run]. *)
Definition AiRunCondition_run (mode : pyval) : bool :=
  if eq_str mode "user" then false else true.

(** [AiRecordingCondition.run]: the recording flag itself in user mode. *)
Definition AiRecordingCondition_run (mode recording : pyval) : pyval :=
  if eq_str mode "user" then recording else PyBool true.

(* ===================================================================== *)
(** ** Channel store and the wiring of the condition parts                *)
(* ===================================================================== *)

(** Modelled from the spec: the scheduler's per-part step (the vehicle loop
    and its memory are not part of this file).  A part's inputs are read
    from the store, an absent channel reading as null, and its outputs are
    written back under the declared names. *)
Definition mem_get (m : gmap string pyval) (k : string) : pyval :=
  default PyNone (m !! k).

(** Modelled from the spec: the write of a part's output under its
    declared channel name; the latest value replaces the previous one. *)
Definition mem_put (k : string) (v : pyval) (m : gmap string pyval) : gmap string pyval :=
  <[k := v]> m.

(** Modelled from the spec: a part with a run condition executes on a tick
    exactly when the named channel reads true. *)
Definition run_condition (k : string) (m : gmap string pyval) : bool :=
  truthy (mem_get m k).

(** [V.add(PilotCondition(), inputs=['user/mode'], outputs=['run_pilot'])]. *)
Definition part_PilotCondition (m : gmap string pyval) : gmap string pyval :=
  mem_put "run_pilot" (PyBool (PilotCondition_run (mem_get m "user/mode"))) m.

(** Lines 164-165: the two speed-control conditions, in registration order. *)
Definition part_SpeedControlCondition (have : bool) (m : gmap string pyval) : gmap string pyval :=
  mem_put "use_speed_control" (PyBool (SpeedControlCondition_run have (mem_get m "user/mode"))) m.

Definition part_NotCondition (m : gmap string pyval) : gmap string pyval :=
  mem_put "use_throttle_control" (PyBool (NotCondition_run (mem_get m "use_speed_control"))) m.

Definition tick_speed_conditions (have : bool) (m : gmap string pyval) : gmap string pyval :=
  part_NotCondition (part_SpeedControlCondition have m).

(** Line 560. *)
Definition part_AiRunCondition (m : gmap string pyval) : gmap string pyval :=
  mem_put "ai_running" (PyBool (AiRunCondition_run (mem_get m "user/mode"))) m.

(** Lines 572-573: the recording condition is registered only when
    [cfg.RECORD_DURING_AI] is set; it overwrites the [recording] channel. *)
Definition part_AiRecordingCondition (cfg : Config) (m : gmap string pyval) : gmap string pyval :=
  if RECORD_DURING_AI cfg
  then mem_put "recording"
         (AiRecordingCondition_run (mem_get m "user/mode") (mem_get m "recording")) m
  else m.

(* ===================================================================== *)
(** ** The command blend                                                  *)
(* ===================================================================== *)

(** The four outputs of [DriveMode.run], each nullable. *)
Record ControlCommand : Type := {
  angle : option float;
  throttle : option float;
  speed : option float;
  angular_velocity : option float
}.

(** [DriveMode.run], lines 460-473.  The product is taken only of a
    throttle that is true, hence present. *)
Definition DriveMode_run (cfg : Config) (mode : pyval)
    (user_angle user_throttle
     pilot_angle pilot_throttle pilot_speed pilot_angular_velocity : option float)
    : ControlCommand :=
  if eq_str mode "user" then
    {| angle := user_angle; throttle := user_throttle;
       speed := None; angular_velocity := None |}
  else if eq_str mode "local_angle" then
    {| angle := if float_truthy pilot_angle then pilot_angle else Some 0%float;
       throttle := user_throttle;
       speed := None; angular_velocity := None |}
  else
    {| angle := if float_truthy pilot_angle then pilot_angle else Some 0%float;
       throttle :=
         if float_truthy pilot_throttle
         then option_map (fun t => (t * AI_THROTTLE_MULT cfg)%float) pilot_throttle
         else Some 0%float;
       speed := pilot_speed;
       angular_velocity := pilot_angular_velocity |}.

(* ===================================================================== *)
(** ** The record tracker                                                 *)
(* ===================================================================== *)

(** What [RecordTracker.run] returns on the [records/alert] channel: the
    integer [0], or a colour of the alert table. *)
Inductive alert : Type :=
| AlertOff
| AlertColor (c : rgb).

(** [get_record_alert_color]: the colour of the last table row whose count
    the record count has reached, black when there is none. *)
Definition get_record_alert_color (cfg : Config) (num_records : Z) : rgb :=
  fold_left
    (fun col row => if (num_records >=? fst row)%Z then snd row else col)
    (RECORD_ALERT_COLOR_ARR cfg) (0, 0, 0)%Z.

Module RecordTracker.

(** The instance attributes set by [__init__]. *)
Record t : Type := {
  last_num_rec_print : Z;
  dur_alert : Z;
  force_alert : Z
}.

Definition init : t :=
  {| last_num_rec_print := 0; dur_alert := 0; force_alert := 0 |}.

(** What one call leaves behind: the value returned or the exception
    raised, the attributes after the call, and the record counts printed. *)
Record outcome : Type := {
  returned : result alert;
  self_after : t;
  printed : list Z
}.

(** Lines 242-248: the countdown and the value returned. *)
Definition finish (cfg : Config) (self : t) (num_records : Z) (out : list Z) : outcome :=
  let self1 :=
    if (dur_alert self >? 0)%Z
    then {| last_num_rec_print := last_num_rec_print self;
            dur_alert := dur_alert self - 1;
            force_alert := force_alert self |}
    else self in
  {| returned :=
       if negb (dur_alert self1 =? 0)%Z
       then Ok (AlertColor (get_record_alert_color cfg num_records))
       else Ok AlertOff;
     self_after := self1;
     printed := out |}.

(** [RecordTracker.run], lines 228-248. *)
Definition run (cfg : Config) (self : t) (num_records : option Z) : outcome :=
  match num_records with
  | None => {| returned := Ok AlertOff; self_after := self; printed := [] |}
  | Some n =>
      if negb (last_num_rec_print self =? n)%Z || negb (force_alert self =? 0)%Z then
        let self1 := {| last_num_rec_print := n;
                        dur_alert := dur_alert self;
                        force_alert := force_alert self |} in
        let out := if (n mod 10 =? 0)%Z then [n] else [] in
        if (REC_COUNT_ALERT cfg =? 0)%Z then
          {| returned := Raise ZeroDivisionError; self_after := self1; printed := out |}
        else if (n mod REC_COUNT_ALERT cfg =? 0)%Z || negb (force_alert self1 =? 0)%Z then
          finish cfg
            {| last_num_rec_print := n;
               dur_alert := n / REC_COUNT_ALERT cfg * REC_COUNT_ALERT_CYC cfg;
               force_alert := 0 |}
            n out
        else finish cfg self1 n out
      else finish cfg self n []
  end.

(** [show_record_count_status], lines 254-256. *)
Definition show_record_count_status (self : t) : t :=
  {| last_num_rec_print := 0; dur_alert := dur_alert self; force_alert := 1 |}.

End RecordTracker.

(* ===================================================================== *)
(** ** The LED priority logic                                             *)
(* ===================================================================== *)

(** The LED is the list of colours it was commanded, oldest first. *)
Definition set_rgb (c : rgb) (led : list rgb) : list rgb := led ++ [c].

(** [bool(recording_alert)]: an absent channel and [0] are false, a colour
    tuple is true. *)
Definition alert_truthy (a : option alert) : bool :=
  match a with
  | Some (AlertColor _) => true
  | _ => false
  end.

(** [LedConditionLogic.run], lines 171-203.  [model_type] is the variable of
    the enclosing [drive].  [track_loc] and [behavior_state] index the
    colour lists of the configuration; an index past the end raises. *)
Definition LedConditionLogic_run (cfg : Config) (model_type : string)
    (mode recording : pyval) (recording_alert : option alert)
    (behavior_state : option nat) (model_file_changed : pyval)
    (track_loc : option nat) (led : list rgb) : result pynum * list rgb :=
  match track_loc with
  | Some loc =>
      match LOC_COLORS cfg !! loc with
      | Some c => (Ok (NumInt (-1)), set_rgb c led)
      | None => (Raise IndexError, led)
      end
  | None =>
      if truthy model_file_changed then
        (Ok (NumFloat 0.1),
         set_rgb (MODEL_RELOADED_LED_R cfg, MODEL_RELOADED_LED_G cfg, MODEL_RELOADED_LED_B cfg) led)
      else
        let led1 := set_rgb (LED_R cfg, LED_G cfg, LED_B cfg) led in
        match recording_alert with
        | Some (AlertColor c) => (Ok (REC_COUNT_ALERT_BLINK_RATE cfg), set_rgb c led1)
        | _ =>
            let led2 := set_rgb (LED_R cfg, LED_G cfg, LED_B cfg) led1 in
            match behavior_state, String.eqb model_type "behavior" with
            | Some st, true =>
                match BEHAVIOR_LED_COLORS cfg !! st with
                | Some c => (Ok (NumInt (-1)), set_rgb c led2)
                | None => (Raise IndexError, led2)
                end
            | _, _ =>
                if truthy recording then (Ok (NumInt (-1)), led2)
                else if eq_str mode "user" then (Ok (NumInt 1), led2)
                else if eq_str mode "local_angle" then (Ok (NumFloat 0.5), led2)
                else if eq_str mode "local" then (Ok (NumFloat 0.1), led2)
                else (Ok (NumInt 0), led2)
            end
        end
  end.

(* ===================================================================== *)
(** ** Model hot reload                                                   *)
(* ===================================================================== *)

(** What the loaders and the trigger print or log. *)
Inductive log_line : Type :=
| LoadingModel (path : string)
| LoadingWeights (path : string)
| FinishedLoading
| PrintedException (e : exn)
| ProblemsLoadingWeights (path : string)
| LoggedException (e : exn).

Section Reload.

(** The inference part [kl] belongs to the Keras collaborator: its state is
    an abstract [Model], and each of its two loading methods is a function
    giving the exception it raises, if any, and the state it leaves. *)
Variable Model : Type.
Variable kl_load : string -> Model -> option exn * Model.
Variable kl_load_weights : string -> Model -> option exn * Model.

(** The pilot serving inference, and the console. *)
Record world : Type := {
  kl_model : Model;
  console : list log_line
}.

Definition emit (l : log_line) (w : world) : world :=
  {| kl_model := kl_model w; console := console w ++ [l] |}.

Definition with_model (m : Model) (w : world) : world :=
  {| kl_model := m; console := console w |}.

(** [load_model], lines 279-283: no handler around [kl.load]. *)
Definition load_model (model_path : string) (w : world) : result unit * world :=
  let w1 := emit (LoadingModel model_path) w in
  match kl_load model_path (kl_model w1) with
  | (Some e, m) => (Raise e, with_model m w1)
  | (None, m) => (Ok tt, emit FinishedLoading (with_model m w1))
  end.

(** [load_weights], lines 285-293: every exception is printed and dropped. *)
Definition load_weights (weights_path : string) (w : world) : result unit * world :=
  let w1 := emit (LoadingWeights weights_path) w in
  match kl_load_weights weights_path (kl_model w1) with
  | (Some e, m) =>
      (Ok tt, emit (ProblemsLoadingWeights weights_path)
                (emit (PrintedException e) (with_model m w1)))
  | (None, m) => (Ok tt, emit FinishedLoading (with_model m w1))
  end.

(** [reload_model] and [reload_weights], lines 325-326 and 338-340. *)
Definition reload_model (filename : string) (w : world) : result unit * world :=
  load_model filename w.

Definition reload_weights (filename : string) (w : world) : result unit * world :=
  load_weights (replace filename ".json" ".weights") w.

(** Lines 319-346: the callback bound for the format of [model_path];
    [None] is the unknown extension, on which [drive] returns. *)
Definition model_reload_cb (model_path : string)
    : option (string -> world -> result unit * world) :=
  if contains ".h5" model_path || contains ".trt" model_path
     || contains ".tflite" model_path || contains ".savedmodel" model_path
  then Some reload_model
  else if contains ".json" model_path then Some reload_weights
  else None.

(** Modelled from the spec: the trigger stage [TriggeredCallback] (the
    transform parts are not part of this file).  On a fire signal it invokes
    the bound callback once on its bound argument, catching and logging any
    exception the callback raises. *)
Definition TriggeredCallback_run (args : string)
    (func_cb : string -> world -> result unit * world)
    (trigger : pyval) (w : world) : result unit * world :=
  if truthy trigger then
    match func_cb args w with
    | (Ok _, w') => (Ok tt, w')
    | (Raise e, w') => (Ok tt, emit (LoggedException e) w')
    end
  else (Ok tt, w).

(** The load a reload of [model_path] attempts, by the format of the path. *)
Definition reload_attempt (model_path : string) (w : world) : option exn * Model :=
  if contains ".h5" model_path || contains ".trt" model_path
     || contains ".tflite" model_path || contains ".savedmodel" model_path
  then kl_load model_path (kl_model w)
  else kl_load_weights (replace model_path ".json" ".weights") (kl_model w).

End Reload.

Arguments kl_model {Model} w.
Arguments console {Model} w.
Arguments emit {Model} l w.
Arguments with_model {Model} m w.
Arguments load_model {Model} kl_load model_path w.
Arguments load_weights {Model} kl_load_weights weights_path w.
Arguments reload_model {Model} kl_load filename w.
Arguments reload_weights {Model} kl_load_weights filename w.
Arguments model_reload_cb {Model} kl_load kl_load_weights model_path.
Arguments TriggeredCallback_run {Model} args func_cb trigger w.
Arguments reload_attempt {Model} kl_load kl_load_weights model_path w.

(* ===================================================================== *)
(** ** The debounce stage                                                 *)
(* ===================================================================== *)

Module DelayedTrigger.

(** Modelled from the spec: the debounce stage [DelayedTrigger(N)] (the
    transform parts are not part of this file).  A dirty signal starts the
    [N]-tick countdown, or restarts it when one is running; a quiet tick
    counts a running countdown down, and the tick that completes [N]
    consecutive quiet ticks emits the fire signal and stops the countdown. *)
Record t : Type := {
  delay : nat;
  ticks : nat
}.

Definition init (N : nat) : t := {| delay := N; ticks := 0 |}.

(** Modelled from the spec: one tick of the debounce stage, giving the
    stage after the tick and whether the fire signal is emitted. *)
Definition run (self : t) (dirty : bool) : t * bool :=
  if dirty then ({| delay := delay self; ticks := delay self |}, false)
  else
    match ticks self with
    | O => (self, false)
    | S k => ({| delay := delay self; ticks := k |}, Nat.eqb k 0)
    end.

(** One call per tick over a trace of dirty signals; the result lists the
    ticks (counted from [now]) at which the fire signal was emitted. *)
Fixpoint fires (self : t) (now : nat) (trace : list bool) : list nat :=
  match trace with
  | [] => []
  | dirty :: rest =>
      let (self', fire) := run self dirty in
      (if fire then [now] else []) ++ fires self' (S now) rest
  end.

(** The state after a trace. *)
Definition after (self : t) (trace : list bool) : t :=
  fold_left (fun s d => fst (run s d)) trace self.

(** The trace of [len] ticks that is dirty exactly at the ticks of [at_]. *)
Definition dirty_at (at_ : list nat) (len : nat) : list bool :=
  map (fun i => existsb (Nat.eqb i) at_) (seq 0 len).

End DelayedTrigger.

(* ===================================================================== *)
(** ** Camera and drivetrain selectors                                    *)
(* ===================================================================== *)

(** [get_camera], lines 753-793, as the camera class chosen; the
    constructors themselves belong to the camera collaborator. *)
Definition get_camera (cfg : Config) : result string :=
  if DONKEY_GYM cfg then Ok "DonkeyGymEnv"
  else if String.eqb (CAMERA_TYPE cfg) "PICAM" then Ok "PiCamera"
  else if String.eqb (CAMERA_TYPE cfg) "WEBCAM" then Ok "Webcam"
  else if String.eqb (CAMERA_TYPE cfg) "CVCAM" then Ok "CvCam"
  else if String.eqb (CAMERA_TYPE cfg) "CSIC" then Ok "CSICamera"
  else if String.eqb (CAMERA_TYPE cfg) "V4L" then Ok "V4LCamera"
  else if String.eqb (CAMERA_TYPE cfg) "MOCK" then Ok "MockCamera"
  else if String.eqb (CAMERA_TYPE cfg) "IMAGE_LIST" then Ok "ImageListCamera"
  else if String.eqb (CAMERA_TYPE cfg) "LEOPARD" then Ok "LICamera"
  else Raise (Exception ("Unkown camera type: " +:+ CAMERA_TYPE cfg)).

(** One [V.add] of an actuator: the part, its input channels, its mode. *)
Record part_entry : Type := {
  part : string;
  inputs : list string;
  threaded : bool
}.

Definition V_add (p : string) (ins : list string) (thr : bool)
    (V : list part_entry) : list part_entry :=
  V ++ [{| part := p; inputs := ins; threaded := thr |}].

(** The selectors [add_drivetrain] has a branch for, and ["MOCK"], which it
    excludes by name. *)
Definition known_drive_train_types : list string :=
  [ "MOCK"; "PWM_STEERING_THROTTLE"; "I2C_SERVO"; "DC_STEER_THROTTLE";
    "DC_TWO_WHEEL"; "DC_TWO_WHEEL_L298N"; "SERVO_HBRIDGE_2PIN";
    "SERVO_HBRIDGE_3PIN"; "SERVO_HBRIDGE_PWM"; "MM1"; "PIGPIO_PWM" ].

(** [add_drivetrain], lines 1022-1190, as the parts it adds to the pipeline
    [V].  The pin and actuator constructors belong to the hardware
    collaborator.  [Mini_HBridge_DC_Motor_PWM] is imported inside the
    [SERVO_HBRIDGE_PWM] branch only, which makes it a local name of the
    whole function: the [DC_STEER_THROTTLE] branch reads it unbound.
    The chain of [elif]s has no final [else]. *)
Definition add_drivetrain (cfg : Config) (V : list part_entry) : result (list part_entry) :=
  let dt := DRIVE_TRAIN_TYPE cfg in
  if negb (DONKEY_GYM cfg) && negb (String.eqb dt "MOCK") then
    if String.eqb dt "PWM_STEERING_THROTTLE" then
      Ok (V_add "PWMThrottle" ["throttle"] true (V_add "PWMSteering" ["angle"] true V))
    else if String.eqb dt "I2C_SERVO" then
      Ok (V_add "PWMThrottle" ["throttle"] true (V_add "PWMSteering" ["angle"] true V))
    else if String.eqb dt "DC_STEER_THROTTLE" then
      Raise (UnboundLocalError "Mini_HBridge_DC_Motor_PWM")
    else if String.eqb dt "DC_TWO_WHEEL" then
      Ok (V_add "L298N_HBridge_2pin" ["right/throttle"] false
            (V_add "L298N_HBridge_2pin" ["left/throttle"] false V))
    else if String.eqb dt "DC_TWO_WHEEL_L298N" then
      Ok (V_add "L298N_HBridge_3pin" ["right/throttle"] false
            (V_add "L298N_HBridge_3pin" ["left/throttle"] false V))
    else if String.eqb dt "SERVO_HBRIDGE_2PIN" then
      Ok (V_add "L298N_HBridge_2pin" ["throttle"] false (V_add "PWMSteering" ["angle"] true V))
    else if String.eqb dt "SERVO_HBRIDGE_3PIN" then
      Ok (V_add "L298N_HBridge_3pin" ["throttle"] false (V_add "PWMSteering" ["angle"] true V))
    else if String.eqb dt "SERVO_HBRIDGE_PWM" then
      if negb (STEERING_LEFT_PWM cfg <=? 200)%Z then Raise AssertionError
      else if negb (STEERING_RIGHT_PWM cfg <=? 200)%Z then Raise AssertionError
      else
        Ok (V_add "Mini_HBridge_DC_Motor_PWM" ["throttle"] false
              (V_add "PWMSteering" ["angle"] true V))
    else if String.eqb dt "MM1" then
      Ok (V_add "RoboHATDriver" ["angle"; "throttle"] false V)
    else if String.eqb dt "PIGPIO_PWM" then
      Ok (V_add "PWMThrottle" ["throttle"] true (V_add "PWMSteering" ["angle"] true V))
    else Ok V
  else Ok V.

(* ===================================================================== *)
(** ** The specification's side                                           *)
(* ===================================================================== *)

(** *** The command blend *)

(** The blend table in the specification's words.  "Null or zero" is the
    absent value or a float equal to zero (either sign). *)
Definition null_or_zero (x : option float) : bool :=
  match x with
  | None => true
  | Some f => PrimFloat.eqb f 0%float
  end.

Definition pilot_or_zero (x : option float) : option float :=
  if null_or_zero x then Some 0%float else x.

Definition scaled_or_zero (mult : float) (x : option float) : option float :=
  match x with
  | Some t => if null_or_zero x then Some 0%float else Some (t * mult)%float
  | None => Some 0%float
  end.

Inductive blend (cfg : Config) (mode : pyval)
    (user_angle user_throttle
     pilot_angle pilot_throttle pilot_speed pilot_angular_velocity : option float)
    : ControlCommand -> Prop :=
| blend_user :
    mode = PyStr "user" ->
    blend cfg mode user_angle user_throttle
      pilot_angle pilot_throttle pilot_speed pilot_angular_velocity
      {| angle := user_angle; throttle := user_throttle;
         speed := None; angular_velocity := None |}
| blend_local_angle :
    mode = PyStr "local_angle" ->
    blend cfg mode user_angle user_throttle
      pilot_angle pilot_throttle pilot_speed pilot_angular_velocity
      {| angle := pilot_or_zero pilot_angle; throttle := user_throttle;
         speed := None; angular_velocity := None |}
| blend_otherwise :
    mode <> PyStr "user" -> mode <> PyStr "local_angle" ->
    blend cfg mode user_angle user_throttle
      pilot_angle pilot_throttle pilot_speed pilot_angular_velocity
      {| angle := pilot_or_zero pilot_angle;
         throttle := scaled_or_zero (AI_THROTTLE_MULT cfg) pilot_throttle;
         speed := pilot_speed; angular_velocity := pilot_angular_velocity |}.

(** *** The record tracker over a trace *)

(** The tracker over consecutive ticks: the attributes after the last one. *)
Definition RecordTracker_after (cfg : Config) (self : RecordTracker.t)
    (inputs : list (option Z)) : RecordTracker.t :=
  fold_left (fun s i => RecordTracker.self_after (RecordTracker.run cfg s i)) inputs self.

(** *** The indicator's priority order *)

(** The rules of the indicator, in the specification's priority order. *)
Inductive led_rule : Type :=
| KnownLocation
| ModelReloaded
| RecordCountAlert
| BehaviorState
| ActiveRecording
| ModeBased.

Definition led_priority : list led_rule :=
  [KnownLocation; ModelReloaded; RecordCountAlert; BehaviorState; ActiveRecording; ModeBased].

Definition is_some {A} (x : option A) : bool :=
  match x with Some _ => true | None => false end.

(** When a rule applies to an input tuple. *)
Definition rule_matches (model_type : string) (mode recording : pyval)
    (recording_alert : option alert) (behavior_state : option nat)
    (model_file_changed : pyval) (track_loc : option nat) (r : led_rule) : bool :=
  match r with
  | KnownLocation => is_some track_loc
  | ModelReloaded => truthy model_file_changed
  | RecordCountAlert => alert_truthy recording_alert
  | BehaviorState => is_some behavior_state && String.eqb model_type "behavior"
  | ActiveRecording => truthy recording
  | ModeBased => true
  end.

(** The first rule of the priority order that applies. *)
Definition first_matching (model_type : string) (mode recording : pyval)
    (recording_alert : option alert) (behavior_state : option nat)
    (model_file_changed : pyval) (track_loc : option nat) : led_rule :=
  match List.find (rule_matches model_type mode recording recording_alert
                     behavior_state model_file_changed track_loc) led_priority with
  | Some r => r
  | None => ModeBased
  end.

(** The mode-based rate: 1 for 'user', 0.5 for 'local_angle', 0.1 for
    'local', 0 (off) otherwise. *)
Definition mode_rate (mode : pyval) : pynum :=
  if eq_str mode "user" then NumInt 1
  else if eq_str mode "local_angle" then NumFloat 0.5
  else if eq_str mode "local" then NumFloat 0.1
  else NumInt 0.

(** The blink rate of each rule; [-1] is solid on. *)
Definition rule_rate (cfg : Config) (mode : pyval) (r : led_rule) : pynum :=
  match r with
  | KnownLocation => NumInt (-1)
  | ModelReloaded => NumFloat 0.1
  | RecordCountAlert => REC_COUNT_ALERT_BLINK_RATE cfg
  | BehaviorState => NumInt (-1)
  | ActiveRecording => NumInt (-1)
  | ModeBased => mode_rate mode
  end.

(** Whether the colour a rule commands is in the configuration: the
    known-location rule reads [cfg.LOC_COLORS[track_loc]], the
    behaviour-state rule [cfg.BEHAVIOR_LED_COLORS[behavior_state]]. *)
Definition rule_colour_configured (cfg : Config) (behavior_state track_loc : option nat)
    (r : led_rule) : bool :=
  match r with
  | KnownLocation =>
      match track_loc with
      | Some loc => is_some (LOC_COLORS cfg !! loc)
      | None => true
      end
  | BehaviorState =>
      match behavior_state with
      | Some st => is_some (BEHAVIOR_LED_COLORS cfg !! st)
      | None => true
      end
  | _ => true
  end.

(* ===================================================================== *)
(** ** Inputs to evaluate the definitions on                              *)
(* ===================================================================== *)

(** A configuration to evaluate the definitions on: a car with odometry,
    a servo and an ESC, two behaviours and three alert colours. *)
Definition example_cfg_with (drive_train_type : string) : Config := {|
  DONKEY_GYM := false;
  TRAIN_LOCALIZER := false;
  TRAIN_BEHAVIORS := false;
  DEFAULT_MODEL_TYPE := "linear";
  HAVE_ODOM := true;
  DRIVE_TRAIN_TYPE := drive_train_type;
  CAMERA_TYPE := "PICAM";
  RECORD_DURING_AI := true;
  AI_THROTTLE_MULT := 0.8%float;
  LED_R := 0; LED_G := 0; LED_B := 1;
  MODEL_RELOADED_LED_R := 100; MODEL_RELOADED_LED_G := 0; MODEL_RELOADED_LED_B := 0;
  LOC_COLORS := [(100, 0, 0); (0, 100, 0); (0, 0, 100)]%Z;
  BEHAVIOR_LED_COLORS := [(0, 10, 0); (10, 0, 0)]%Z;
  REC_COUNT_ALERT := 1000;
  REC_COUNT_ALERT_CYC := 15;
  REC_COUNT_ALERT_BLINK_RATE := NumFloat 0.4%float;
  RECORD_ALERT_COLOR_ARR := [(0, (1, 1, 1)); (3000, (5, 5, 5)); (5000, (5, 2, 0))]%Z;
  STEERING_LEFT_PWM := 460;
  STEERING_RIGHT_PWM := 290
|}.

Definition example_cfg : Config := example_cfg_with "PWM_STEERING_THROTTLE".

(** A pilot whose model is the name of the file it was loaded from, and a
    loader that raises on a corrupt file and leaves the pilot alone. *)
Definition example_kl_load (path : string) (m : string) : option exn * string :=
  if contains "corrupt" path
  then (Some (Exception "cannot read model file"), m)
  else (None, path).

Definition example_world : world string :=
  {| kl_model := "pilot_v1.h5"; console := [] |}.

(** A loader that has overwritten part of the model with the contents of
    the file when it raises. *)
Definition partial_kl_load (path : string) (m : string) : option exn * string :=
  (Some (Exception "cannot read model file"), m +:+ ", in part " +:+ path).

(* ===================================================================== *)
(** ** Pipeline assembly                                                  *)
(* ===================================================================== *)

(** The options of [cfg] read by the assembly code, beside those of
    [Config].  [TRANSFORMATIONS] is [None] when the attribute is missing. *)
Record Options : Type := {
  USE_LIDAR : bool;
  HAVE_IMU : bool;
  HAVE_PERFMON : bool;
  HAVE_ODOM_2 : bool;
  ENCODER_TYPE : string;
  REALSENSE_D435_DEPTH : bool;
  REALSENSE_D435_IMU : bool;
  SIM_RECORD_LOCATION : bool;
  SIM_RECORD_GYROACCEL : bool;
  SIM_RECORD_VELOCITY : bool;
  SIM_RECORD_LIDAR : bool;
  TRANSFORMATIONS : option (list string);
  LIDAR_TYPE : string;
  SHOW_FPS : bool;
  USE_JOYSTICK_AS_DEFAULT : bool;
  HAVE_RGB_LED : bool;
  USE_FPV : bool;
  STOP_SIGN_DETECTOR : bool;
  USE_SSD1306_128_32 : bool;
  HAVE_MQTT_TELEMETRY : bool;
  PUB_CAMERA_IMAGES : bool
}.

(** [l += items] under [if b]. *)
Definition when {A} (b : bool) (items : list A) : list A :=
  if b then items else [].

Module Pipeline.

(** One [V.add(part, inputs, outputs, threaded, run_condition)].  An input
    may be [None], as the tachometers are given. *)
Record entry : Type := {
  part : string;
  inputs : list (option string);
  outputs : list string;
  threaded : bool;
  run_condition : option string
}.

Definition add (p : string) (ins : list (option string)) (outs : list string)
    (thr : bool) (rc : option string) (V : list entry) : list entry :=
  V ++ [{| part := p; inputs := ins; outputs := outs; threaded := thr;
           run_condition := rc |}].

(** The channels the parts of a pipeline write, and those they read. *)
Definition produced (V : list entry) : list string := flat_map outputs V.

Definition consumed (V : list entry) : list string :=
  flat_map (fun e => flat_map (fun i => match i with Some c => [c] | None => [] end)
                       (inputs e)) V.

(** The parts whose run condition is an output of no part registered
    before them, [seen] being the channels written before the pipeline. *)
Fixpoint unready (seen : list string) (V : list entry) : list entry :=
  match V with
  | [] => []
  | e :: rest =>
      match run_condition e with
      | Some c => if existsb (String.eqb c) seen then [] else [e]
      | None => []
      end ++ unready (outputs e ++ seen) rest
  end.

End Pipeline.

(** [add_camera], lines 796-859.  [camera_type] is the command-line option. *)
Definition add_camera (cfg : Config) (opt : Options) (camera_type : pyval)
    (V : list Pipeline.entry) : result (list Pipeline.entry) :=
  if eq_str camera_type "stereo" then
    match
      (if String.eqb (CAMERA_TYPE cfg) "WEBCAM" then Ok "Webcam"
       else if String.eqb (CAMERA_TYPE cfg) "CVCAM" then Ok "CvCam"
       else Raise (Exception ("Unsupported camera type: " +:+ CAMERA_TYPE cfg)))
    with
    | Raise e => Raise e
    | Ok cam =>
        Ok (Pipeline.add "StereoPair"
              [Some "cam/image_array_a"; Some "cam/image_array_b"]
              ["cam/image_array"] false None
              (Pipeline.add cam [] ["cam/image_array_b"] true None
                 (Pipeline.add cam [] ["cam/image_array_a"] true None V)))
    end
  else if String.eqb (CAMERA_TYPE cfg) "D435" then
    Ok (Pipeline.add "RealSense435i" []
          ["cam/image_array"; "cam/depth_array";
           "imu/acl_x"; "imu/acl_y"; "imu/acl_z";
           "imu/gyr_x"; "imu/gyr_y"; "imu/gyr_z"] true None V)
  else
    match get_camera cfg with
    | Raise e => Raise e
    | Ok cam =>
        let outputs :=
          ["cam/image_array"]
          ++ when (DONKEY_GYM cfg)
               (when (SIM_RECORD_LOCATION opt)
                  ["pos/pos_x"; "pos/pos_y"; "pos/pos_z"; "pos/speed"; "pos/cte"]
                ++ when (SIM_RECORD_GYROACCEL opt)
                  ["gyro/gyro_x"; "gyro/gyro_y"; "gyro/gyro_z";
                   "accel/accel_x"; "accel/accel_y"; "accel/accel_z"]
                ++ when (SIM_RECORD_VELOCITY opt) ["vel/vel_x"; "vel/vel_y"; "vel/vel_z"]
                ++ when (SIM_RECORD_LIDAR opt) ["lidar/dist_array"]) in
        Ok (Pipeline.add cam [] outputs true None V)
    end.

(** [add_odometry], lines 862-958.  The encoder, pin and serial-port
    constructors belong to the hardware collaborator. *)
Definition add_odometry (cfg : Config) (opt : Options)
    (V : list Pipeline.entry) : list Pipeline.entry :=
  if HAVE_ODOM cfg then
    if String.eqb (ENCODER_TYPE opt) "GPIO" || String.eqb (ENCODER_TYPE opt) "arduino" then
      if HAVE_ODOM_2 opt then
        Pipeline.add "Unicycle"
          [Some "enc/left/distance"; Some "enc/right/distance"; Some "enc/left/timestamp"]
          ["enc/distance"; "enc/speed"; "pos/x"; "pos/y"; "pos/angle";
           "vel/x"; "vel/y"; "vel/angle"; "nul/timestamp"] false None
          (Pipeline.add "Odometer"
             [Some "enc/right/revolutions"; Some "enc/right/timestamp"]
             ["enc/right/distance"; "enc/right/speed"; "enc/right/timestamp"] false None
             (Pipeline.add "Tachometer" [Some "throttle"; None]
                ["enc/right/revolutions"; "enc/right/timestamp"] true None
                (Pipeline.add "Odometer"
                   [Some "enc/left/revolutions"; Some "enc/left/timestamp"]
                   ["enc/left/distance"; "enc/left/speed"; "enc/left/timestamp"] false None
                   (Pipeline.add "Tachometer" [Some "throttle"; None]
                      ["enc/left/revolutions"; "enc/left/timestamp"] true None V))))
      else
        Pipeline.add "Bicycle"
          [Some "enc/distance"; Some "steering_angle"; Some "enc/timestamp"]
          ["nul/distance, nul/speed"; "pos/x"; "pos/y"; "pos/angle";
           "vel/x"; "vel/y"; "vel/angle"; "nul/timestamp"] false None
          (Pipeline.add "UnnormalizeSteeringAngle" [Some "steering"] ["steering_angle"]
             false None
             (Pipeline.add "Odometer" [Some "enc/revolutions"; Some "enc/timestamp"]
                ["enc/distance"; "enc/speed"; "enc/timestamp"] false None
                (Pipeline.add "Tachometer" [Some "throttle"; None]
                   ["enc/revolutions"; "enc/timestamp"] true None V)))
    else V
  else V.

(** [add_speed_control], lines 961-1016. *)
Definition add_speed_control (is_differential_drive : bool)
    (V : list Pipeline.entry) : list Pipeline.entry :=
  if is_differential_drive then
    Pipeline.add "StepSpeedController"
      [Some "left/throttle"; Some "enc/right/speed"; Some "right/speed"]
      ["right/throttle"] false (Some "use_speed_control")
      (Pipeline.add "StepSpeedController"
         [Some "left/throttle"; Some "enc/left/speed"; Some "left/speed"]
         ["left/throttle"] false (Some "use_speed_control")
         (Pipeline.add "InverseUnicycle"
            [Some "speed"; Some "angular_velocity"; Some "enc/timestamp"]
            ["left/speed"; "right/speed"; "nul"] false (Some "use_speed_control") V))
  else
    Pipeline.add "StepSpeedController"
      [Some "throttle"; Some "enc/speed"; Some "speed"]
      ["throttle"] false (Some "use_speed_control")
      (Pipeline.add "NormalizeSteeringAngle" [Some "steering_angle"] ["angle"]
         false (Some "use_speed_control")
         (Pipeline.add "InverseBicycle"
            [Some "speed"; Some "angular_velocity"; Some "enc/timestamp"]
            ["speed"; "steering_angle"; "nul"] false (Some "use_speed_control") V)).

(** [drive], lines 476-544: the command blend, then the final throttle by
    model type and drivetrain. *)
Definition add_command_stage (cfg : Config) (model_type : option string)
    (V : list Pipeline.entry) : list Pipeline.entry :=
  let V1 :=
    Pipeline.add "DriveMode"
      [Some "user/mode"; Some "user/angle"; Some "user/throttle";
       Some "pilot/angle"; Some "pilot/throttle"; Some "pilot/speed";
       Some "pilot/angular_velocity"]
      ["angle"; "throttle"; "speed"; "angular_velocity"] false None V in
  let V2 :=
    if have_speed_control cfg model_type
    then add_speed_control (is_differential_drive cfg) V1
    else V1 in
  if is_differential_drive cfg
  then Pipeline.add "TwoWheelSteeringThrottle" [Some "throttle"; Some "angle"]
         ["left/throttle"; "right/throttle"] false (Some "use_throttle_control") V2
  else V2.

(** What [drive] can raise beside the exceptions of [exn]. *)
Inductive drive_error : Type :=
| AttributeError (msg : string)
| Raised (e : exn).

(** [drive], lines 364-387 and 405-409: the channels given to the pilot.
    [model_type] is the model type in effect. *)
Definition pilot_inputs (cfg : Config) (opt : Options) (model_type : string)
    : result (list string) :=
  match
    (if TRAIN_BEHAVIORS cfg then Ok ["cam/image_array"; "behavior/one_hot_state_array"]
     else if USE_LIDAR opt then Ok ["cam/image_array"; "lidar/dist_array"]
     else if HAVE_ODOM cfg then Ok ["cam/image_array"; "enc/speed"]
     else if String.eqb model_type "imu" then
       if HAVE_IMU opt
       then Ok ["cam/image_array"; "imu/acl_x"; "imu/acl_y"; "imu/acl_z";
                "imu/gyr_x"; "imu/gyr_y"; "imu/gyr_z"]
       else Raise AssertionError
     else Ok ["cam/image_array"])
  with
  | Raise e => Raise e
  | Ok inputs =>
      match TRANSFORMATIONS opt with
      | Some (_ :: _) => Ok ("cam/image_array_trans" :: tail inputs)
      | _ => Ok inputs
      end
  end.

(** [drive], lines 394-400: the channels the pilot writes.  For a velocity
    model they are a tuple, which has no [append]. *)
Definition pilot_outputs (cfg : Config) (model_type : string)
    : drive_error + list string :=
  if endswith model_type "velocity" then
    if TRAIN_LOCALIZER cfg
    then inl (AttributeError "'tuple' object has no attribute 'append'")
    else inr ["pilot/norm_angular_velocity"; "pilot/norm_forward_velocity"]
  else
    inr (["pilot/angle"; "pilot/throttle"] ++ when (TRAIN_LOCALIZER cfg) ["pilot/loc"]).

(** [drive], lines 589-639: the channels the tub records and their types,
    two lists grown side by side. *)
Definition tub_inputs (cfg : Config) (opt : Options) : list string :=
  (if USE_LIDAR opt
   then ["cam/image_array"; "lidar/dist_array"; "user/angle"; "user/throttle"; "user/mode"]
   else ["cam/image_array"; "user/angle"; "user/throttle"; "user/mode"])
  ++ when (HAVE_ODOM cfg) ["enc/speed"]
  ++ when (TRAIN_BEHAVIORS cfg)
       ["behavior/state"; "behavior/label"; "behavior/one_hot_state_array"]
  ++ when (String.eqb (CAMERA_TYPE cfg) "D435" && REALSENSE_D435_DEPTH opt)
       ["cam/depth_array"]
  ++ when (HAVE_IMU opt || (String.eqb (CAMERA_TYPE cfg) "D435" && REALSENSE_D435_IMU opt))
       ["imu/acl_x"; "imu/acl_y"; "imu/acl_z"; "imu/gyr_x"; "imu/gyr_y"; "imu/gyr_z"]
  ++ when (DONKEY_GYM cfg)
       (when (SIM_RECORD_LOCATION opt)
          ["pos/pos_x"; "pos/pos_y"; "pos/pos_z"; "pos/speed"; "pos/cte"]
        ++ when (SIM_RECORD_GYROACCEL opt)
          ["gyro/gyro_x"; "gyro/gyro_y"; "gyro/gyro_z";
           "accel/accel_x"; "accel/accel_y"; "accel/accel_z"]
        ++ when (SIM_RECORD_VELOCITY opt) ["vel/vel_x"; "vel/vel_y"; "vel/vel_z"]
        ++ when (SIM_RECORD_LIDAR opt) ["lidar/dist_array"])
  ++ when (RECORD_DURING_AI cfg) ["pilot/angle"; "pilot/throttle"]
  ++ when (HAVE_PERFMON opt) ["perf/cpu"; "perf/mem"; "perf/freq"].

Definition tub_types (cfg : Config) (opt : Options) : list string :=
  (if USE_LIDAR opt
   then ["image_array"; "nparray"; "float"; "float"; "str"]
   else ["image_array"; "float"; "float"; "str"])
  ++ when (HAVE_ODOM cfg) ["float"]
  ++ when (TRAIN_BEHAVIORS cfg) ["int"; "str"; "vector"]
  ++ when (String.eqb (CAMERA_TYPE cfg) "D435" && REALSENSE_D435_DEPTH opt)
       ["gray16_array"]
  ++ when (HAVE_IMU opt || (String.eqb (CAMERA_TYPE cfg) "D435" && REALSENSE_D435_IMU opt))
       ["float"; "float"; "float"; "float"; "float"; "float"]
  ++ when (DONKEY_GYM cfg)
       (when (SIM_RECORD_LOCATION opt) ["float"; "float"; "float"; "float"; "float"]
        ++ when (SIM_RECORD_GYROACCEL opt)
             ["float"; "float"; "float"; "float"; "float"; "float"]
        ++ when (SIM_RECORD_VELOCITY opt) ["float"; "float"; "float"]
        ++ when (SIM_RECORD_LIDAR opt) ["nparray"])
  ++ when (RECORD_DURING_AI cfg) ["float"; "float"]
  ++ when (HAVE_PERFMON opt) ["float"; "float"; "float"].

(** The channels of every block the tub can record, each once, in the
    order of the source with [cfg.USE_LIDAR] set. *)
Definition tub_all_inputs : list string :=
  ["cam/image_array"; "lidar/dist_array"; "user/angle"; "user/throttle"; "user/mode";
   "enc/speed";
   "behavior/state"; "behavior/label"; "behavior/one_hot_state_array";
   "cam/depth_array";
   "imu/acl_x"; "imu/acl_y"; "imu/acl_z"; "imu/gyr_x"; "imu/gyr_y"; "imu/gyr_z";
   "pos/pos_x"; "pos/pos_y"; "pos/pos_z"; "pos/speed"; "pos/cte";
   "gyro/gyro_x"; "gyro/gyro_y"; "gyro/gyro_z";
   "accel/accel_x"; "accel/accel_y"; "accel/accel_z";
   "vel/vel_x"; "vel/vel_y"; "vel/vel_z";
   "pilot/angle"; "pilot/throttle";
   "perf/cpu"; "perf/mem"; "perf/freq"].

Section Startup.

Variable Model : Type.
Variable kl_load : string -> Model -> option exn * Model.
Variable kl_load_weights : string -> Model -> option exn * Model.
(** [keras.models.model_from_json] on the contents of the file, assigned
    to [kl.model]; opening or parsing may raise. *)
Variable kl_model_from_json : string -> Model -> option exn * Model.

(** What [load_model_json] prints beside the lines of [log_line]. *)
Inductive json_line : Type :=
| LoadingModelJson (path : string)
| FinishedLoadingJson
| PrintedJsonException (e : exn)
| ProblemsLoadingModelJson (path : string)
| UnknownExtension
| Console (l : log_line).

(** [load_model_json], lines 295-306: every exception is printed and
    dropped. *)
Definition load_model_json (json_fnm : string) (m : Model) : Model * list json_line :=
  match kl_model_from_json json_fnm m with
  | (Some e, m') =>
      (m', [LoadingModelJson json_fnm; PrintedJsonException e;
            ProblemsLoadingModelJson json_fnm])
  | (None, m') => (m', [LoadingModelJson json_fnm; FinishedLoadingJson])
  end.

(** How the loading step of [drive] ends: no model was asked for, a model
    was loaded and a reload callback bound, or [drive] returned on an
    unknown extension before adding any part of the reload chain. *)
Inductive startup : Type :=
| NoModel
| BoundReloadModel
| BoundReloadWeights
| DriveReturned.

(** [drive], lines 311-346: the model is loaded once at startup, by the
    format of its path.  [model_path] is the command-line option, [None]
    when it was not given. *)
Definition startup_load (model_path : option string) (m : Model)
    : result startup * Model * list json_line :=
  match model_path with
  | None | Some EmptyString => (Ok NoModel, m, [])
  | Some path =>
      if contains ".h5" path || contains ".trt" path
         || contains ".tflite" path || contains ".savedmodel" path
      then
        match load_model kl_load path {| kl_model := m; console := [] |} with
        | (Ok _, w) => (Ok BoundReloadModel, kl_model w, map Console (console w))
        | (Raise e, w) => (Raise e, kl_model w, map Console (console w))
        end
      else if contains ".json" path then
        let (m1, out1) := load_model_json path m in
        match load_weights kl_load_weights (replace path ".json" ".weights")
                {| kl_model := m1; console := [] |} with
        | (Ok _, w) => (Ok BoundReloadWeights, kl_model w, out1 ++ map Console (console w))
        | (Raise e, w) => (Raise e, kl_model w, out1 ++ map Console (console w))
        end
      else (Ok DriveReturned, m, [UnknownExtension])
  end.

End Startup.

Arguments load_model_json {Model} kl_model_from_json json_fnm m.
Arguments startup_load {Model} kl_load kl_load_weights kl_model_from_json model_path m.

(** [drive], lines 149-165 and 560-573: the condition parts over one tick,
    in registration order. *)
Definition tick_conditions (cfg : Config) (model_type : option string)
    (m : gmap string pyval) : gmap string pyval :=
  part_AiRecordingCondition cfg
    (part_AiRunCondition
       (tick_speed_conditions (have_speed_control cfg model_type)
          (part_PilotCondition m))).

(** The colour each rule of the indicator commands last, when it has one
    in the configuration. *)
Definition rule_colour (cfg : Config) (recording_alert : option alert)
    (behavior_state track_loc : option nat) (r : led_rule) : option rgb :=
  match r with
  | KnownLocation => match track_loc with Some loc => LOC_COLORS cfg !! loc | None => None end
  | ModelReloaded =>
      Some (MODEL_RELOADED_LED_R cfg, MODEL_RELOADED_LED_G cfg, MODEL_RELOADED_LED_B cfg)
  | RecordCountAlert =>
      match recording_alert with Some (AlertColor c) => Some c | _ => None end
  | BehaviorState =>
      match behavior_state with Some st => BEHAVIOR_LED_COLORS cfg !! st | None => None end
  | ActiveRecording | ModeBased => Some (LED_R cfg, LED_G cfg, LED_B cfg)
  end.

(** The record tracker over consecutive ticks, with what each returned. *)
Fixpoint RecordTracker_trace (cfg : Config) (self : RecordTracker.t)
    (inputs : list (option Z)) : list (result alert) :=
  match inputs with
  | [] => []
  | i :: rest =>
      let out := RecordTracker.run cfg self i in
      RecordTracker.returned out
        :: RecordTracker_trace cfg (RecordTracker.self_after out) rest
  end.

(** *** The whole pipeline of [drive] *)

(** [add_user_controller], lines 728-750.  [user_controller] is what
    [get_user_controller(cfg)] returns: the class of the joystick or RC
    controller, [None] when none is configured; its constructors belong to
    the input collaborator. *)
Definition add_user_controller (opt : Options) (use_joystick : bool)
    (user_controller : result (option string))
    (V : list Pipeline.entry) : result (list Pipeline.entry) :=
  let V1 :=
    Pipeline.add "LocalWebController" [Some "cam/image_array"; Some "tub/num_records"]
      ["user/angle"; "user/throttle"; "user/mode"; "recording"] true None V in
  if use_joystick || USE_JOYSTICK_AS_DEFAULT opt then
    match user_controller with
    | Raise e => Raise e
    | Ok (Some ctr) =>
        Ok (Pipeline.add ctr [Some "cam/image_array"]
              ["user/angle"; "user/throttle"; "user/mode"; "recording"] true None V1)
    | Ok None => Ok V1
    end
  else Ok V1.

(** [drive], lines 113-277: from the lidar to the first-person view. *)
Definition add_inputs_and_conditions (cfg : Config) (opt : Options) (use_joystick : bool)
    (user_controller : result (option string))
    (V : list Pipeline.entry) : result (list Pipeline.entry) :=
  let V1 :=
    V ++ when (USE_LIDAR opt && String.eqb (LIDAR_TYPE opt) "RP")
           [{| Pipeline.part := "RPLidar"; Pipeline.inputs := [];
               Pipeline.outputs := ["lidar/dist_array"]; Pipeline.threaded := true;
               Pipeline.run_condition := None |}]
      ++ when (SHOW_FPS opt)
           [{| Pipeline.part := "FrequencyLogger"; Pipeline.inputs := [];
               Pipeline.outputs := ["fps/current"; "fps/fps_list"];
               Pipeline.threaded := false; Pipeline.run_condition := None |}] in
  match add_user_controller opt use_joystick user_controller V1 with
  | Raise e => Raise e
  | Ok V2 =>
      Ok (V2 ++
          [{| Pipeline.part := "ThrottleFilter"; Pipeline.inputs := [Some "user/throttle"];
              Pipeline.outputs := ["user/throttle"]; Pipeline.threaded := false;
              Pipeline.run_condition := None |};
           {| Pipeline.part := "PilotCondition"; Pipeline.inputs := [Some "user/mode"];
              Pipeline.outputs := ["run_pilot"]; Pipeline.threaded := false;
              Pipeline.run_condition := None |};
           {| Pipeline.part := "SpeedControlCondition";
              Pipeline.inputs := [Some "user/mode"];
              Pipeline.outputs := ["use_speed_control"]; Pipeline.threaded := false;
              Pipeline.run_condition := None |};
           {| Pipeline.part := "NotCondition"; Pipeline.inputs := [Some "use_speed_control"];
              Pipeline.outputs := ["use_throttle_control"]; Pipeline.threaded := false;
              Pipeline.run_condition := None |}]
          ++ when (HAVE_RGB_LED opt && negb (DONKEY_GYM cfg))
               [{| Pipeline.part := "LedConditionLogic";
                   Pipeline.inputs :=
                     [Some "user/mode"; Some "recording"; Some "records/alert";
                      Some "behavior/state"; Some "modelfile/modified"; Some "pilot/loc"];
                   Pipeline.outputs := ["led/blink_rate"]; Pipeline.threaded := false;
                   Pipeline.run_condition := None |};
                {| Pipeline.part := "RGB_LED"; Pipeline.inputs := [Some "led/blink_rate"];
                   Pipeline.outputs := []; Pipeline.threaded := false;
                   Pipeline.run_condition := None |}]
          ++ [{| Pipeline.part := "RecordTracker";
                 Pipeline.inputs := [Some "tub/num_records"];
                 Pipeline.outputs := ["records/alert"]; Pipeline.threaded := false;
                 Pipeline.run_condition := None |}]
          ++ when (HAVE_IMU opt)
               [{| Pipeline.part := "IMU"; Pipeline.inputs := [];
                   Pipeline.outputs := ["imu/acl_x"; "imu/acl_y"; "imu/acl_z";
                                        "imu/gyr_x"; "imu/gyr_y"; "imu/gyr_z"];
                   Pipeline.threaded := true; Pipeline.run_condition := None |}]
          ++ when (USE_FPV opt)
               [{| Pipeline.part := "WebFpv"; Pipeline.inputs := [Some "cam/image_array"];
                   Pipeline.outputs := []; Pipeline.threaded := true;
                   Pipeline.run_condition := None |}])
  end.

(** [drive], lines 349-350: the watcher that signals the LED. *)
Definition model_file_watcher : Pipeline.entry :=
  {| Pipeline.part := "FileWatcher"; Pipeline.inputs := [];
     Pipeline.outputs := ["modelfile/modified"]; Pipeline.threaded := false;
     Pipeline.run_condition := None |}.

(** [drive], lines 354-359: the parts that reload the model file, each run
    under [ai_running]. *)
Definition reload_chain : list Pipeline.entry :=
  [{| Pipeline.part := "FileWatcher"; Pipeline.inputs := [];
      Pipeline.outputs := ["modelfile/dirty"]; Pipeline.threaded := false;
      Pipeline.run_condition := Some "ai_running" |};
   {| Pipeline.part := "DelayedTrigger"; Pipeline.inputs := [Some "modelfile/dirty"];
      Pipeline.outputs := ["modelfile/reload"]; Pipeline.threaded := false;
      Pipeline.run_condition := Some "ai_running" |};
   {| Pipeline.part := "TriggeredCallback"; Pipeline.inputs := [Some "modelfile/reload"];
      Pipeline.outputs := []; Pipeline.threaded := false;
      Pipeline.run_condition := Some "ai_running" |}].

(** [drive], lines 348-427: the reload chain and the pilot, added once a
    model has been loaded.  Collecting the pilot's channels may raise. *)
Definition add_pilot (cfg : Config) (opt : Options) (model_type : option string)
    (V : list Pipeline.entry) : drive_error + list Pipeline.entry :=
  let mt := resolve_model_type cfg model_type in
  match pilot_inputs cfg opt mt with
  | Raise e => inl (Raised e)
  | Ok inputs =>
      match pilot_outputs cfg mt with
      | inl e => inl e
      | inr outputs =>
          inr (V ++ [model_file_watcher] ++ reload_chain
               ++ when (TRAIN_BEHAVIORS cfg)
                    [{| Pipeline.part := "BehaviorPart"; Pipeline.inputs := [];
                        Pipeline.outputs := ["behavior/state"; "behavior/label";
                                             "behavior/one_hot_state_array"];
                        Pipeline.threaded := false; Pipeline.run_condition := None |}]
               ++ when (match TRANSFORMATIONS opt with Some (_ :: _) => true | _ => false end)
                    [{| Pipeline.part := "ImageAugmentation";
                        Pipeline.inputs := [Some "cam/image_array"];
                        Pipeline.outputs := ["cam/image_array_trans"];
                        Pipeline.threaded := false; Pipeline.run_condition := None |}]
               ++ [{| Pipeline.part := "KerasPilot"; Pipeline.inputs := map Some inputs;
                      Pipeline.outputs := outputs; Pipeline.threaded := false;
                      Pipeline.run_condition := Some "run_pilot" |}]
               ++ when (have_speed_control cfg model_type)
                    [{| Pipeline.part := "VelocityUnnormalize";
                        Pipeline.inputs := [Some "pilot/norm_forward_velocity"];
                        Pipeline.outputs := ["pilot/speed"]; Pipeline.threaded := false;
                        Pipeline.run_condition := Some "use_speed_control" |};
                     {| Pipeline.part :=
                          if is_differential_drive cfg
                          then "UnicycleUnnormalizeAngularVelocity"
                          else "BicycleUnnormalizeAngularVelocity";
                        Pipeline.inputs := [Some "pilot/norm_angular_velocity"];
                        Pipeline.outputs := ["pilot/angular_velocity"];
                        Pipeline.threaded := false;
                        Pipeline.run_condition := Some "use_speed_control" |}])
      end
  end.

(** A drivetrain part as a pipeline entry: no output, no run condition. *)
Definition actuator_entry (p : part_entry) : Pipeline.entry :=
  {| Pipeline.part := part p; Pipeline.inputs := map Some (inputs p);
     Pipeline.outputs := []; Pipeline.threaded := threaded p;
     Pipeline.run_condition := None |}.

(** [drive], lines 433-660: from the stop-sign detector to the camera
    publisher.  [telem_inputs] is what the telemetry part asks to read. *)
Definition add_outputs (cfg : Config) (opt : Options) (model_type : option string)
    (telem_inputs : list string)
    (V : list Pipeline.entry) : result (list Pipeline.entry) :=
  let V1 :=
    V ++ when (STOP_SIGN_DETECTOR opt)
           [{| Pipeline.part := "StopSignDetector";
               Pipeline.inputs := [Some "cam/image_array"; Some "pilot/throttle"];
               Pipeline.outputs := ["pilot/throttle"; "cam/image_array"];
               Pipeline.threaded := false; Pipeline.run_condition := None |};
            {| Pipeline.part := "ThrottleFilter"; Pipeline.inputs := [Some "pilot/throttle"];
               Pipeline.outputs := ["pilot/throttle"]; Pipeline.threaded := false;
               Pipeline.run_condition := None |}]
      ++ [{| Pipeline.part := "AiLaunch";
             Pipeline.inputs := [Some "user/mode"; Some "pilot/throttle"; Some "pilot/speed"];
             Pipeline.outputs := ["pilot/throttle"; "pilot/speed"];
             Pipeline.threaded := false; Pipeline.run_condition := None |}] in
  let V2 :=
    add_command_stage cfg model_type V1
    ++ [{| Pipeline.part := "AiRunCondition"; Pipeline.inputs := [Some "user/mode"];
           Pipeline.outputs := ["ai_running"]; Pipeline.threaded := false;
           Pipeline.run_condition := None |}]
    ++ when (RECORD_DURING_AI cfg)
         [{| Pipeline.part := "AiRecordingCondition";
             Pipeline.inputs := [Some "user/mode"; Some "recording"];
             Pipeline.outputs := ["recording"]; Pipeline.threaded := false;
             Pipeline.run_condition := None |}] in
  match add_drivetrain cfg [] with
  | Raise e => Raise e
  | Ok actuators =>
      Ok (V2 ++ map actuator_entry actuators
          ++ when (USE_SSD1306_128_32 opt)
               [{| Pipeline.part := "OLEDPart";
                   Pipeline.inputs := [Some "recording"; Some "tub/num_records";
                                       Some "user/mode"];
                   Pipeline.outputs := []; Pipeline.threaded := true;
                   Pipeline.run_condition := None |}]
          ++ when (HAVE_PERFMON opt)
               [{| Pipeline.part := "PerfMonitor"; Pipeline.inputs := [];
                   Pipeline.outputs := ["perf/cpu"; "perf/mem"; "perf/freq"];
                   Pipeline.threaded := true; Pipeline.run_condition := None |}]
          ++ [{| Pipeline.part := "TubWriter";
                 Pipeline.inputs := map Some (tub_inputs cfg opt);
                 Pipeline.outputs := ["tub/num_records"]; Pipeline.threaded := false;
                 Pipeline.run_condition := Some "recording" |}]
          ++ when (HAVE_MQTT_TELEMETRY opt)
               [{| Pipeline.part := "MqttTelemetry"; Pipeline.inputs := map Some telem_inputs;
                   Pipeline.outputs := ["tub/queue_size"]; Pipeline.threaded := true;
                   Pipeline.run_condition := None |}]
          ++ when (PUB_CAMERA_IMAGES opt)
               [{| Pipeline.part := "ImgArrToJpg"; Pipeline.inputs := [Some "cam/image_array"];
                   Pipeline.outputs := ["jpg/bin"]; Pipeline.threaded := false;
                   Pipeline.run_condition := None |};
                {| Pipeline.part := "TCPServeValue"; Pipeline.inputs := [Some "jpg/bin"];
                   Pipeline.outputs := []; Pipeline.threaded := false;
                   Pipeline.run_condition := None |}])
  end.

(** [drive], lines 57-674, as the pipeline it starts.  [loaded] is how the
    loading of lines 311-346 ended; the result is [None] when [drive]
    returns on an unknown model extension without starting the vehicle.
    [cfg] has every option the code reads, and the constructors of the
    parts return; the button triggers set on the controller (lines 253-261,
    367-370, 547-549) add no part. *)
Definition drive_pipeline (cfg : Config) (opt : Options) (model_type : option string)
    (camera_type : pyval) (use_joystick : bool)
    (user_controller : result (option string)) (loaded : result startup)
    (telem_inputs : list string) : drive_error + option (list Pipeline.entry) :=
  match add_camera cfg opt camera_type (add_odometry cfg opt []) with
  | Raise e => inl (Raised e)
  | Ok V1 =>
      match add_inputs_and_conditions cfg opt use_joystick user_controller V1 with
      | Raise e => inl (Raised e)
      | Ok V2 =>
          match loaded with
          | Raise e => inl (Raised e)
          | Ok DriveReturned => inr None
          | Ok load =>
              match (match load with
                     | NoModel => inr V2
                     | _ => add_pilot cfg opt model_type V2
                     end) with
              | inl e => inl e
              | inr V3 =>
                  match add_outputs cfg opt model_type telem_inputs V3 with
                  | Raise e => inl (Raised e)
                  | Ok V4 => inr (Some V4)
                  end
              end
          end
      end
  end.

(** The conditions computed from the driving mode before any part that
    may be gated is added. *)
Definition early_conditions : list string :=
  ["run_pilot"; "use_speed_control"; "use_throttle_control"; "recording"].

(** A part that runs on every tick and writes neither [ai_running] nor
    'steering'. *)
Definition ungated (e : Pipeline.entry) : Prop :=
  Pipeline.run_condition e = None
  /\ ~ In "ai_running" (Pipeline.outputs e)
  /\ ~ In "steering" (Pipeline.outputs e).

(** A part that does not write 'steering' and whose run condition, if it
    has one, is an early condition, or [ai_running] for a reload part. *)
Definition gated (e : Pipeline.entry) : Prop :=
  ~ In "steering" (Pipeline.outputs e)
  /\ match Pipeline.run_condition e with
     | None => True
     | Some c =>
         In c early_conditions
         \/ (c = "ai_running"
             /\ In (Pipeline.part e) ["FileWatcher"; "DelayedTrigger"; "TriggeredCallback"])
     end.

(** Options to evaluate the assembly on, and a loader that always raises. *)
Definition example_opt : Options := {|
  USE_LIDAR := false; HAVE_IMU := false; HAVE_PERFMON := false;
  HAVE_ODOM_2 := false; ENCODER_TYPE := "GPIO";
  REALSENSE_D435_DEPTH := false; REALSENSE_D435_IMU := false;
  SIM_RECORD_LOCATION := false; SIM_RECORD_GYROACCEL := false;
  SIM_RECORD_VELOCITY := false; SIM_RECORD_LIDAR := false;
  TRANSFORMATIONS := None;
  LIDAR_TYPE := "RP"; SHOW_FPS := false; USE_JOYSTICK_AS_DEFAULT := false;
  HAVE_RGB_LED := true; USE_FPV := false; STOP_SIGN_DETECTOR := false;
  USE_SSD1306_128_32 := false; HAVE_MQTT_TELEMETRY := false;
  PUB_CAMERA_IMAGES := false
|}.

Definition failing_loader (path : string) (m : string) : option exn * string :=
  (Some (Exception "no such file"), m).

(** The pipeline of a car with one encoder, a PWM drivetrain and a model
    loaded from a '.h5' file. *)
Definition example_pipeline : list Pipeline.entry :=
  match drive_pipeline example_cfg example_opt None (PyStr "single") false (Ok None)
          (Ok BoundReloadModel) [] with
  | inr (Some V) => V
  | _ => []
  end.

(* ===================================================================== *)
(** * Properties                                                          *)
(* ===================================================================== *)

(** ** Python helpers *)

Lemma eq_str_true (v : pyval) (lit : string) :
  eq_str v lit = true <-> v = PyStr lit.
Proof.
  destruct v as [| b | z | f | s]; simpl; try (split; [discriminate | intro H; discriminate H]).
  rewrite String.eqb_eq. split; [intros -> | intros [= ->]]; reflexivity.
Qed.

Lemma eq_str_false (v : pyval) (lit : string) :
  eq_str v lit = false <-> v <> PyStr lit.
Proof.
  rewrite <- eq_str_true. destruct (eq_str v lit); split; intros H; congruence.
Qed.

Lemma ne_str_true (v : pyval) (lit : string) :
  ne_str v lit = true <-> v <> PyStr lit.
Proof. unfold ne_str. rewrite negb_true_iff. apply eq_str_false. Qed.

Lemma endswith_app (p suffix : string) : endswith (p +:+ suffix) suffix = true.
Proof.
  induction p as [| c p IH]; simpl.
  - destruct suffix; simpl; rewrite ?Ascii.eqb_refl, ?String.eqb_refl; reflexivity.
  - rewrite IH. apply orb_true_r.
Qed.

Lemma endswith_spec (s suffix : string) :
  endswith s suffix = true <-> exists p, s = p +:+ suffix.
Proof.
  split.
  - induction s as [| c s IH]; intros H; cbn [endswith] in H;
      apply orb_true_iff in H as [H | H].
    + apply String.eqb_eq in H. exists "". now subst.
    + discriminate H.
    + apply String.eqb_eq in H. exists "". now subst.
    + destruct (IH H) as [p ->]. now exists (String c p).
  - intros [p ->]. apply endswith_app.
Qed.

(** ** Channel store *)

Lemma mem_get_put_eq (m : gmap string pyval) (k : string) (v : pyval) :
  mem_get (mem_put k v m) k = v.
Proof. unfold mem_get, mem_put. now rewrite lookup_insert_eq. Qed.

Lemma mem_get_put_ne (m : gmap string pyval) (k k' : string) (v : pyval) :
  k <> k' -> mem_get (mem_put k v m) k' = mem_get m k'.
Proof. intros H. unfold mem_get, mem_put. now rewrite lookup_insert_ne. Qed.

(** ** The command blend *)

Lemma float_truthy_null_or_zero (x : option float) :
  float_truthy x = negb (null_or_zero x).
Proof. destruct x; reflexivity. Qed.

Lemma DriveMode_run_in_table cfg mode ua ut pa pt ps pav :
  blend cfg mode ua ut pa pt ps pav (DriveMode_run cfg mode ua ut pa pt ps pav).
Proof.
  unfold DriveMode_run.
  destruct (eq_str mode "user") eqn:Hu.
  - apply blend_user. now apply eq_str_true.
  - apply eq_str_false in Hu.
    destruct (eq_str mode "local_angle") eqn:Hl.
    + replace (if float_truthy pa then pa else Some 0%float) with (pilot_or_zero pa)
        by (unfold pilot_or_zero; rewrite float_truthy_null_or_zero; now destruct (null_or_zero pa)).
      apply blend_local_angle. now apply eq_str_true.
    + apply eq_str_false in Hl.
      replace (if float_truthy pa then pa else Some 0%float) with (pilot_or_zero pa)
        by (unfold pilot_or_zero; rewrite float_truthy_null_or_zero; now destruct (null_or_zero pa)).
      replace (if float_truthy pt
               then option_map (fun t => (t * AI_THROTTLE_MULT cfg)%float) pt
               else Some 0%float)
        with (scaled_or_zero (AI_THROTTLE_MULT cfg) pt)
        by (unfold scaled_or_zero; destruct pt as [t |]; [| reflexivity];
            rewrite float_truthy_null_or_zero; now destruct (null_or_zero (Some t))).
      now apply blend_otherwise.
Qed.

Lemma blend_functional cfg mode ua ut pa pt ps pav c1 c2 :
  blend cfg mode ua ut pa pt ps pav c1 ->
  blend cfg mode ua ut pa pt ps pav c2 -> c1 = c2.
Proof.
  intros H1 H2. destruct H1; inversion H2; subst; try reflexivity; congruence.
Qed.

(** C1.  For every mode and every combination of the six command inputs,
    [DriveMode.run] returns exactly the row of the blend table for that
    mode: the user's angle and throttle in mode 'user'; the pilot's angle
    (0.0 when null or zero) with the user's throttle in mode 'local_angle';
    and for any other mode the pilot's angle (0.0 when null or zero), the
    pilot's throttle times [AI_THROTTLE_MULT] (0.0 when null or zero), and
    the pilot's speed and angular velocity unchanged. *)
Theorem DriveMode_run_blend_table :
  forall cfg mode ua ut pa pt ps pav c,
    blend cfg mode ua ut pa pt ps pav c <->
    c = DriveMode_run cfg mode ua ut pa pt ps pav.
Proof.
  intros. split.
  - intros H. eapply blend_functional; [exact H | apply DriveMode_run_in_table].
  - intros ->. apply DriveMode_run_in_table.
Qed.

(** The throttle of the specification's third testable property. *)
Example DriveMode_run_local_scaled :
  throttle (DriveMode_run example_cfg (PyStr "local") None None
              (Some 0.25%float) (Some 0.5%float) None None) = Some 0.4%float
  /\ throttle (DriveMode_run example_cfg (PyStr "local") None None
              None None None None) = Some 0%float.
Proof. split; reflexivity. Qed.

(** ** Mode conditions *)

Lemma PilotCondition_run_ne (mode : pyval) :
  PilotCondition_run mode = ne_str mode "user".
Proof. unfold PilotCondition_run, ne_str. now destruct (eq_str mode "user"). Qed.

Lemma AiRunCondition_run_ne (mode : pyval) :
  AiRunCondition_run mode = ne_str mode "user".
Proof. unfold AiRunCondition_run, ne_str. now destruct (eq_str mode "user"). Qed.

(** C2.  For every mode value, [PilotCondition.run] and
    [AiRunCondition.run] both return [mode != 'user']: they are true
    exactly when the mode is not the string 'user', and so are the
    [run_pilot] and [ai_running] channels they write. *)
Theorem run_pilot_ai_running_iff_not_user :
  forall mode : pyval,
    PilotCondition_run mode = ne_str mode "user"
    /\ AiRunCondition_run mode = ne_str mode "user"
    /\ (PilotCondition_run mode = true <-> mode <> PyStr "user")
    /\ (AiRunCondition_run mode = true <-> mode <> PyStr "user")
    /\ forall m : gmap string pyval,
         mem_get m "user/mode" = mode ->
         mem_get (part_PilotCondition m) "run_pilot" = PyBool (ne_str mode "user")
         /\ mem_get (part_AiRunCondition m) "ai_running" = PyBool (ne_str mode "user").
Proof.
  intros mode.
  pose proof (PilotCondition_run_ne mode) as Hp.
  pose proof (AiRunCondition_run_ne mode) as Ha.
  repeat split; try assumption.
  - rewrite Hp. apply ne_str_true.
  - rewrite Hp. apply ne_str_true.
  - rewrite Ha. apply ne_str_true.
  - rewrite Ha. apply ne_str_true.
  - unfold part_PilotCondition. rewrite mem_get_put_eq. congruence.
  - unfold part_AiRunCondition. rewrite mem_get_put_eq. congruence.
Qed.

Lemma SpeedControlCondition_run_true (have : bool) (mode : pyval) :
  SpeedControlCondition_run have mode = true <-> have = true /\ mode = PyStr "local".
Proof.
  unfold SpeedControlCondition_run. rewrite andb_true_iff, eq_str_true. reflexivity.
Qed.

Lemma tick_speed_conditions_channels (have : bool) (m : gmap string pyval) :
  let m' := tick_speed_conditions have m in
  mem_get m' "use_speed_control"
    = PyBool (SpeedControlCondition_run have (mem_get m "user/mode"))
  /\ mem_get m' "use_throttle_control"
    = PyBool (negb (SpeedControlCondition_run have (mem_get m "user/mode"))).
Proof.
  unfold tick_speed_conditions, part_NotCondition, part_SpeedControlCondition.
  split.
  - rewrite mem_get_put_ne by discriminate. apply mem_get_put_eq.
  - rewrite !mem_get_put_eq. reflexivity.
Qed.

(** C3.  For every mode value, [SpeedControlCondition.run] is true exactly
    when the capability flag is set and the mode is 'local'; [NotCondition]
    makes [use_throttle_control] the negation of [use_speed_control]; so
    after the two parts have run in a tick, exactly one of the two
    channels is true. *)
Theorem use_speed_xor_throttle_control :
  forall (have : bool) (m : gmap string pyval),
    let mode := mem_get m "user/mode" in
    let m' := tick_speed_conditions have m in
    (SpeedControlCondition_run have mode = true <-> have = true /\ mode = PyStr "local")
    /\ NotCondition_run (PyBool (SpeedControlCondition_run have mode))
       = negb (SpeedControlCondition_run have mode)
    /\ truthy (mem_get m' "use_speed_control") = SpeedControlCondition_run have mode
    /\ truthy (mem_get m' "use_throttle_control")
       = negb (truthy (mem_get m' "use_speed_control"))
    /\ xorb (truthy (mem_get m' "use_speed_control"))
            (truthy (mem_get m' "use_throttle_control")) = true.
Proof.
  intros have m mode m'.
  destruct (tick_speed_conditions_channels have m) as [Hs Ht].
  fold mode in Hs, Ht. fold m' in Hs, Ht.
  rewrite Hs, Ht. cbn [truthy NotCondition_run].
  split; [apply SpeedControlCondition_run_true |].
  split; [reflexivity |].
  split; [reflexivity |].
  split; [reflexivity |].
  now destruct (SpeedControlCondition_run have mode).
Qed.

(** The capability flag is the conjunction of the two configuration
    facts. *)
Lemma have_speed_control_iff (cfg : Config) (model_type : option string) :
  have_speed_control cfg model_type = true <->
  HAVE_ODOM cfg = true /\ exists p, resolve_model_type cfg model_type = p +:+ "velocity".
Proof.
  unfold have_speed_control, is_velocity_model.
  rewrite andb_true_iff, endswith_spec. reflexivity.
Qed.

(** C9.  The capability flag given to [SpeedControlCondition] is the
    conjunction of [cfg.HAVE_ODOM] and of the model type in effect ending
    with 'velocity'; it depends on the configuration and the command line
    only.  The condition, and the [use_speed_control] channel it writes,
    are true exactly when both facts hold and the mode is 'local'; unless
    both facts hold they are false for every mode. *)
Theorem use_speed_control_needs_odom_and_velocity :
  forall (cfg : Config) (model_type : option string),
    (have_speed_control cfg model_type = true
     <-> HAVE_ODOM cfg = true
         /\ exists p, resolve_model_type cfg model_type = p +:+ "velocity")
    /\ (forall mode : pyval,
          SpeedControlCondition_run (have_speed_control cfg model_type) mode = true
          <-> HAVE_ODOM cfg = true
              /\ (exists p, resolve_model_type cfg model_type = p +:+ "velocity")
              /\ mode = PyStr "local")
    /\ (forall m : gmap string pyval,
          mem_get (part_SpeedControlCondition (have_speed_control cfg model_type) m)
            "use_speed_control" = PyBool true
          <-> HAVE_ODOM cfg = true
              /\ (exists p, resolve_model_type cfg model_type = p +:+ "velocity")
              /\ mem_get m "user/mode" = PyStr "local")
    /\ (HAVE_ODOM cfg = false
        \/ (forall p, resolve_model_type cfg model_type <> p +:+ "velocity") ->
        have_speed_control cfg model_type = false
        /\ forall (mode : pyval) (m : gmap string pyval),
             SpeedControlCondition_run (have_speed_control cfg model_type) mode = false
             /\ mem_get (part_SpeedControlCondition (have_speed_control cfg model_type) m)
                  "use_speed_control" = PyBool false).
Proof.
  intros cfg model_type.
  pose proof (have_speed_control_iff cfg model_type) as Hflag.
  assert (Hrun : forall mode : pyval,
             SpeedControlCondition_run (have_speed_control cfg model_type) mode = true
             <-> HAVE_ODOM cfg = true
                 /\ (exists p, resolve_model_type cfg model_type = p +:+ "velocity")
                 /\ mode = PyStr "local").
  { intros mode. rewrite SpeedControlCondition_run_true, Hflag. tauto. }
  split; [exact Hflag |]. split; [exact Hrun |]. split.
  - intros m. unfold part_SpeedControlCondition. rewrite mem_get_put_eq, <- Hrun.
    split; [now intros [= ->] | now intros ->].
  - intros H.
    assert (Hf : have_speed_control cfg model_type = false).
    { apply not_true_is_false. rewrite Hflag. intros [Ho [p Hp]].
      destruct H as [H | H]; [congruence | exact (H p Hp)]. }
    split; [exact Hf |].
    intros mode m. rewrite Hf. split; [reflexivity |].
    unfold part_SpeedControlCondition. now rewrite mem_get_put_eq.
Qed.

Lemma use_speed_control_needs_odom_and_velocity_witness :
  have_speed_control example_cfg None = false
  /\ forall (mode : pyval) (m : gmap string pyval),
       SpeedControlCondition_run (have_speed_control example_cfg None) mode = false
       /\ mem_get (part_SpeedControlCondition (have_speed_control example_cfg None) m)
            "use_speed_control" = PyBool false.
Proof.
  apply (use_speed_control_needs_odom_and_velocity example_cfg None).
  right. intros p Hp.
  assert (E : endswith (resolve_model_type example_cfg None) "velocity" = true)
    by (apply endswith_spec; now exists p).
  vm_compute in E. discriminate E.
Defined.

(** C6.  With [cfg.RECORD_DURING_AI] set, the recording condition returns
    true for every mode other than 'user', whatever the recording flag, and
    returns the recording flag itself in mode 'user'; the [recording]
    channel that gates the tub writer is therefore true on every tick of
    an autonomous mode. *)
Theorem AiRecordingCondition_records_autonomous :
  forall (cfg : Config) (m : gmap string pyval),
    RECORD_DURING_AI cfg = true ->
    let mode := mem_get m "user/mode" in
    let recording := mem_get m "recording" in
    let m' := part_AiRecordingCondition cfg m in
    (mode <> PyStr "user" ->
       AiRecordingCondition_run mode recording = PyBool true
       /\ run_condition "recording" m' = true)
    /\ (mode = PyStr "user" ->
       AiRecordingCondition_run mode recording = recording
       /\ mem_get m' "recording" = recording).
Proof.
  intros cfg m Hcfg mode recording m'.
  assert (Hm : mem_get m' "recording" = AiRecordingCondition_run mode recording).
  { unfold m', part_AiRecordingCondition. rewrite Hcfg. apply mem_get_put_eq. }
  unfold run_condition. rewrite Hm. unfold AiRecordingCondition_run. split.
  - intros Hne. apply eq_str_false in Hne. rewrite Hne. now split.
  - intros He. apply eq_str_true in He. rewrite He. now split.
Qed.

Lemma AiRecordingCondition_records_autonomous_witness :
  AiRecordingCondition_run (PyStr "local") (PyBool false) = PyBool true
  /\ run_condition "recording"
       (part_AiRecordingCondition example_cfg
          (mem_put "user/mode" (PyStr "local") (mem_put "recording" (PyBool false) ∅)))
     = true.
Proof.
  pose proof (AiRecordingCondition_records_autonomous example_cfg
    (mem_put "user/mode" (PyStr "local") (mem_put "recording" (PyBool false) ∅))
    eq_refl) as [H _].
  rewrite mem_get_put_eq in H.
  rewrite mem_get_put_ne, mem_get_put_eq in H by discriminate.
  apply H. discriminate.
Defined.

(** ** The record tracker *)

Lemma RecordTracker_after_absent (cfg : Config) (n : nat) :
  forall self, RecordTracker_after cfg self (repeat None n) = self.
Proof.
  induction n as [| n IH]; intros self; [reflexivity |].
  cbn [repeat RecordTracker_after fold_left]. apply IH.
Qed.

(** C10.  On a tick whose record count is absent ([num_records is None]),
    [RecordTracker.run] returns 0 at once, whatever the configuration and
    whatever alert is pending, prints nothing, and leaves the last printed
    count, the alert duration and the force-alert flag as they were; so
    does any run of such ticks. *)
Theorem RecordTracker_run_absent :
  forall (cfg : Config) (self : RecordTracker.t),
    let out := RecordTracker.run cfg self None in
    RecordTracker.returned out = Ok AlertOff
    /\ RecordTracker.printed out = []
    /\ RecordTracker.last_num_rec_print (RecordTracker.self_after out)
       = RecordTracker.last_num_rec_print self
    /\ RecordTracker.dur_alert (RecordTracker.self_after out)
       = RecordTracker.dur_alert self
    /\ RecordTracker.force_alert (RecordTracker.self_after out)
       = RecordTracker.force_alert self
    /\ forall n, RecordTracker_after cfg self (repeat None n) = self.
Proof.
  intros cfg self out. subst out. cbn [RecordTracker.run].
  cbn [RecordTracker.returned RecordTracker.printed RecordTracker.self_after].
  repeat (split; [reflexivity |]).
  intros n. apply RecordTracker_after_absent.
Qed.

(** With a count present the tracker does act: at 3000 records the alert
    starts, the count is printed, and the colour of the 3000 row is
    returned; a pending forced alert survives an absent tick. *)
Example RecordTracker_run_present :
  RecordTracker.run example_cfg RecordTracker.init (Some 3000%Z)
  = {| RecordTracker.returned := Ok (AlertColor (5, 5, 5)%Z);
       RecordTracker.self_after :=
         {| RecordTracker.last_num_rec_print := 3000;
            RecordTracker.dur_alert := 44;
            RecordTracker.force_alert := 0 |};
       RecordTracker.printed := [3000%Z] |}.
Proof. reflexivity. Qed.

Example RecordTracker_forced_alert_kept :
  RecordTracker.self_after
    (RecordTracker.run example_cfg
       (RecordTracker.show_record_count_status RecordTracker.init) None)
  = RecordTracker.show_record_count_status RecordTracker.init.
Proof. reflexivity. Qed.

(** ** The LED priority logic *)

Lemma is_some_lookup_lt {A} (l : list A) (i : nat) :
  is_some (l !! i) = true <-> (i < length l)%nat.
Proof.
  rewrite <- lookup_lt_is_Some. unfold is_some.
  destruct (l !! i); split; intros H; try reflexivity; try discriminate.
  - eauto.
  - now destruct H.
Qed.

(** The priority order, read off the first matching rule. *)
Lemma first_matching_cases (model_type : string) (mode recording : pyval)
    (recording_alert : option alert) (behavior_state : option nat)
    (model_file_changed : pyval) (track_loc : option nat) :
  first_matching model_type mode recording recording_alert behavior_state
    model_file_changed track_loc
  = if is_some track_loc then KnownLocation
    else if truthy model_file_changed then ModelReloaded
    else if alert_truthy recording_alert then RecordCountAlert
    else if is_some behavior_state && String.eqb model_type "behavior" then BehaviorState
    else if truthy recording then ActiveRecording
    else ModeBased.
Proof.
  unfold first_matching, led_priority. cbn [List.find rule_matches].
  destruct (is_some track_loc); [reflexivity |].
  destruct (truthy model_file_changed); [reflexivity |].
  destruct (alert_truthy recording_alert); [reflexivity |].
  destruct (is_some behavior_state && String.eqb model_type "behavior"); [reflexivity |].
  destruct (truthy recording); reflexivity.
Qed.

(** What a run returns, by the first matching rule. *)
Lemma LedConditionLogic_run_rule :
  forall (cfg : Config) (model_type : string) (mode recording : pyval)
         (recording_alert : option alert) (behavior_state : option nat)
         (model_file_changed : pyval) (track_loc : option nat) (led : list rgb),
    let rule := first_matching model_type mode recording recording_alert
                  behavior_state model_file_changed track_loc in
    fst (LedConditionLogic_run cfg model_type mode recording recording_alert
           behavior_state model_file_changed track_loc led)
    = if rule_colour_configured cfg behavior_state track_loc rule
      then Ok (rule_rate cfg mode rule)
      else Raise IndexError.
Proof.
  intros cfg model_type mode recording recording_alert behavior_state
         model_file_changed track_loc led rule.
  subst rule. rewrite first_matching_cases. unfold LedConditionLogic_run.
  destruct track_loc as [loc |]; cbn [is_some].
  { cbn [rule_colour_configured rule_rate].
    destruct (LOC_COLORS cfg !! loc); reflexivity. }
  destruct (truthy model_file_changed); [reflexivity |].
  destruct recording_alert as [[| c] |]; cbn [alert_truthy]; try reflexivity.
  all: destruct behavior_state as [st |]; cbn [is_some andb].
  all: try (destruct (String.eqb model_type "behavior");
            [cbn [rule_colour_configured rule_rate];
             destruct (BEHAVIOR_LED_COLORS cfg !! st); reflexivity |]).
  all: destruct (truthy recording); [reflexivity |].
  all: cbn [rule_colour_configured rule_rate]; unfold mode_rate.
  all: destruct (eq_str mode "user"); [reflexivity |].
  all: destruct (eq_str mode "local_angle"); [reflexivity |].
  all: destruct (eq_str mode "local"); reflexivity.
Qed.

(** With every index in range, the rate of the first matching rule is
    returned. *)
Lemma LedConditionLogic_run_in_range (cfg : Config) (model_type : string)
    (mode recording : pyval) (recording_alert : option alert)
    (behavior_state : option nat) (model_file_changed : pyval)
    (track_loc : option nat) (led : list rgb) :
  (forall loc, track_loc = Some loc -> (loc < length (LOC_COLORS cfg))%nat) ->
  (forall st, behavior_state = Some st -> (st < length (BEHAVIOR_LED_COLORS cfg))%nat) ->
  fst (LedConditionLogic_run cfg model_type mode recording recording_alert
         behavior_state model_file_changed track_loc led)
  = Ok (rule_rate cfg mode
          (first_matching model_type mode recording recording_alert
             behavior_state model_file_changed track_loc)).
Proof.
  intros Hloc Hst. rewrite LedConditionLogic_run_rule.
  set (rule := first_matching _ _ _ _ _ _ _).
  assert (H : rule_colour_configured cfg behavior_state track_loc rule = true).
  { destruct rule; cbn [rule_colour_configured]; try reflexivity.
    - destruct track_loc as [loc |]; [| reflexivity].
      apply is_some_lookup_lt. now apply Hloc.
    - destruct behavior_state as [st |]; [| reflexivity].
      apply is_some_lookup_lt. now apply Hst. }
  now rewrite H.
Qed.

(** C7, as the code has it.  For every input tuple the LED logic applies
    the first matching rule of the priority order known-location,
    model-just-reloaded, record-count alert, behaviour-state,
    active-recording, mode-based (1 for 'user', 0.5 for 'local_angle', 0.1
    for 'local', 0 otherwise): it returns that rule's blink rate when the
    colour the rule commands is configured, and raises [IndexError] when
    the location or behaviour index has no colour in the configuration. *)
Theorem LedConditionLogic_run_first_matching_rule :
  forall (cfg : Config) (model_type : string) (mode recording : pyval)
         (recording_alert : option alert) (behavior_state : option nat)
         (model_file_changed : pyval) (track_loc : option nat) (led : list rgb),
    let rule := first_matching model_type mode recording recording_alert
                  behavior_state model_file_changed track_loc in
    let returned := fst (LedConditionLogic_run cfg model_type mode recording
                           recording_alert behavior_state model_file_changed
                           track_loc led) in
    (rule_colour_configured cfg behavior_state track_loc rule = true ->
       returned = Ok (rule_rate cfg mode rule))
    /\ (rule_colour_configured cfg behavior_state track_loc rule = false ->
       returned = Raise IndexError)
    /\ (rule = ModeBased -> returned = Ok (mode_rate mode)).
Proof.
  intros cfg model_type mode recording recording_alert behavior_state
         model_file_changed track_loc led rule returned.
  assert (H : returned
              = if rule_colour_configured cfg behavior_state track_loc rule
                then Ok (rule_rate cfg mode rule) else Raise IndexError)
    by apply LedConditionLogic_run_rule.
  split; [| split].
  - intros Hc. now rewrite Hc in H.
  - intros Hc. now rewrite Hc in H.
  - intros Hr. rewrite Hr in H. exact H.
Qed.

(** C7 as stated fails: with the two behaviour colours of [example_cfg], a
    behaviour model and behaviour state 2, the behaviour-state rule is the
    first to match, and the run raises instead of returning its rate. *)
Lemma LedConditionLogic_run_raises_on_unconfigured_colour :
  first_matching "behavior" (PyStr "user") (PyBool false) None (Some 2%nat)
    (PyBool false) None = BehaviorState
  /\ fst (LedConditionLogic_run example_cfg "behavior" (PyStr "user") (PyBool false)
            None (Some 2%nat) (PyBool false) None [])
     = Raise IndexError
  /\ ~ (forall (cfg : Config) (model_type : string) (mode recording : pyval)
               (recording_alert : option alert) (behavior_state : option nat)
               (model_file_changed : pyval) (track_loc : option nat) (led : list rgb),
          fst (LedConditionLogic_run cfg model_type mode recording recording_alert
                 behavior_state model_file_changed track_loc led)
          = Ok (rule_rate cfg mode
                  (first_matching model_type mode recording recording_alert
                     behavior_state model_file_changed track_loc))).
Proof.
  split; [reflexivity |]. split; [reflexivity |].
  intros H.
  specialize (H example_cfg "behavior" (PyStr "user") (PyBool false)
                None (Some 2%nat) (PyBool false) None []).
  discriminate H.
Qed.

(** The colours commanded along the way, on two inputs. *)
Example LedConditionLogic_run_mode_based :
  LedConditionLogic_run example_cfg "linear" (PyStr "local_angle") (PyBool false)
    (Some AlertOff) None (PyBool false) None []
  = (Ok (NumFloat 0.5), [(0, 0, 1); (0, 0, 1)]%Z).
Proof. reflexivity. Qed.

Example LedConditionLogic_run_location_first :
  LedConditionLogic_run example_cfg "linear" (PyStr "user") (PyBool true)
    (Some (AlertColor (5, 5, 5)%Z)) (Some 0%nat) (PyBool true) (Some 1%nat) []
  = (Ok (NumInt (-1)), [(0, 100, 0)%Z]).
Proof. reflexivity. Qed.

(** ** The debounce stage *)

Module DelayedTriggerFacts.
Import DelayedTrigger.

Lemma fires_app (t1 t2 : list bool) :
  forall (self : t) (now : nat),
    fires self now (t1 ++ t2)
    = fires self now t1 ++ fires (after self t1) (now + length t1) t2.
Proof.
  induction t1 as [| d t1 IH]; intros self now.
  - cbn [app fires after fold_left length]. now rewrite Nat.add_0_r.
  - cbn [app fires after fold_left length].
    destruct (run self d) as [self' fire] eqn:E. cbn [fst].
    rewrite IH. unfold after. rewrite <- app_assoc.
    now replace (S now + length t1)%nat with (now + S (length t1))%nat by lia.
Qed.

(** An idle stage stays idle and silent while the input is quiet. *)
Lemma fires_idle_quiet (n : nat) :
  forall (self : t) (now : nat),
    ticks self = 0%nat ->
    fires self now (repeat false n) = [] /\ after self (repeat false n) = self.
Proof.
  induction n as [| n IH]; intros self now H; [now split |].
  cbn [repeat fires after fold_left]. unfold run. rewrite H. cbn [fst].
  apply (IH self (S now) H).
Qed.

Lemma run_quiet (self : t) (k : nat) :
  ticks self = S k ->
  run self false = ({| delay := delay self; ticks := k |}, Nat.eqb k 0).
Proof. intros H. unfold run. now rewrite H. Qed.

(** A countdown with [S k] ticks left fires once, on the last of [S k]
    quiet ticks, and not before. *)
Lemma fires_countdown (k : nat) :
  forall (self : t) (now : nat),
    ticks self = S k ->
    fires self now (repeat false (S k)) = [(now + k)%nat]
    /\ fires self now (repeat false k) = []
    /\ ticks (after self (repeat false (S k))) = 0%nat.
Proof.
  induction k as [| k IH]; intros self now H.
  - cbn [repeat fires after fold_left]. rewrite (run_quiet self 0 H). cbn.
    now rewrite Nat.add_0_r.
  - change (repeat false (S (S k))) with (false :: repeat false (S k)).
    change (repeat false (S k)) with (false :: repeat false k) at 2.
    cbn [fires after fold_left]. rewrite (run_quiet self (S k) H).
    cbn [fst Nat.eqb app].
    destruct (IH {| delay := delay self; ticks := S k |} (S now) eq_refl)
      as (F1 & F2 & F3).
    split; [rewrite F1; f_equal; lia | split; [exact F2 | exact F3]].
Qed.

(** The debounce protocol: a dirty signal followed by [N] quiet ticks
    fires exactly once, on the [N]-th quiet tick, whatever the stage was
    doing before. *)
Lemma fires_after_delay (N : nat) (self : t) (now : nat) :
  delay self = S N ->
  fires self now (true :: repeat false (S N)) = [(now + S N)%nat].
Proof.
  intros H. cbn [fires]. unfold run at 1. cbn [app].
  destruct (fires_countdown N {| delay := delay self; ticks := delay self |} (S now) H)
    as (F & _ & _).
  rewrite F. f_equal. lia.
Qed.

(** A dirty signal never fires by itself and always (re)starts the
    countdown at the full delay. *)
Lemma run_dirty_restarts (self : t) :
  run self true = ({| delay := delay self; ticks := delay self |}, false).
Proof. reflexivity. Qed.

Lemma quiet_past_last_dirty (at_ : list nat) (len : nat) :
  Forall (fun i => (i < len)%nat) at_ ->
  forall extra start : nat,
    (len <= start)%nat ->
    map (fun i => existsb (Nat.eqb i) at_) (seq start extra) = repeat false extra.
Proof.
  intros H. induction extra as [| extra IH]; intros start Hle; [reflexivity |].
  cbn [seq map repeat]. f_equal.
  - apply not_true_is_false. intros E. apply existsb_exists in E as (x & Hx & Heq).
    apply Nat.eqb_eq in Heq. subst x.
    rewrite Forall_forall in H. specialize (H start).
    assert (start < len)%nat by (apply H; now apply list_elem_of_In). lia.
  - apply IH. lia.
Qed.

Lemma dirty_at_quiet_tail (at_ : list nat) (len extra : nat) :
  Forall (fun i => (i < len)%nat) at_ ->
  dirty_at at_ (len + extra) = dirty_at at_ len ++ repeat false extra.
Proof.
  intros H. unfold dirty_at. rewrite seq_app, map_app. f_equal.
  apply (quiet_past_last_dirty at_ len H). cbn. lia.
Qed.

Lemma dirty_at_length (at_ : list nat) (len : nat) : length (dirty_at at_ len) = len.
Proof. unfold dirty_at. now rewrite length_map, length_seq. Qed.

End DelayedTriggerFacts.

(** C8, as the debounce protocol has it.  With N = 100 and dirty signals at
    ticks 0, 50 and 200 only, the stage fires exactly twice, at ticks 150
    and 300, however long the quiet trace goes on: the signal at tick 50
    restarts the countdown begun at tick 0, the 100 quiet ticks 51..150
    complete it, and the signal at tick 200 starts a new countdown that
    completes at tick 300. *)
Theorem DelayedTrigger_fires_at_150_and_300 :
  forall extra : nat,
    DelayedTrigger.fires (DelayedTrigger.init 100) 0
      (DelayedTrigger.dirty_at [0; 50; 200]%nat (301 + extra))
    = [150; 300]%nat.
Proof.
  intros extra.
  rewrite DelayedTriggerFacts.dirty_at_quiet_tail
    by (repeat constructor; lia).
  rewrite DelayedTriggerFacts.fires_app.
  replace (DelayedTrigger.fires (DelayedTrigger.init 100) 0
             (DelayedTrigger.dirty_at [0; 50; 200]%nat 301))
    with [150; 300]%nat by (vm_compute; reflexivity).
  replace (DelayedTrigger.after (DelayedTrigger.init 100)
             (DelayedTrigger.dirty_at [0; 50; 200]%nat 301))
    with (DelayedTrigger.init 100) by (vm_compute; reflexivity).
  destruct (DelayedTriggerFacts.fires_idle_quiet extra (DelayedTrigger.init 100)
              (0 + length (DelayedTrigger.dirty_at [0; 50; 200]%nat 301)) eq_refl)
    as [F _].
  rewrite F. reflexivity.
Qed.

(** The restart is honoured: nothing fires at tick 100, nor at any tick
    before 150. *)
Example DelayedTrigger_quiet_until_150 :
  DelayedTrigger.fires (DelayedTrigger.init 100) 0
    (DelayedTrigger.dirty_at [0; 50; 200]%nat 150) = [].
Proof. vm_compute. reflexivity. Qed.

(** C8 as stated fails: over ticks 0..300 the fire signal is not emitted
    once at tick 300 only; it is emitted at tick 150 already. *)
Lemma DelayedTrigger_fires_before_300 :
  DelayedTrigger.fires (DelayedTrigger.init 100) 0
    (DelayedTrigger.dirty_at [0; 50; 200]%nat 301) <> [300%nat]
  /\ In 150%nat
       (DelayedTrigger.fires (DelayedTrigger.init 100) 0
          (DelayedTrigger.dirty_at [0; 50; 200]%nat 301)).
Proof.
  replace (DelayedTrigger.fires (DelayedTrigger.init 100) 0
             (DelayedTrigger.dirty_at [0; 50; 200]%nat 301))
    with [150; 300]%nat by (vm_compute; reflexivity).
  split; [discriminate | now left].
Qed.

(** ** Model hot reload *)

Section ReloadFacts.

Variable Model : Type.
Variable kl_load : string -> Model -> option exn * Model.
Variable kl_load_weights : string -> Model -> option exn * Model.

(** The whole-model callback has no handler of its own: what [kl.load]
    raises leaves [reload_model], with the pilot as the load left it. *)
Lemma reload_model_propagates (filename : string) (w : world Model) (e : exn) (m : Model) :
  kl_load filename (kl_model w) = (Some e, m) ->
  fst (reload_model kl_load filename w) = Raise e
  /\ kl_model (snd (reload_model kl_load filename w)) = m.
Proof.
  intros H. unfold reload_model, load_model. cbn [emit kl_model].
  rewrite H. cbn. split; reflexivity.
Qed.

(** The weights callback handles every exception itself. *)
Lemma reload_weights_never_raises (filename : string) (w : world Model) :
  fst (reload_weights kl_load_weights filename w) = Ok tt.
Proof.
  unfold reload_weights, load_weights. cbn [emit kl_model].
  now destruct (kl_load_weights _ _) as [[e |] m].
Qed.

(** Its handler prints the exception and restores nothing. *)
Lemma reload_weights_failure (filename : string) (w : world Model) (e : exn) (m : Model) :
  kl_load_weights (replace filename ".json" ".weights") (kl_model w) = (Some e, m) ->
  kl_model (snd (reload_weights kl_load_weights filename w)) = m
  /\ In (PrintedException e) (console (snd (reload_weights kl_load_weights filename w))).
Proof.
  intros H. unfold reload_weights, load_weights. cbn [emit kl_model].
  rewrite H. cbn. split; [reflexivity |].
  rewrite !in_app_iff. cbn. tauto.
Qed.

(** The trigger stage returns normally whatever the callback does. *)
Lemma TriggeredCallback_run_returns
    (args : string) (cb : string -> world Model -> result unit * world Model)
    (trigger : pyval) (w : world Model) :
  fst (TriggeredCallback_run args cb trigger w) = Ok tt.
Proof.
  unfold TriggeredCallback_run.
  destruct (truthy trigger); [| reflexivity].
  now destruct (cb args w) as [[[] | e] w'].
Qed.

Lemma TriggeredCallback_run_logs
    (args : string) (cb : string -> world Model -> result unit * world Model)
    (trigger : pyval) (w w1 : world Model) (e : exn) :
  truthy trigger = true ->
  cb args w = (Raise e, w1) ->
  snd (TriggeredCallback_run args cb trigger w) = emit (LoggedException e) w1.
Proof.
  intros Ht Hc. unfold TriggeredCallback_run. now rewrite Ht, Hc.
Qed.


End ReloadFacts.



(** The same failure on the two formats, run: the whole-model reload is
    stopped by the trigger stage, the weights reload by its own handler. *)
Example reload_corrupt_h5 :
  TriggeredCallback_run "corrupt.h5" (reload_model example_kl_load)
    (PyBool true) example_world
  = (Ok tt,
     {| kl_model := "pilot_v1.h5";
        console := [LoadingModel "corrupt.h5";
                    LoggedException (Exception "cannot read model file")] |}).
Proof. reflexivity. Qed.

Example reload_corrupt_json :
  TriggeredCallback_run "corrupt.json" (reload_weights example_kl_load)
    (PyBool true) example_world
  = (Ok tt,
     {| kl_model := "pilot_v1.h5";
        console := [LoadingWeights "corrupt.weights";
                    PrintedException (Exception "cannot read model file");
                    ProblemsLoadingWeights "corrupt.weights"] |}).
Proof. reflexivity. Qed.

Example reload_good_h5 :
  TriggeredCallback_run "pilot_v2.h5" (reload_model example_kl_load)
    (PyBool true) example_world
  = (Ok tt,
     {| kl_model := "pilot_v2.h5";
        console := [LoadingModel "pilot_v2.h5"; FinishedLoading] |}).
Proof. reflexivity. Qed.

(** ** Camera and drivetrain selectors *)

(** Walks an [if]/[elif] chain on a selector that equals none of the
    literals of [Hin]'s list. *)
Ltac skip_branches sel Hin :=
  repeat match goal with
         | |- context [String.eqb sel ?lit] =>
             destruct (String.eqb_spec sel lit) as [?E | _];
             [exfalso; apply Hin;
              match goal with E : sel = _ |- _ => rewrite E end; cbn; tauto |]
         end.

(** [get_camera] refuses a camera type it has no branch for. *)
Lemma get_camera_unknown_raises (cfg : Config) :
  DONKEY_GYM cfg = false ->
  ~ In (CAMERA_TYPE cfg)
       ["PICAM"; "WEBCAM"; "CVCAM"; "CSIC"; "V4L"; "MOCK"; "IMAGE_LIST"; "LEOPARD"] ->
  get_camera cfg = Raise (Exception ("Unkown camera type: " +:+ CAMERA_TYPE cfg)).
Proof.
  intros Hgym Hin. unfold get_camera. rewrite Hgym.
  skip_branches (CAMERA_TYPE cfg) Hin. reflexivity.
Qed.

(** [add_drivetrain] accepts a selector it has no branch for and adds
    nothing. *)
Lemma add_drivetrain_unknown (cfg : Config) (V : list part_entry) :
  ~ In (DRIVE_TRAIN_TYPE cfg) known_drive_train_types ->
  add_drivetrain cfg V = Ok V.
Proof.
  intros Hin. unfold add_drivetrain, known_drive_train_types in *.
  destruct (negb (DONKEY_GYM cfg) && negb (String.eqb (DRIVE_TRAIN_TYPE cfg) "MOCK"));
    [| reflexivity].
  skip_branches (DRIVE_TRAIN_TYPE cfg) Hin. reflexivity.
Qed.

(** Every selector of the list but ["MOCK"] either adds actuator parts or
    raises: only a selector outside the list leaves the pipeline as it
    was on a real car. *)
Lemma add_drivetrain_known (cfg : Config) (V : list part_entry) :
  DONKEY_GYM cfg = false ->
  In (DRIVE_TRAIN_TYPE cfg) known_drive_train_types ->
  DRIVE_TRAIN_TYPE cfg <> "MOCK" ->
  add_drivetrain cfg V <> Ok V.
Proof.
  intros Hgym Hin Hmock. unfold add_drivetrain, known_drive_train_types, V_add in *.
  rewrite Hgym. cbn [negb andb].
  cbn [In] in Hin.
  destruct Hin as [E | Hin]; [now rewrite <- E in Hmock |].
  repeat (destruct Hin as [E | Hin];
          [rewrite <- E; cbn;
           repeat match goal with
                  | |- context [if ?b then _ else _] => destruct b
                  end;
           try discriminate;
           intros [= H]; apply (f_equal (@length _)) in H;
           rewrite ?length_app in H; cbn in H; lia |]).
  destruct Hin.
Qed.

(** C5, on the code.  With the drivetrain selector ["SERVO_ESC"], which is
    none of the known drivetrain types, [add_drivetrain] raises nothing:
    it returns normally with the pipeline unchanged, no drivetrain part
    added. *)
Theorem add_drivetrain_accepts_unknown_selector :
  ~ In "SERVO_ESC" known_drive_train_types
  /\ add_drivetrain (example_cfg_with "SERVO_ESC") [] = Ok []
  /\ forall e, add_drivetrain (example_cfg_with "SERVO_ESC") [] <> Raise e.
Proof.
  assert (Hin : ~ In "SERVO_ESC" known_drive_train_types).
  { unfold known_drive_train_types. cbn [In].
    intros H. repeat (destruct H as [H | H]; [discriminate H |]). exact H. }
  split; [exact Hin |].
  assert (H : add_drivetrain (example_cfg_with "SERVO_ESC") [] = Ok [])
    by (apply add_drivetrain_unknown; exact Hin).
  split; [exact H |]. intros e. rewrite H. discriminate.
Qed.

(** The selectors on either side: a known one adds its two actuators, an
    unknown camera type is refused. *)
Example add_drivetrain_known_selector :
  add_drivetrain example_cfg []
  = Ok [ {| part := "PWMSteering"; inputs := ["angle"]; threaded := true |};
         {| part := "PWMThrottle"; inputs := ["throttle"]; threaded := true |} ].
Proof. reflexivity. Qed.

(* ===================================================================== *)
(** * Further properties of the template                                  *)
(* ===================================================================== *)

(** ** The record-alert colour *)

Lemma alert_colour_fold (n : Z) (table : list (Z * rgb)) :
  forall col : rgb,
    fold_left (fun col row => if (n >=? fst row)%Z then snd row else col) table col
    = default col (snd <$> last (filter (fun row => (fst row <= n)%Z) table)).
Proof.
  induction table as [| row table IH]; intros col; [reflexivity |].
  cbn [fold_left]. rewrite IH, filter_cons.
  destruct (Z.geb_spec n (fst row)) as [Hge | Hlt].
  - case_decide; [| lia].
    destruct (filter _ table) as [| row' rest] eqn:E; [reflexivity |].
    rewrite last_cons_cons.
    destruct (last (row' :: rest)) eqn:L; [reflexivity | now apply last_None in L].
  - case_decide; [lia | reflexivity].
Qed.

(** The colour of the record alert is that of the last row of
    [RECORD_ALERT_COLOR_ARR], in the order of the table, whose count the
    record count has reached, and black when it has reached none: a later
    row with a smaller count wins over an earlier one with a greater. *)
Theorem get_record_alert_color_last_reached :
  forall (cfg : Config) (num_records : Z),
    get_record_alert_color cfg num_records
    = default (0, 0, 0)%Z
        (snd <$> last (filter (fun row => (fst row <= num_records)%Z)
                         (RECORD_ALERT_COLOR_ARR cfg)))
    /\ (Forall (fun row => (num_records < fst row)%Z) (RECORD_ALERT_COLOR_ARR cfg) ->
        get_record_alert_color cfg num_records = (0, 0, 0)%Z)
    /\ (forall rows count colour,
          RECORD_ALERT_COLOR_ARR cfg = rows ++ [(count, colour)] ->
          (count <= num_records)%Z ->
          get_record_alert_color cfg num_records = colour).
Proof.
  intros cfg n. unfold get_record_alert_color.
  rewrite alert_colour_fold. split; [reflexivity |]. split.
  - intros Hall.
    replace (filter (fun row => (fst row <= n)%Z) (RECORD_ALERT_COLOR_ARR cfg))
      with (@nil (Z * rgb)); [reflexivity |].
    symmetry. induction Hall as [| row rows Hrow _ IH]; [reflexivity |].
    rewrite filter_cons. case_decide; [lia | exact IH].
  - intros rows count colour -> Hle.
    rewrite filter_app, filter_cons. case_decide; [| cbn in *; lia].
    rewrite filter_nil. now rewrite last_snoc.
Qed.

(** ** The record tracker over time *)

Lemma RecordTracker_finish_after (cfg : Config) (self : RecordTracker.t) (n : Z) (out : list Z) :
  RecordTracker.self_after (RecordTracker.finish cfg self n out)
  = {| RecordTracker.last_num_rec_print := RecordTracker.last_num_rec_print self;
       RecordTracker.dur_alert :=
         if (RecordTracker.dur_alert self >? 0)%Z
         then RecordTracker.dur_alert self - 1 else RecordTracker.dur_alert self;
       RecordTracker.force_alert := RecordTracker.force_alert self |}.
Proof.
  unfold RecordTracker.finish. cbn.
  destruct (RecordTracker.dur_alert self >? 0)%Z; [reflexivity | now destruct self].
Qed.

Lemma RecordTracker_finish_returned (cfg : Config) (self : RecordTracker.t) (n : Z) (out : list Z) :
  RecordTracker.returned (RecordTracker.finish cfg self n out)
  = if (RecordTracker.dur_alert
          (RecordTracker.self_after (RecordTracker.finish cfg self n out)) =? 0)%Z
    then Ok AlertOff
    else Ok (AlertColor (get_record_alert_color cfg n)).
Proof.
  unfold RecordTracker.finish. cbn.
  now destruct (_ =? 0)%Z.
Qed.

(** [RecordTracker.run] raises in one situation only: [REC_COUNT_ALERT] is
    0, a record count is present, and the count differs from the last one
    printed or a forced alert is pending.  The exception is
    [ZeroDivisionError], and the last printed count has been updated when
    it is raised. *)
Theorem RecordTracker_run_raises_iff :
  forall (cfg : Config) (self : RecordTracker.t) (num_records : option Z) (e : exn),
    RecordTracker.returned (RecordTracker.run cfg self num_records) = Raise e
    <-> e = ZeroDivisionError
        /\ REC_COUNT_ALERT cfg = 0%Z
        /\ exists n, num_records = Some n
             /\ (RecordTracker.last_num_rec_print self <> n
                 \/ RecordTracker.force_alert self <> 0%Z)
             /\ RecordTracker.last_num_rec_print
                  (RecordTracker.self_after (RecordTracker.run cfg self num_records)) = n.
Proof.
  intros cfg self [n |] e; cbn [RecordTracker.run].
  2: { split; [discriminate | intros (_ & _ & n & [=] & _)]. }
  destruct (Z.eqb_spec (RecordTracker.last_num_rec_print self) n) as [Hl | Hl];
  destruct (Z.eqb_spec (RecordTracker.force_alert self) 0) as [Hf | Hf]; cbn [negb orb].
  - rewrite RecordTracker_finish_returned. split.
    + now destruct (_ =? 0)%Z.
    + intros (_ & _ & n' & [= <-] & [H | H] & _); contradiction.
  - destruct (Z.eqb_spec (REC_COUNT_ALERT cfg) 0) as [Hr | Hr]; cbn.
    + split; [intros [= <-] | intros (-> & _)]; [| reflexivity].
      repeat split; try assumption. exists n. repeat split. now right.
    + split; [| intros (_ & H & _); contradiction].
      destruct (_ || _); rewrite RecordTracker_finish_returned; now destruct (_ =? 0)%Z.
  - destruct (Z.eqb_spec (REC_COUNT_ALERT cfg) 0) as [Hr | Hr]; cbn.
    + split; [intros [= <-] | intros (-> & _)]; [| reflexivity].
      repeat split; try assumption. exists n. repeat split. now left.
    + split; [| intros (_ & H & _); contradiction].
      destruct (_ || _); rewrite RecordTracker_finish_returned; now destruct (_ =? 0)%Z.
  - destruct (Z.eqb_spec (REC_COUNT_ALERT cfg) 0) as [Hr | Hr]; cbn.
    + split; [intros [= <-] | intros (-> & _)]; [| reflexivity].
      repeat split; try assumption. exists n. repeat split. now left.
    + split; [| intros (_ & H & _); contradiction].
      destruct (_ || _); rewrite RecordTracker_finish_returned; now destruct (_ =? 0)%Z.
Qed.

Lemma RecordTracker_run_quiet (cfg : Config) (self : RecordTracker.t) (n : Z) :
  RecordTracker.last_num_rec_print self = n ->
  RecordTracker.force_alert self = 0%Z ->
  RecordTracker.run cfg self (Some n) = RecordTracker.finish cfg self n [].
Proof.
  intros Hl Hf. cbn [RecordTracker.run]. now rewrite Hl, Hf, Z.eqb_refl.
Qed.

(** One tick with a count present, when it does not raise: the attributes
    that reach [finish], and the countdown. *)
Lemma RecordTracker_run_present_cases (cfg : Config) (self : RecordTracker.t) (n : Z) :
  REC_COUNT_ALERT cfg <> 0%Z ->
  exists (pre : RecordTracker.t) (out : list Z),
    RecordTracker.run cfg self (Some n) = RecordTracker.finish cfg pre n out
    /\ (RecordTracker.dur_alert pre = RecordTracker.dur_alert self
        \/ RecordTracker.dur_alert pre
           = (n / REC_COUNT_ALERT cfg * REC_COUNT_ALERT_CYC cfg)%Z).
Proof.
  intros Hr. cbn [RecordTracker.run].
  destruct (_ || _).
  - destruct (Z.eqb_spec (REC_COUNT_ALERT cfg) 0) as [E | _]; [contradiction |].
    destruct (_ || _); eexists _, _; split; try reflexivity; cbn; auto.
  - eexists _, _; split; [reflexivity | auto].
Qed.

(** With a positive [REC_COUNT_ALERT], a non-negative [REC_COUNT_ALERT_CYC]
    and non-negative record counts, the tracker never raises and its
    alert countdown never becomes negative, over any sequence of ticks,
    with or without a count. *)
Theorem RecordTracker_dur_alert_nonneg :
  forall (cfg : Config) (inputs : list (option Z)) (self : RecordTracker.t),
    (0 < REC_COUNT_ALERT cfg)%Z ->
    (0 <= REC_COUNT_ALERT_CYC cfg)%Z ->
    (0 <= RecordTracker.dur_alert self)%Z ->
    Forall (fun i => forall n, i = Some n -> (0 <= n)%Z) inputs ->
    (0 <= RecordTracker.dur_alert (RecordTracker_after cfg self inputs))%Z
    /\ Forall (fun r => exists a, r = Ok a) (RecordTracker_trace cfg self inputs).
Proof.
  intros cfg inputs. induction inputs as [| i inputs IH]; intros self Hr Hc Hd Hin.
  - split; [exact Hd | constructor].
  - inversion Hin as [| ? ? Hi Hrest]; subst.
    cbn [RecordTracker_after fold_left RecordTracker_trace].
    assert (Hstep : (0 <= RecordTracker.dur_alert
                           (RecordTracker.self_after (RecordTracker.run cfg self i)))%Z
                    /\ exists a, RecordTracker.returned (RecordTracker.run cfg self i) = Ok a).
    { destruct i as [n |]; [| split; [exact Hd | now exists AlertOff]].
      destruct (RecordTracker_run_present_cases cfg self n) as (pre & out & -> & Hpre);
        [lia |].
      assert (Hp : (0 <= RecordTracker.dur_alert pre)%Z).
      { destruct Hpre as [-> | ->]; [exact Hd |].
        apply Z.mul_nonneg_nonneg; [| exact Hc].
        apply Z.div_pos; [now apply Hi | exact Hr]. }
      split.
      - rewrite RecordTracker_finish_after. cbn.
        destruct (Z.gtb_spec (RecordTracker.dur_alert pre) 0); lia.
      - rewrite RecordTracker_finish_returned. destruct (_ =? 0)%Z; eauto. }
    destruct Hstep as [Hd' Hok].
    destruct (IH (RecordTracker.self_after (RecordTracker.run cfg self i)) Hr Hc Hd' Hrest)
      as [Hfin Htrace].
    split; [exact Hfin | now constructor].
Qed.

Lemma RecordTracker_dur_alert_nonneg_witness :
  (0 <= RecordTracker.dur_alert
          (RecordTracker_after example_cfg RecordTracker.init
             [Some 999; None; Some 1000; Some 1000; Some 1001]%Z))%Z
  /\ Forall (fun r => exists a, r = Ok a)
       (RecordTracker_trace example_cfg RecordTracker.init
          [Some 999; None; Some 1000; Some 1000; Some 1001]%Z).
Proof.
  apply (RecordTracker_dur_alert_nonneg example_cfg
           [Some 999; None; Some 1000; Some 1000; Some 1001]%Z RecordTracker.init).
  - reflexivity.
  - discriminate.
  - discriminate.
  - repeat constructor; intros n [= <-]; discriminate.
Defined.

(** On a tick with a count present that does not raise, the alert colour
    is returned exactly when the countdown is not zero after the tick, and
    it is the colour of that count; an absent count returns 0 even while
    a countdown is running. *)
Theorem RecordTracker_alert_iff_countdown :
  forall (cfg : Config) (self : RecordTracker.t) (n : Z) (a : alert),
    RecordTracker.returned (RecordTracker.run cfg self (Some n)) = Ok a ->
    let after := RecordTracker.self_after (RecordTracker.run cfg self (Some n)) in
    (a = AlertOff <-> RecordTracker.dur_alert after = 0%Z)
    /\ (a = AlertColor (get_record_alert_color cfg n)
        <-> RecordTracker.dur_alert after <> 0%Z).
Proof.
  intros cfg self n a Hret after.
  assert (H : exists pre out,
             RecordTracker.run cfg self (Some n) = RecordTracker.finish cfg pre n out).
  { destruct (Z.eq_dec (REC_COUNT_ALERT cfg) 0%Z) as [E | E].
    - cbn [RecordTracker.run] in *. destruct (_ || _); [| eauto].
      rewrite E in Hret. cbn in Hret. discriminate Hret.
    - destruct (RecordTracker_run_present_cases cfg self n E) as (pre & out & H & _). eauto. }
  destruct H as (pre & out & H). subst after. rewrite H in *.
  rewrite RecordTracker_finish_returned in Hret.
  destruct (Z.eqb_spec (RecordTracker.dur_alert
              (RecordTracker.self_after (RecordTracker.finish cfg pre n out))) 0)
    as [E | E]; injection Hret as <-.
  - split; split; intros; try reflexivity; try assumption; try discriminate; contradiction.
  - split; split; intros; try reflexivity; try assumption; try discriminate; contradiction.
Qed.

Lemma RecordTracker_alert_iff_countdown_witness :
  (AlertColor (5, 5, 5)%Z = AlertOff
   <-> RecordTracker.dur_alert
         (RecordTracker.self_after
            (RecordTracker.run example_cfg RecordTracker.init (Some 3000%Z))) = 0%Z)
  /\ (AlertColor (5, 5, 5)%Z = AlertColor (get_record_alert_color example_cfg 3000)
      <-> RecordTracker.dur_alert
            (RecordTracker.self_after
               (RecordTracker.run example_cfg RecordTracker.init (Some 3000%Z))) <> 0%Z).
Proof.
  exact (RecordTracker_alert_iff_countdown example_cfg RecordTracker.init 3000
           (AlertColor (5, 5, 5)%Z) eq_refl).
Defined.

(** While the record count stays the same and no alert is forced, each
    tick counts the alert down by one until it reaches zero and then
    leaves the tracker as it is: a countdown of [d] shows the alert colour
    on the next [d - 1] ticks and 0 from then on.  Nothing is printed and
    [REC_COUNT_ALERT] is not read, so nothing is raised. *)
Theorem RecordTracker_countdown :
  forall (cfg : Config) (k : nat) (self : RecordTracker.t) (n : Z),
    RecordTracker.last_num_rec_print self = n ->
    RecordTracker.force_alert self = 0%Z ->
    (0 <= RecordTracker.dur_alert self)%Z ->
    RecordTracker_after cfg self (repeat (Some n) k)
    = {| RecordTracker.last_num_rec_print := n;
         RecordTracker.dur_alert := Z.max 0 (RecordTracker.dur_alert self - Z.of_nat k);
         RecordTracker.force_alert := 0 |}
    /\ RecordTracker_trace cfg self (repeat (Some n) k)
       = map (fun j => if (Z.of_nat j + 1 <? RecordTracker.dur_alert self)%Z
                       then Ok (AlertColor (get_record_alert_color cfg n))
                       else Ok AlertOff)
             (seq 0 k).
Proof.
  intros cfg k. induction k as [| k IH]; intros self n Hl Hf Hd.
  - split; [| reflexivity]. cbn.
    destruct self as [l d f]; cbn in *. subst. f_equal. lia.
  - cbn [repeat RecordTracker_after fold_left RecordTracker_trace].
    rewrite (RecordTracker_run_quiet cfg self n Hl Hf).
    rewrite RecordTracker_finish_returned, RecordTracker_finish_after.
    set (self' := {| RecordTracker.last_num_rec_print := RecordTracker.last_num_rec_print self;
                     RecordTracker.dur_alert :=
                       if (RecordTracker.dur_alert self >? 0)%Z
                       then RecordTracker.dur_alert self - 1
                       else RecordTracker.dur_alert self;
                     RecordTracker.force_alert := RecordTracker.force_alert self |}).
    assert (Hd' : (RecordTracker.dur_alert self'
                   = Z.max 0 (RecordTracker.dur_alert self - 1))%Z).
    { subst self'. cbn. destruct (Z.gtb_spec (RecordTracker.dur_alert self) 0); lia. }
    destruct (IH self' n) as [Hafter Htrace]; [exact Hl | exact Hf | lia |].
    fold (RecordTracker_after cfg self' (repeat (Some n) k)).
    split.
    + rewrite Hafter. f_equal. lia.
    + rewrite Htrace. cbn [seq map]. f_equal.
      * destruct (Z.eqb_spec (RecordTracker.dur_alert self') 0) as [E | E];
          destruct (Z.ltb_spec (Z.of_nat 0 + 1) (RecordTracker.dur_alert self));
          try reflexivity; lia.
      * rewrite <- seq_shift, map_map. apply map_ext. intros j.
        destruct (Z.ltb_spec (Z.of_nat j + 1) (RecordTracker.dur_alert self'));
          destruct (Z.ltb_spec (Z.of_nat (S j) + 1) (RecordTracker.dur_alert self));
          try reflexivity; lia.
Qed.

Lemma RecordTracker_countdown_witness :
  RecordTracker_after example_cfg
    {| RecordTracker.last_num_rec_print := 3000;
       RecordTracker.dur_alert := 3; RecordTracker.force_alert := 0 |}
    (repeat (Some 3000%Z) 5)
  = {| RecordTracker.last_num_rec_print := 3000;
       RecordTracker.dur_alert := Z.max 0 (3 - Z.of_nat 5);
       RecordTracker.force_alert := 0 |}
  /\ RecordTracker_trace example_cfg
       {| RecordTracker.last_num_rec_print := 3000;
          RecordTracker.dur_alert := 3; RecordTracker.force_alert := 0 |}
       (repeat (Some 3000%Z) 5)
     = map (fun j => if (Z.of_nat j + 1 <? 3)%Z
                     then Ok (AlertColor (get_record_alert_color example_cfg 3000))
                     else Ok AlertOff)
           (seq 0 5).
Proof.
  apply (RecordTracker_countdown example_cfg 5
           {| RecordTracker.last_num_rec_print := 3000;
              RecordTracker.dur_alert := 3; RecordTracker.force_alert := 0 |} 3000%Z).
  - reflexivity.
  - reflexivity.
  - discriminate.
Defined.

(** A forced alert is taken on the next tick that has a count, whatever
    the count: the flag is cleared and the countdown restarts from
    [count // REC_COUNT_ALERT * REC_COUNT_ALERT_CYC].  With fewer records
    than [REC_COUNT_ALERT] that is zero: the forced alert shows nothing. *)
Theorem RecordTracker_forced_alert_below_threshold :
  forall (cfg : Config) (self : RecordTracker.t) (n : Z),
    (0 <= n < REC_COUNT_ALERT cfg)%Z ->
    let out := RecordTracker.run cfg (RecordTracker.show_record_count_status self) (Some n) in
    RecordTracker.returned out = Ok AlertOff
    /\ RecordTracker.self_after out
       = {| RecordTracker.last_num_rec_print := n;
            RecordTracker.dur_alert := 0;
            RecordTracker.force_alert := 0 |}.
Proof.
  intros cfg self n Hn out. subst out.
  unfold RecordTracker.show_record_count_status. cbn [RecordTracker.run].
  cbn [RecordTracker.last_num_rec_print RecordTracker.force_alert RecordTracker.dur_alert].
  replace (negb (1 =? 0)%Z) with true by reflexivity.
  rewrite orb_true_r.
  destruct (Z.eqb_spec (REC_COUNT_ALERT cfg) 0) as [E | _]; [lia |].
  rewrite orb_true_r, Z.div_small by exact Hn.
  rewrite RecordTracker_finish_returned, RecordTracker_finish_after. cbn. now split.
Qed.

Lemma RecordTracker_forced_alert_below_threshold_witness :
  RecordTracker.returned
    (RecordTracker.run example_cfg
       (RecordTracker.show_record_count_status RecordTracker.init) (Some 500%Z))
  = Ok AlertOff
  /\ RecordTracker.self_after
       (RecordTracker.run example_cfg
          (RecordTracker.show_record_count_status RecordTracker.init) (Some 500%Z))
     = {| RecordTracker.last_num_rec_print := 500;
          RecordTracker.dur_alert := 0;
          RecordTracker.force_alert := 0 |}.
Proof.
  apply (RecordTracker_forced_alert_below_threshold example_cfg RecordTracker.init 500%Z).
  split; [discriminate | reflexivity].
Defined.

(** ** The command blend, further *)

(** Outside mode 'user' the blended angle is never null, and outside the
    modes 'user' and 'local_angle' neither is the blended throttle: a
    missing or zero pilot value reaches the actuators as 0.0.  Speed and
    angular velocity are null in the modes 'user' and 'local_angle',
    whatever the pilot gives. *)
Theorem DriveMode_run_never_null :
  forall (cfg : Config) (mode : pyval) (ua ut pa pt ps pav : option float),
    let c := DriveMode_run cfg mode ua ut pa pt ps pav in
    (mode <> PyStr "user" -> angle c <> None)
    /\ (mode <> PyStr "user" -> mode <> PyStr "local_angle" -> throttle c <> None)
    /\ (mode = PyStr "user" \/ mode = PyStr "local_angle" ->
        speed c = None /\ angular_velocity c = None).
Proof.
  intros cfg mode ua ut pa pt ps pav c. subst c. unfold DriveMode_run.
  assert (Ha : (if float_truthy pa then pa else Some 0%float) <> None).
  { destruct pa as [f |]; unfold float_truthy; [destruct (negb _) |]; discriminate. }
  assert (Ht : (if float_truthy pt
                then option_map (fun t => (t * AI_THROTTLE_MULT cfg)%float) pt
                else Some 0%float) <> None).
  { destruct pt as [f |]; unfold float_truthy; [destruct (negb _) |]; discriminate. }
  destruct (eq_str mode "user") eqn:Hu.
  - apply eq_str_true in Hu.
    split; [intros H; contradiction |]. split; [intros H; contradiction |].
    intros _. now split.
  - apply eq_str_false in Hu.
    destruct (eq_str mode "local_angle") eqn:Hl.
    + apply eq_str_true in Hl. cbn [angle throttle speed angular_velocity].
      split; [intros _; exact Ha |]. split; [intros _ H; contradiction |].
      intros _. now split.
    + apply eq_str_false in Hl. cbn [angle throttle speed angular_velocity].
      split; [intros _; exact Ha |]. split; [intros _ _; exact Ht |].
      intros [H | H]; contradiction.
Qed.

(** ** The condition parts over one tick *)

Lemma tick_conditions_channels (cfg : Config) (model_type : option string)
    (m : gmap string pyval) :
  let mode := mem_get m "user/mode" in
  let m' := tick_conditions cfg model_type m in
  mem_get m' "run_pilot" = PyBool (ne_str mode "user")
  /\ mem_get m' "ai_running" = PyBool (ne_str mode "user")
  /\ mem_get m' "use_speed_control"
     = PyBool (have_speed_control cfg model_type && eq_str mode "local")
  /\ mem_get m' "use_throttle_control"
     = PyBool (negb (have_speed_control cfg model_type && eq_str mode "local"))
  /\ (RECORD_DURING_AI cfg = true ->
      mem_get m' "recording"
      = if eq_str mode "user" then mem_get m "recording" else PyBool true).
Proof.
  intros mode m'. subst m'.
  unfold tick_conditions, part_AiRecordingCondition, part_AiRunCondition,
    tick_speed_conditions, part_NotCondition, part_SpeedControlCondition,
    part_PilotCondition.
  assert (Hrec : forall (b : bool) (M : gmap string pyval) (k : string),
             k <> "recording" ->
             mem_get (if b then mem_put "recording"
                                  (AiRecordingCondition_run (mem_get M "user/mode")
                                     (mem_get M "recording")) M
                      else M) k = mem_get M k).
  { intros [] M k Hk; [| reflexivity]. now rewrite mem_get_put_ne. }
  repeat split.
  - rewrite Hrec by discriminate.
    rewrite !mem_get_put_ne by discriminate. rewrite mem_get_put_eq.
    now rewrite PilotCondition_run_ne.
  - rewrite Hrec by discriminate. rewrite mem_get_put_eq.
    rewrite !mem_get_put_ne by discriminate. now rewrite AiRunCondition_run_ne.
  - rewrite Hrec by discriminate.
    rewrite !mem_get_put_ne by discriminate. rewrite mem_get_put_eq.
    now rewrite mem_get_put_ne by discriminate.
  - rewrite Hrec by discriminate.
    rewrite mem_get_put_ne by discriminate. rewrite !mem_get_put_eq.
    rewrite mem_get_put_ne by discriminate. reflexivity.
  - intros ->. rewrite mem_get_put_eq.
    rewrite !mem_get_put_ne by discriminate. reflexivity.
Qed.

(** After the condition parts have run in a tick, [run_pilot] and
    [ai_running] agree; whenever [use_speed_control] is true so are both
    of them; and with [cfg.RECORD_DURING_AI] set, the tub writer's run
    condition [recording] is true whenever [run_pilot] is. *)
Theorem tick_conditions_consistent :
  forall (cfg : Config) (model_type : option string) (m : gmap string pyval),
    let m' := tick_conditions cfg model_type m in
    run_condition "run_pilot" m' = run_condition "ai_running" m'
    /\ (run_condition "use_speed_control" m' = true ->
        run_condition "run_pilot" m' = true
        /\ run_condition "use_throttle_control" m' = false)
    /\ (RECORD_DURING_AI cfg = true ->
        run_condition "run_pilot" m' = true ->
        run_condition "recording" m' = true).
Proof.
  intros cfg model_type m m'.
  destruct (tick_conditions_channels cfg model_type m) as (Hp & Ha & Hs & Ht & Hr).
  fold m' in Hp, Ha, Hs, Ht, Hr. unfold run_condition.
  rewrite Hp, Ha, Hs, Ht. cbn [truthy]. split; [reflexivity |]. split.
  - intros H. apply andb_true_iff in H as [Hh Hl]. rewrite Hh, Hl. cbn.
    split; [| reflexivity].
    apply eq_str_true in Hl. apply ne_str_true. rewrite Hl. discriminate.
  - intros Hcfg Hrun. rewrite (Hr Hcfg).
    unfold ne_str in Hrun. apply negb_true_iff in Hrun. now rewrite Hrun.
Qed.

(** ** The indicator's colours *)

(** Whenever [LedConditionLogic.run] returns a rate, it has commanded the
    LED between one and three times, the last time with the colour of the
    first matching rule (the default colour for the active-recording and
    mode-based rules) and before that with the default colour only.  When
    it raises, it has commanded nothing but the default colour. *)
Theorem LedConditionLogic_run_colours :
  forall (cfg : Config) (model_type : string) (mode recording : pyval)
         (recording_alert : option alert) (behavior_state : option nat)
         (model_file_changed : pyval) (track_loc : option nat) (led : list rgb),
    let rule := first_matching model_type mode recording recording_alert
                  behavior_state model_file_changed track_loc in
    let out := LedConditionLogic_run cfg model_type mode recording recording_alert
                 behavior_state model_file_changed track_loc led in
    exists commanded : list rgb,
      snd out = led ++ commanded
      /\ (length commanded <= 3)%nat
      /\ match fst out with
         | Ok _ =>
             exists before last_colour,
               commanded = before ++ [last_colour]
               /\ rule_colour cfg recording_alert behavior_state track_loc rule
                  = Some last_colour
               /\ Forall (fun c => c = (LED_R cfg, LED_G cfg, LED_B cfg)) before
         | Raise _ =>
             Forall (fun c => c = (LED_R cfg, LED_G cfg, LED_B cfg)) commanded
         end.
Proof.
  intros cfg model_type mode recording recording_alert behavior_state
         model_file_changed track_loc led rule out.
  subst rule out. rewrite first_matching_cases.
  unfold LedConditionLogic_run, set_rgb.
  destruct track_loc as [loc |]; cbn [is_some].
  { destruct (LOC_COLORS cfg !! loc) as [c |] eqn:E; cbn [fst snd].
    - exists [c]. repeat split; [cbn; lia |].
      exists [], c. cbn [rule_colour]. now repeat split.
    - exists []. rewrite app_nil_r. repeat split; [cbn; lia | constructor]. }
  destruct (truthy model_file_changed); cbn [fst snd].
  { eexists [_]. repeat split; [cbn; lia |].
    eexists [], _. cbn [rule_colour]. now repeat split. }
  destruct recording_alert as [[| c] |]; cbn [alert_truthy fst snd].
  2: { exists [(LED_R cfg, LED_G cfg, LED_B cfg); c].
       rewrite <- app_assoc. repeat split; [cbn; lia |].
       exists [(LED_R cfg, LED_G cfg, LED_B cfg)], c. cbn [rule_colour].
       repeat split. now repeat constructor. }
  all: destruct behavior_state as [st |]; cbn [is_some andb].
  all: try (destruct (String.eqb model_type "behavior");
            [destruct (BEHAVIOR_LED_COLORS cfg !! st) as [c |] eqn:E; cbn [fst snd];
             [ exists [(LED_R cfg, LED_G cfg, LED_B cfg);
                       (LED_R cfg, LED_G cfg, LED_B cfg); c];
               rewrite <- !app_assoc; repeat split; [cbn; lia |];
               exists [(LED_R cfg, LED_G cfg, LED_B cfg);
                       (LED_R cfg, LED_G cfg, LED_B cfg)], c;
               cbn [rule_colour]; repeat split; [exact E | now repeat constructor]
             | exists [(LED_R cfg, LED_G cfg, LED_B cfg);
                       (LED_R cfg, LED_G cfg, LED_B cfg)];
               rewrite <- !app_assoc; repeat split; [cbn; lia | now repeat constructor] ]
            |]).
  all: assert (Htail :
         forall r : pynum,
           exists commanded : list rgb,
             (led ++ [(LED_R cfg, LED_G cfg, LED_B cfg)])
               ++ [(LED_R cfg, LED_G cfg, LED_B cfg)] = led ++ commanded
             /\ (length commanded <= 3)%nat
             /\ exists before last_colour,
                  commanded = before ++ [last_colour]
                  /\ Some (LED_R cfg, LED_G cfg, LED_B cfg) = Some last_colour
                  /\ Forall (fun c => c = (LED_R cfg, LED_G cfg, LED_B cfg)) before)
    by (intros r; exists [(LED_R cfg, LED_G cfg, LED_B cfg); (LED_R cfg, LED_G cfg, LED_B cfg)];
        rewrite <- app_assoc; repeat split; [cbn; lia |];
        exists [(LED_R cfg, LED_G cfg, LED_B cfg)], (LED_R cfg, LED_G cfg, LED_B cfg);
        repeat split; now repeat constructor).
  all: destruct (truthy recording); cbn [fst snd rule_colour]; [now apply (Htail (NumInt 0)) |].
  all: destruct (eq_str mode "user"); cbn [fst snd]; [now apply (Htail (NumInt 0)) |].
  all: destruct (eq_str mode "local_angle"); cbn [fst snd]; [now apply (Htail (NumInt 0)) |].
  all: destruct (eq_str mode "local"); cbn [fst snd]; now apply (Htail (NumInt 0)).
Qed.



(** ** Model formats *)

Lemma prefix_app_iff (p s : string) :
  String.prefix p s = true <-> exists b, s = p +:+ b.
Proof.
  revert s. induction p as [| c p IH]; intros s.
  - destruct s; cbn; split; eauto.
  - destruct s as [| d s]; cbn [String.prefix].
    + split; [discriminate | intros [b [=]]].
    + destruct (Ascii.ascii_dec c d) as [-> | Hne].
      * rewrite IH. split; intros [b Hb]; exists b.
        -- subst s. reflexivity.
        -- change (String d p +:+ b) with (String d (p +:+ b)) in Hb. now injection Hb.
      * split; [discriminate | intros [b Hb]].
        change (String c p +:+ b) with (String c (p +:+ b)) in Hb. congruence.
Qed.

(** [pat in s] holds exactly when [s] is some text, then [pat], then some
    text. *)
Lemma contains_spec (pat s : string) :
  contains pat s = true <-> exists a b, s = a +:+ pat +:+ b.
Proof.
  split.
  - induction s as [| c s IH]; cbn [contains]; intros H;
      apply orb_true_iff in H as [H | H].
    + apply prefix_app_iff in H as [b ->]. now exists "", b.
    + discriminate H.
    + apply prefix_app_iff in H as [b ->]. now exists "", b.
    + destruct (IH H) as (a & b & ->). now exists (String c a), b.
  - intros (a & b & ->). induction a as [| c a IH].
    + change ("" +:+ pat +:+ b) with (pat +:+ b).
      destruct (pat +:+ b) eqn:E; cbn [contains];
        apply orb_true_iff; left; apply prefix_app_iff; exists b; now rewrite E.
    + change (String c a +:+ pat +:+ b) with (String c (a +:+ pat +:+ b)).
      cbn [contains]. rewrite IH. apply orb_true_r.
Qed.

Section FormatFacts.

Variable Model : Type.
Variable kl_load : string -> Model -> option exn * Model.
Variable kl_load_weights : string -> Model -> option exn * Model.
Variable kl_model_from_json : string -> Model -> option exn * Model.

(** The format of a model path is decided by substrings, wherever they
    stand in the path: no callback is bound exactly when the path has none
    of '.h5', '.trt', '.tflite', '.savedmodel' and '.json' in it, and a
    path with one of the first four binds the whole-model reload even
    when it also has '.json' in it. *)
Theorem model_reload_cb_by_substring :
  forall model_path : string,
    (model_reload_cb kl_load kl_load_weights model_path = None
     <-> forall marker,
           In marker [".h5"; ".trt"; ".tflite"; ".savedmodel"; ".json"] ->
           ~ exists a b, model_path = a +:+ marker +:+ b)
    /\ forall marker,
         In marker [".h5"; ".trt"; ".tflite"; ".savedmodel"] ->
         (exists a b, model_path = a +:+ marker +:+ b) ->
         model_reload_cb kl_load kl_load_weights model_path
         = Some (reload_model kl_load).
Proof.
  intros model_path. unfold model_reload_cb.
  pose proof (contains_spec ".h5" model_path) as H1.
  pose proof (contains_spec ".trt" model_path) as H2.
  pose proof (contains_spec ".tflite" model_path) as H3.
  pose proof (contains_spec ".savedmodel" model_path) as H4.
  pose proof (contains_spec ".json" model_path) as H5.
  split.
  - split.
    + intros Hnone marker Hin Hex.
      cbn [In] in Hin.
      destruct Hin as [<- | [<- | [<- | [<- | [<- | []]]]]].
      * apply H1 in Hex. rewrite Hex in Hnone. discriminate Hnone.
      * apply H2 in Hex. rewrite Hex, orb_true_r in Hnone. discriminate Hnone.
      * apply H3 in Hex. rewrite Hex, !orb_true_r in Hnone. discriminate Hnone.
      * apply H4 in Hex. rewrite Hex, !orb_true_r in Hnone. discriminate Hnone.
      * apply H5 in Hex. rewrite Hex in Hnone.
        destruct (_ || _); discriminate Hnone.
    + intros Hall.
      assert (Hf : forall marker,
                 In marker [".h5"; ".trt"; ".tflite"; ".savedmodel"; ".json"] ->
                 contains marker model_path = false).
      { intros marker Hin. apply not_true_is_false. intros Hc.
        apply (Hall marker Hin). now apply contains_spec. }
      rewrite !Hf by (cbn; tauto). reflexivity.
  - intros marker Hin Hex. apply contains_spec in Hex.
    cbn [In] in Hin. destruct Hin as [<- | [<- | [<- | [<- | []]]]];
      rewrite Hex, ?orb_true_r; reflexivity.
Qed.

(** Loading at startup: with no model path nothing is loaded; a
    whole-model path is loaded by [load_model], whose exception leaves
    [drive]; a '.json' path never raises, whatever the two loaders do;
    and any other path makes [drive] return with the pilot untouched.
    The callback bound is the one [model_reload_cb] gives. *)
Theorem startup_load_outcomes :
  forall (model_path : string) (m : Model),
    model_path <> "" ->
    let out := startup_load kl_load kl_load_weights kl_model_from_json
                 (Some model_path) m in
    match model_reload_cb kl_load kl_load_weights model_path with
    | None => out = (Ok DriveReturned, m, [UnknownExtension])
    | Some _ =>
        if contains ".h5" model_path || contains ".trt" model_path
           || contains ".tflite" model_path || contains ".savedmodel" model_path
        then
          match fst (kl_load model_path m) with
          | Some e => fst (fst out) = Raise e
          | None => fst (fst out) = Ok BoundReloadModel
          end
        else fst (fst out) = Ok BoundReloadWeights
    end.
Proof.
  intros model_path m Hne out. subst out.
  unfold startup_load, model_reload_cb.
  destruct model_path as [| c rest]; [contradiction |].
  set (path := String c rest).
  destruct (contains ".h5" path || contains ".trt" path
            || contains ".tflite" path || contains ".savedmodel" path).
  - unfold load_model. cbn [emit kl_model console].
    destruct (kl_load path m) as [[e |] m']; reflexivity.
  - destruct (contains ".json" path); [| reflexivity].
    destruct (load_model_json kl_model_from_json path m) as [m1 out1].
    unfold load_weights. cbn [emit kl_model console].
    destruct (kl_load_weights _ m1) as [[e |] m']; reflexivity.
Qed.

End FormatFacts.

Lemma startup_load_outcomes_witness :
  fst (fst (startup_load failing_loader failing_loader failing_loader
              (Some "pilot.json") "untrained"))
  = Ok BoundReloadWeights.
Proof.
  exact (startup_load_outcomes string failing_loader failing_loader failing_loader
           "pilot.json" "untrained" ltac:(discriminate)).
Defined.

(** ** The weights file of a '.json' model *)

Lemma prefix_json_through_end (s : string) :
  s <> "" ->
  String.prefix ".json" s = false ->
  String.prefix ".json" (s +:+ ".json") = false.
Proof.
  intros Hne Hp.
  destruct s as [| c1 s]; [contradiction |].
  cbn [String.prefix] in Hp. change (String ?x ?y +:+ ?z) with (String x (y +:+ z)). cbn [String.prefix].
  destruct (Ascii.ascii_dec _ c1) as [<- |]; [| reflexivity].
  destruct s as [| c2 s]; [reflexivity |].
  cbn [String.prefix] in Hp. change (String ?x ?y +:+ ?z) with (String x (y +:+ z)). cbn [String.prefix].
  destruct (Ascii.ascii_dec _ c2) as [<- |]; [| reflexivity].
  destruct s as [| c3 s]; [reflexivity |].
  cbn [String.prefix] in Hp. change (String ?x ?y +:+ ?z) with (String x (y +:+ z)). cbn [String.prefix].
  destruct (Ascii.ascii_dec _ c3) as [<- |]; [| reflexivity].
  destruct s as [| c4 s]; [reflexivity |].
  cbn [String.prefix] in Hp. change (String ?x ?y +:+ ?z) with (String x (y +:+ z)). cbn [String.prefix].
  destruct (Ascii.ascii_dec _ c4) as [<- |]; [| reflexivity].
  destruct s as [| c5 s]; [reflexivity |].
  cbn [String.prefix] in Hp. change (String ?x ?y +:+ ?z) with (String x (y +:+ z)). cbn [String.prefix].
  destruct (Ascii.ascii_dec _ c5) as [<- |]; [| reflexivity].
  destruct s; discriminate Hp.
Qed.

Lemma replace_json_suffix (stem : string) :
  contains ".json" stem = false ->
  replace (stem +:+ ".json") ".json" ".weights" = stem +:+ ".weights".
Proof.
  unfold replace. induction stem as [| c stem IH]; intros H; [reflexivity |].
  cbn [contains] in H. apply orb_false_iff in H as [Hp Hc].
  pose proof (prefix_json_through_end (String c stem) ltac:(discriminate) Hp) as Hq.
  change (String c stem +:+ ?z) with (String c (stem +:+ z)) in *.
  cbn [replace_from]. rewrite Hq. f_equal. now apply IH.
Qed.

(** For a model path [stem.json] whose stem has no '.json' in it, a reload
    reads the weights from [stem.weights]: the loader is called on that
    path and on no other. *)
Theorem reload_weights_reads_weights_file :
  forall (Model : Type) (kl_load_weights : string -> Model -> option exn * Model)
         (stem : string) (w : world Model),
    contains ".json" stem = false ->
    reload_weights kl_load_weights (stem +:+ ".json") w
    = load_weights kl_load_weights (stem +:+ ".weights") w.
Proof.
  intros Model kl_load_weights stem w H. unfold reload_weights.
  now rewrite replace_json_suffix.
Qed.

Lemma reload_weights_reads_weights_file_witness :
  reload_weights example_kl_load "models/pilot.json" example_world
  = load_weights example_kl_load "models/pilot.weights" example_world.
Proof.
  exact (reload_weights_reads_weights_file string example_kl_load "models/pilot"
           example_world eq_refl).
Defined.

(** ** The drivetrain, further *)

(** In the simulator, and with the drivetrain type 'MOCK', [add_drivetrain]
    adds nothing and raises nothing, whatever the other options are. *)
Lemma add_drivetrain_mock_or_gym :
  forall (cfg : Config) (V : list part_entry),
    DONKEY_GYM cfg = true \/ DRIVE_TRAIN_TYPE cfg = "MOCK" ->
    add_drivetrain cfg V = Ok V.
Proof.
  intros cfg V [H | H]; unfold add_drivetrain; rewrite H; [reflexivity |].
  now rewrite andb_false_r.
Qed.

(** Unfolds [add_drivetrain] into one goal per branch of its chain. *)
Ltac drivetrain_branches :=
  unfold add_drivetrain, V_add;
  repeat match goal with
         | |- context [if ?b then _ else _] => destruct b eqn:?
         | H : context [if ?b then _ else _] |- _ => destruct b eqn:?
         end.

(** [add_drivetrain] only appends to the pipeline: when it returns, the
    parts that were there are kept in place, at most two actuator parts
    follow them, and each of those reads nothing but 'angle', 'throttle',
    'left/throttle' and 'right/throttle'. *)
Theorem add_drivetrain_appends_actuators :
  forall (cfg : Config) (V V' : list part_entry),
    add_drivetrain cfg V = Ok V' ->
    exists added : list part_entry,
      V' = V ++ added
      /\ (length added <= 2)%nat
      /\ Forall (fun p =>
                   Forall (fun c => In c ["angle"; "throttle";
                                          "left/throttle"; "right/throttle"])
                          (inputs p))
                added.
Proof.
  intros cfg V V' H. revert H. drivetrain_branches; intros H;
    try discriminate H; injection H as <-.
  all: first
    [ exists []; rewrite app_nil_r; repeat split; [cbn; lia | constructor]
    | eexists [_]; repeat split; [cbn; lia |];
      repeat constructor; cbn; tauto
    | eexists [_; _]; rewrite <- app_assoc; repeat split; [cbn; lia |];
      repeat constructor; cbn; tauto ].
Qed.

Lemma add_drivetrain_appends_actuators_witness :
  exists added : list part_entry,
    [ {| part := "PWMSteering"; inputs := ["angle"]; threaded := true |};
      {| part := "PWMThrottle"; inputs := ["throttle"]; threaded := true |} ]
    = [] ++ added
    /\ (length added <= 2)%nat
    /\ Forall (fun p =>
                 Forall (fun c => In c ["angle"; "throttle";
                                        "left/throttle"; "right/throttle"])
                        (inputs p))
              added.
Proof.
  exact (add_drivetrain_appends_actuators example_cfg [] _ eq_refl).
Defined.

(** [add_drivetrain] raises in two situations only, both on a real car:
    the drivetrain type 'DC_STEER_THROTTLE', whose branch reads the name
    [Mini_HBridge_DC_Motor_PWM] that the function binds only in a later
    branch ([UnboundLocalError]); and the type 'SERVO_HBRIDGE_PWM' with a
    steering pulse above 200 ([AssertionError]). *)
Theorem add_drivetrain_raises_iff :
  forall (cfg : Config) (V : list part_entry) (e : exn),
    add_drivetrain cfg V = Raise e
    <-> DONKEY_GYM cfg = false
        /\ ((DRIVE_TRAIN_TYPE cfg = "DC_STEER_THROTTLE"
             /\ e = UnboundLocalError "Mini_HBridge_DC_Motor_PWM")
            \/ (DRIVE_TRAIN_TYPE cfg = "SERVO_HBRIDGE_PWM"
                /\ (200 < STEERING_LEFT_PWM cfg \/ 200 < STEERING_RIGHT_PWM cfg)%Z
                /\ e = AssertionError)).
Proof.
  intros cfg V e. split.
  - unfold add_drivetrain.
    destruct (DONKEY_GYM cfg); cbn [negb andb]; [discriminate |].
    destruct (negb (String.eqb (DRIVE_TRAIN_TYPE cfg) "MOCK")); [| discriminate].
    repeat match goal with
           | |- context [String.eqb (DRIVE_TRAIN_TYPE cfg) ?lit] =>
               destruct (String.eqb_spec (DRIVE_TRAIN_TYPE cfg) lit) as [?E | ?N]
           end;
      try discriminate.
    + intros [= <-]. split; [reflexivity |]. left. now split.
    + destruct (Z.leb_spec (STEERING_LEFT_PWM cfg) 200); cbn [negb].
      * destruct (Z.leb_spec (STEERING_RIGHT_PWM cfg) 200); cbn [negb]; [discriminate |].
        intros [= <-]. split; [reflexivity |]. right. repeat split; [assumption | lia].
      * intros [= <-]. split; [reflexivity |]. right. repeat split; [assumption | lia].
  - intros [Hgym [[Hdt ->] | (Hdt & Hpwm & ->)]];
      unfold add_drivetrain; rewrite Hgym, Hdt; cbn; [reflexivity |].
    destruct (Z.leb_spec (STEERING_LEFT_PWM cfg) 200); cbn [negb]; [| reflexivity].
    destruct (Z.leb_spec (STEERING_RIGHT_PWM cfg) 200); cbn [negb]; [lia | reflexivity].
Qed.

(** A drivetrain that reads the per-wheel throttles is added only for a
    differential drive, for which [drive] also adds their producers. *)
Lemma wheel_throttles_differential :
  forall (cfg : Config) (V' : list part_entry) (p : part_entry),
    add_drivetrain cfg [] = Ok V' ->
    In p V' ->
    In "left/throttle" (inputs p) \/ In "right/throttle" (inputs p) ->
    is_differential_drive cfg = true.
Proof.
  intros cfg V' p H Hp Hc. unfold is_differential_drive, startswith.
  revert H. unfold add_drivetrain, V_add.
  destruct (negb (DONKEY_GYM cfg) && negb (String.eqb (DRIVE_TRAIN_TYPE cfg) "MOCK"));
    [| intros [= <-]; destruct Hp].
  repeat match goal with
         | |- context [String.eqb (DRIVE_TRAIN_TYPE cfg) ?lit] =>
             destruct (String.eqb_spec (DRIVE_TRAIN_TYPE cfg) lit) as [?E | ?N]
         end;
    try discriminate.
  all: try (match goal with E : DRIVE_TRAIN_TYPE _ = _ |- _ => rewrite E end).
  all: try (intros _; reflexivity).
  all: repeat match goal with
              | |- context [if ?b then _ else _] => destruct b
              end;
       try discriminate.
  all: intros [= <-]; cbn in Hp;
       repeat (destruct Hp as [<- | Hp]; [cbn in Hc; intuition discriminate |]);
       try destruct Hp.
Qed.

(** The channels a drivetrain part reads. *)
Lemma add_drivetrain_reads :
  forall (cfg : Config) (V' : list part_entry) (p : part_entry) (c : string),
    add_drivetrain cfg [] = Ok V' ->
    In p V' -> In c (inputs p) ->
    In c ["angle"; "throttle"; "left/throttle"; "right/throttle"].
Proof.
  intros cfg V' p c H Hp Hc. revert H. drivetrain_branches; intros H;
    try discriminate H; injection H as <-; cbn in Hp;
    repeat (destruct Hp as [<- | Hp]; [cbn in Hc |- *; tauto |]);
    destruct Hp.
Qed.

(** ** The command stage and the speed controllers *)

(** The command stage keeps the parts that were in the pipeline and adds
    the command blend, which runs on every tick, then parts that run under
    [use_speed_control], added only with the speed-control capability, and
    the part that splits the throttle between the wheels, added only for a
    differential drive and run under [use_throttle_control].  By the mode
    conditions the last two groups never run on the same tick. *)
Theorem add_command_stage_gated :
  forall (cfg : Config) (model_type : option string) (V : list Pipeline.entry),
    exists added : list Pipeline.entry,
      add_command_stage cfg model_type V = V ++ added
      /\ Forall (fun e =>
                   (Pipeline.run_condition e = None /\ Pipeline.part e = "DriveMode")
                   \/ (Pipeline.run_condition e = Some "use_throttle_control"
                       /\ Pipeline.part e = "TwoWheelSteeringThrottle"
                       /\ is_differential_drive cfg = true)
                   \/ (Pipeline.run_condition e = Some "use_speed_control"
                       /\ have_speed_control cfg model_type = true))
                added.
Proof.
  intros cfg model_type V.
  unfold add_command_stage, add_speed_control, Pipeline.add.
  destruct (have_speed_control cfg model_type), (is_differential_drive cfg);
    rewrite <- ?app_assoc; eexists; (split; [reflexivity |]);
    cbn [app];
    repeat match goal with
           | |- Forall _ [] => constructor
           | |- Forall _ (_ :: _) =>
               constructor;
               [cbn; first [ left; split; reflexivity
                           | right; left; repeat split; reflexivity
                           | right; right; split; reflexivity ] |]
           end.
Qed.

(** Whatever drivetrain [add_drivetrain] adds, each channel it reads has a
    producer in the command stage: 'angle' and 'throttle' from the command
    blend, the per-wheel throttles from the parts added for a differential
    drive. *)
Theorem add_drivetrain_inputs_are_produced :
  forall (cfg : Config) (model_type : option string)
         (V' : list part_entry) (p : part_entry) (c : string),
    add_drivetrain cfg [] = Ok V' ->
    In p V' -> In c (inputs p) ->
    In c (Pipeline.produced (add_command_stage cfg model_type [])).
Proof.
  intros cfg model_type V' p c H Hp Hc.
  assert (Hbase : forall V, In c (Pipeline.produced V) ->
            In c (Pipeline.produced
                    (if is_differential_drive cfg
                     then Pipeline.add "TwoWheelSteeringThrottle"
                            [Some "throttle"; Some "angle"]
                            ["left/throttle"; "right/throttle"] false
                            (Some "use_throttle_control") V
                     else V))).
  { intros V HV. destruct (is_differential_drive cfg); [| exact HV].
    unfold Pipeline.add, Pipeline.produced. rewrite flat_map_app, in_app_iff. now left. }
  assert (Hsc : forall V, In c (Pipeline.produced V) ->
            In c (Pipeline.produced
                    (if have_speed_control cfg model_type
                     then add_speed_control (is_differential_drive cfg) V else V))).
  { intros V HV. destruct (have_speed_control cfg model_type); [| exact HV].
    unfold add_speed_control, Pipeline.add, Pipeline.produced.
    destruct (is_differential_drive cfg); rewrite !flat_map_app, !in_app_iff; tauto. }
  pose proof (add_drivetrain_reads cfg V' p c H Hp Hc) as Hreads.
  destruct (in_dec string_dec c ["angle"; "throttle"]) as [Hat | Hnat].
  - unfold add_command_stage. apply Hbase, Hsc.
    unfold Pipeline.add, Pipeline.produced. cbn. cbn in Hat. tauto.
  - assert (Hw : In "left/throttle" (inputs p) \/ In "right/throttle" (inputs p)).
    { cbn in Hreads, Hnat. destruct Hreads as [<- | [<- | [<- | [<- | []]]]]; tauto. }
    pose proof (wheel_throttles_differential cfg V' p H Hp Hw) as Hd.
    unfold add_command_stage. rewrite Hd.
    unfold Pipeline.add, Pipeline.produced. rewrite flat_map_app, in_app_iff. right.
    cbn in Hreads, Hnat |- *. tauto.
Qed.

Lemma add_drivetrain_inputs_are_produced_witness :
  In "right/throttle"
     (Pipeline.produced (add_command_stage (example_cfg_with "DC_TWO_WHEEL") None [])).
Proof.
  apply (add_drivetrain_inputs_are_produced (example_cfg_with "DC_TWO_WHEEL") None _
           {| part := "L298N_HBridge_2pin"; inputs := ["right/throttle"]; threaded := false |}
           "right/throttle" eq_refl).
  - cbn. tauto.
  - cbn. tauto.
Defined.

(** ** The channels of the tub *)

Lemma length_when {A} (b : bool) (l : list A) :
  length (when b l) = if b then length l else 0%nat.
Proof. now destruct b. Qed.

Lemma when_sublist {A} (b : bool) (l : list A) : when b l `sublist_of` l.
Proof. destruct b; [reflexivity | apply sublist_nil_l]. Qed.

Lemma in_when {A} (b : bool) (l : list A) (x : A) :
  In x (when b l) <-> b = true /\ In x l.
Proof. destruct b; cbn; intuition discriminate. Qed.

(** The two lists given to the tub writer have the same length under
    every configuration: each recorded channel has its type. *)
Theorem tub_inputs_types_same_length :
  forall (cfg : Config) (opt : Options),
    length (tub_inputs cfg opt) = length (tub_types cfg opt).
Proof.
  intros cfg opt. unfold tub_inputs, tub_types.
  rewrite !length_app, !length_when, !length_app, !length_when.
  destruct (USE_LIDAR opt); reflexivity.
Qed.

(** The tub records a channel twice in one situation only: with
    [cfg.USE_LIDAR] set in the simulator with [cfg.SIM_RECORD_LIDAR] set,
    'lidar/dist_array' is listed by both. *)
Theorem tub_inputs_duplicate_iff :
  forall (cfg : Config) (opt : Options),
    NoDup (tub_inputs cfg opt)
    <-> ~ (USE_LIDAR opt = true /\ DONKEY_GYM cfg = true /\ SIM_RECORD_LIDAR opt = true).
Proof.
  intros cfg opt. split.
  - intros Hnd (Hl & Hg & Hs). revert Hnd. unfold tub_inputs.
    rewrite Hl, Hg, Hs. cbn [when app].
    intros Hnd. apply NoDup_cons in Hnd as [_ Hnd]. apply NoDup_cons in Hnd as [Hnotin _].
    apply Hnotin. apply list_elem_of_In.
    cbn [In]. right. right. right.
    rewrite !in_app_iff. do 4 right. left. do 3 right. now left.
  - intros Hnot. unfold tub_inputs.
    destruct (USE_LIDAR opt) eqn:Hl.
    + assert (Hs : DONKEY_GYM cfg && SIM_RECORD_LIDAR opt = false).
      { destruct (DONKEY_GYM cfg), (SIM_RECORD_LIDAR opt); try reflexivity.
        exfalso. now apply Hnot. }
      apply (sublist_NoDup _ tub_all_inputs).
      * apply (bool_decide_unpack _). vm_compute. reflexivity.
      * change tub_all_inputs with
          (["cam/image_array"; "lidar/dist_array"; "user/angle"; "user/throttle"; "user/mode"]
           ++ ["enc/speed"]
           ++ ["behavior/state"; "behavior/label"; "behavior/one_hot_state_array"]
           ++ ["cam/depth_array"]
           ++ ["imu/acl_x"; "imu/acl_y"; "imu/acl_z"; "imu/gyr_x"; "imu/gyr_y"; "imu/gyr_z"]
           ++ (["pos/pos_x"; "pos/pos_y"; "pos/pos_z"; "pos/speed"; "pos/cte"]
               ++ ["gyro/gyro_x"; "gyro/gyro_y"; "gyro/gyro_z";
                   "accel/accel_x"; "accel/accel_y"; "accel/accel_z"]
               ++ ["vel/vel_x"; "vel/vel_y"; "vel/vel_z"]
               ++ [])
           ++ ["pilot/angle"; "pilot/throttle"]
           ++ ["perf/cpu"; "perf/mem"; "perf/freq"]).
        repeat (apply sublist_app; [first [reflexivity | apply when_sublist | idtac] |]);
          try apply when_sublist.
        destruct (DONKEY_GYM cfg); [| apply sublist_nil_l]. cbn [when].
        cbn [andb] in Hs. rewrite Hs. cbn [when].
        repeat (apply sublist_app; [apply when_sublist |]). reflexivity.
    + apply (sublist_NoDup _
               (["cam/image_array"; "user/angle"; "user/throttle"; "user/mode"]
                ++ ["enc/speed"]
                ++ ["behavior/state"; "behavior/label"; "behavior/one_hot_state_array"]
                ++ ["cam/depth_array"]
                ++ ["imu/acl_x"; "imu/acl_y"; "imu/acl_z"; "imu/gyr_x"; "imu/gyr_y"; "imu/gyr_z"]
                ++ (["pos/pos_x"; "pos/pos_y"; "pos/pos_z"; "pos/speed"; "pos/cte"]
                    ++ ["gyro/gyro_x"; "gyro/gyro_y"; "gyro/gyro_z";
                        "accel/accel_x"; "accel/accel_y"; "accel/accel_z"]
                    ++ ["vel/vel_x"; "vel/vel_y"; "vel/vel_z"]
                    ++ ["lidar/dist_array"])
                ++ ["pilot/angle"; "pilot/throttle"]
                ++ ["perf/cpu"; "perf/mem"; "perf/freq"])).
      * apply (bool_decide_unpack _). vm_compute. reflexivity.
      * repeat (apply sublist_app; [first [reflexivity | apply when_sublist | idtac] |]);
          try apply when_sublist.
        destruct (DONKEY_GYM cfg); [| apply sublist_nil_l]. cbn [when].
        repeat (apply sublist_app; [apply when_sublist |]). apply when_sublist.
Qed.

(** ** The channels of the pilot *)

(** Collecting the pilot's outputs raises exactly when the localizer is
    trained with a velocity model given on the command line: the outputs
    of a velocity model are a tuple, and [append] is called on it.  With
    no model type on the command line the localizer's own model type is
    used and nothing is raised. *)
Theorem pilot_outputs_raises_iff :
  forall (cfg : Config) (model_type : option string),
    (exists e, pilot_outputs cfg (resolve_model_type cfg model_type) = inl e)
    <-> TRAIN_LOCALIZER cfg = true
        /\ exists p, model_type = Some (p +:+ "velocity").
Proof.
  intros cfg model_type. unfold pilot_outputs, resolve_model_type. split.
  - intros [e H].
    destruct (endswith _ "velocity") eqn:E; [| discriminate H].
    destruct (TRAIN_LOCALIZER cfg) eqn:L; [| discriminate H].
    split; [reflexivity |].
    destruct model_type as [t |]; [| discriminate E].
    apply endswith_spec in E as [p ->]. now exists p.
  - intros [L [p ->]]. rewrite L, endswith_app. eauto.
Qed.

(** The pilot always receives the camera image first, transformed when
    [cfg.TRANSFORMATIONS] is not empty, and at most one other source, in
    the priority behaviours, lidar, odometry, IMU.  Collecting the
    channels raises exactly for an 'imu' model on a car with none of the
    other three and without [cfg.HAVE_IMU], and what it raises is
    [AssertionError]; the IMU channels are given exactly to such a model
    on such a car with [cfg.HAVE_IMU]. *)
Theorem pilot_inputs_sources :
  forall (cfg : Config) (opt : Options) (model_type : string),
    (forall e : exn,
       pilot_inputs cfg opt model_type = Raise e
       <-> e = AssertionError
           /\ TRAIN_BEHAVIORS cfg = false /\ USE_LIDAR opt = false
           /\ HAVE_ODOM cfg = false /\ model_type = "imu" /\ HAVE_IMU opt = false)
    /\ ((exists l, pilot_inputs cfg opt model_type = Ok l /\ In "imu/acl_x" l)
        <-> TRAIN_BEHAVIORS cfg = false /\ USE_LIDAR opt = false
            /\ HAVE_ODOM cfg = false /\ model_type = "imu" /\ HAVE_IMU opt = true)
    /\ match pilot_inputs cfg opt model_type with
       | Ok l =>
           (exists rest,
              l = (match TRANSFORMATIONS opt with
                   | Some (_ :: _) => "cam/image_array_trans"
                   | _ => "cam/image_array"
                   end) :: rest
              /\ ~ In "cam/image_array" rest /\ ~ In "cam/image_array_trans" rest)
           /\ (In "imu/acl_x" l <->
               TRAIN_BEHAVIORS cfg = false /\ USE_LIDAR opt = false
               /\ HAVE_ODOM cfg = false /\ model_type = "imu")
       | Raise e =>
           e = AssertionError
           /\ TRAIN_BEHAVIORS cfg = false /\ USE_LIDAR opt = false
           /\ HAVE_ODOM cfg = false /\ model_type = "imu" /\ HAVE_IMU opt = false
       end.
Proof.
  intros cfg opt model_type. unfold pilot_inputs.
  destruct (TRAIN_BEHAVIORS cfg), (USE_LIDAR opt), (HAVE_ODOM cfg);
    try (destruct (String.eqb_spec model_type "imu") as [E | E];
         [destruct (HAVE_IMU opt) |]);
    destruct (TRANSFORMATIONS opt) as [[| t ts] |]; cbn [tail].
  all: split;
    [intros e; split;
     [intros [= <-]; repeat split; first [reflexivity | assumption]
     | intros (-> & ? & ? & ? & ? & ?);
       first [discriminate | contradiction | reflexivity]] |].
  all: split;
    [split; [intros (l & [= <-] & Hin); cbn in Hin; intuition (try discriminate)
            | intros (? & ? & ? & ? & ?);
              first [ discriminate | contradiction
                    | eexists; split; [reflexivity | cbn; tauto] ]] |].
  all: try (split; [eexists; split; [reflexivity |]; cbn; intuition discriminate |]).
  all: cbn; intuition (try discriminate; try congruence).
Qed.

(** ** The camera *)

(** [add_camera] raises exactly when no camera can be chosen: a stereo
    camera of a type other than 'WEBCAM' and 'CVCAM', or, for a single
    camera other than the D435, a type [get_camera] refuses. *)
Theorem add_camera_raises_iff :
  forall (cfg : Config) (opt : Options) (camera_type : pyval)
         (V : list Pipeline.entry) (e : exn),
    add_camera cfg opt camera_type V = Raise e
    <-> (camera_type = PyStr "stereo"
         /\ CAMERA_TYPE cfg <> "WEBCAM" /\ CAMERA_TYPE cfg <> "CVCAM"
         /\ e = Exception ("Unsupported camera type: " +:+ CAMERA_TYPE cfg))
        \/ (camera_type <> PyStr "stereo"
            /\ CAMERA_TYPE cfg <> "D435"
            /\ get_camera cfg = Raise e).
Proof.
  intros cfg opt camera_type V e. unfold add_camera.
  destruct (eq_str camera_type "stereo") eqn:Hs.
  - apply eq_str_true in Hs.
    destruct (String.eqb_spec (CAMERA_TYPE cfg) "WEBCAM") as [Ew | Ew].
    { split; [discriminate | intros [(_ & H & _) | (H & _)]; contradiction]. }
    destruct (String.eqb_spec (CAMERA_TYPE cfg) "CVCAM") as [Ec | Ec].
    { split; [discriminate | intros [(_ & _ & H & _) | (H & _)]; contradiction]. }
    split.
    + intros [= <-]. left. now repeat split.
    + intros [(_ & _ & _ & ->) | (H & _)]; [reflexivity | contradiction].
  - apply eq_str_false in Hs.
    destruct (String.eqb_spec (CAMERA_TYPE cfg) "D435") as [Ed | Ed].
    { split; [discriminate | intros [(H & _) | (_ & H & _)]; contradiction]. }
    destruct (get_camera cfg) as [cam | e'] eqn:G.
    + split; [discriminate | intros [(H & _) | (_ & _ & H)]; [contradiction | discriminate H]].
    + split.
      * intros [= <-]. right. now repeat split.
      * intros [(H & _) | (_ & _ & [= ->])]; [contradiction | reflexivity].
Qed.

(** When [add_camera] returns, the parts that were in the pipeline are
    kept, a part that writes 'cam/image_array' has been added, and every
    camera added runs threaded with no input channel, the simulator
    included: only the stereo pairing reads channels. *)
Theorem add_camera_produces_image :
  forall (cfg : Config) (opt : Options) (camera_type : pyval)
         (V V' : list Pipeline.entry),
    add_camera cfg opt camera_type V = Ok V' ->
    exists added : list Pipeline.entry,
      V' = V ++ added
      /\ In "cam/image_array" (Pipeline.produced added)
      /\ Forall (fun e =>
                   (Pipeline.threaded e = true /\ Pipeline.inputs e = [])
                   \/ (Pipeline.part e = "StereoPair"
                       /\ Pipeline.outputs e = ["cam/image_array"]))
                added.
Proof.
  intros cfg opt camera_type V V'. unfold add_camera, Pipeline.add.
  assert (Hall : forall added : list Pipeline.entry,
             Forall (fun e => Pipeline.part e = "StereoPair"
                              /\ Pipeline.outputs e = ["cam/image_array"]
                              \/ Pipeline.threaded e = true /\ Pipeline.inputs e = [])
                    added ->
             Forall (fun e =>
                       (Pipeline.threaded e = true /\ Pipeline.inputs e = [])
                       \/ (Pipeline.part e = "StereoPair"
                           /\ Pipeline.outputs e = ["cam/image_array"]))
                    added).
  { intros added H. induction H as [| e l He _ IH]; constructor; [tauto | exact IH]. }
  destruct (eq_str camera_type "stereo").
  - destruct (String.eqb (CAMERA_TYPE cfg) "WEBCAM");
      [| destruct (String.eqb (CAMERA_TYPE cfg) "CVCAM"); [| discriminate]];
      intros [= <-]; rewrite <- !app_assoc; eexists; (split; [reflexivity |]);
      cbn [app]; (split; [cbn; tauto |]); apply Hall;
      repeat match goal with
             | |- Forall _ [] => constructor
             | |- Forall _ (_ :: _) =>
                 constructor;
                 [cbn; first [left; split; reflexivity | right; split; reflexivity] |]
             end.
  - destruct (String.eqb (CAMERA_TYPE cfg) "D435").
    + intros [= <-]. eexists. split; [reflexivity |].
      split; [cbn; tauto |]. constructor; [left; now split | constructor].
    + destruct (get_camera cfg) as [cam | e]; [| discriminate].
      intros [= <-]. eexists. split; [reflexivity |].
      split; [cbn; tauto |]. constructor; [left; now split | constructor].
Qed.

Lemma add_camera_produces_image_witness :
  exists added : list Pipeline.entry,
    [ {| Pipeline.part := "PiCamera"; Pipeline.inputs := [];
         Pipeline.outputs := ["cam/image_array"]; Pipeline.threaded := true;
         Pipeline.run_condition := None |} ] = [] ++ added
    /\ In "cam/image_array" (Pipeline.produced added)
    /\ Forall (fun e =>
                 (Pipeline.threaded e = true /\ Pipeline.inputs e = [])
                 \/ (Pipeline.part e = "StereoPair"
                     /\ Pipeline.outputs e = ["cam/image_array"]))
              added.
Proof.
  exact (add_camera_produces_image example_cfg example_opt (PyStr "single") [] _ eq_refl).
Defined.

(** ** Odometry *)

(** The measured speed 'enc/speed' has a producer exactly when
    [cfg.HAVE_ODOM] is set and the encoder type is 'GPIO' or 'arduino',
    while the tub records it whenever [cfg.HAVE_ODOM] is set: with any
    other encoder type [add_odometry] adds nothing, and the channel is
    recorded without ever being written. *)
Theorem enc_speed_producer_iff :
  forall (cfg : Config) (opt : Options),
    (In "enc/speed" (Pipeline.produced (add_odometry cfg opt []))
     <-> HAVE_ODOM cfg = true
         /\ (ENCODER_TYPE opt = "GPIO" \/ ENCODER_TYPE opt = "arduino"))
    /\ (In "enc/speed" (tub_inputs cfg opt) <-> HAVE_ODOM cfg = true)
    /\ (HAVE_ODOM cfg = false
        \/ (ENCODER_TYPE opt <> "GPIO" /\ ENCODER_TYPE opt <> "arduino") ->
        add_odometry cfg opt [] = []).
Proof.
  intros cfg opt. split; [| split].
  - unfold add_odometry, Pipeline.add, Pipeline.produced.
    destruct (HAVE_ODOM cfg); [| cbn; intuition discriminate].
    destruct (String.eqb_spec (ENCODER_TYPE opt) "GPIO") as [Eg | Eg];
      destruct (String.eqb_spec (ENCODER_TYPE opt) "arduino") as [Ea | Ea];
      cbn [orb]; destruct (HAVE_ODOM_2 opt); cbn; tauto.
  - unfold tub_inputs.
    destruct (USE_LIDAR opt); cbn [app In];
      rewrite !in_app_iff, !in_when, !in_app_iff, !in_when; cbn [In];
      intuition (try discriminate; try congruence).
  - unfold add_odometry. intros [-> | [Hg Ha]]; [reflexivity |].
    destruct (HAVE_ODOM cfg); [| reflexivity].
    destruct (String.eqb_spec (ENCODER_TYPE opt) "GPIO") as [Eg | _]; [contradiction |].
    destruct (String.eqb_spec (ENCODER_TYPE opt) "arduino") as [Ea | _]; [contradiction |].
    reflexivity.
Qed.

(** ** The pipeline as a whole *)

Lemma existsb_eqb_In (c : string) (seen : list string) :
  existsb (String.eqb c) seen = true <-> In c seen.
Proof.
  rewrite existsb_exists. split.
  - intros (x & Hx & E). apply String.eqb_eq in E. now subst x.
  - intros H. exists c. split; [exact H | apply String.eqb_refl].
Qed.

Lemma produced_app (V1 V2 : list Pipeline.entry) :
  Pipeline.produced (V1 ++ V2) = Pipeline.produced V1 ++ Pipeline.produced V2.
Proof. unfold Pipeline.produced. apply flat_map_app. Qed.

Lemma consumed_app (V1 V2 : list Pipeline.entry) :
  Pipeline.consumed (V1 ++ V2) = Pipeline.consumed V1 ++ Pipeline.consumed V2.
Proof. unfold Pipeline.consumed. apply flat_map_app. Qed.

(** [unready] looks at the channels seen so far as a set. *)
Lemma unready_ext (V : list Pipeline.entry) :
  forall s1 s2 : list string,
    (forall c, In c s1 <-> In c s2) ->
    Pipeline.unready s1 V = Pipeline.unready s2 V.
Proof.
  induction V as [| e V IH]; intros s1 s2 H; [reflexivity |].
  cbn [Pipeline.unready]. f_equal.
  - destruct (Pipeline.run_condition e) as [c |]; [| reflexivity].
    destruct (existsb (String.eqb c) s1) eqn:E1, (existsb (String.eqb c) s2) eqn:E2;
      try reflexivity.
    + apply existsb_eqb_In, H, existsb_eqb_In in E1. congruence.
    + apply existsb_eqb_In, H, existsb_eqb_In in E2. congruence.
  - apply IH. intros c. rewrite !in_app_iff, H. tauto.
Qed.

Lemma unready_app (V1 V2 : list Pipeline.entry) :
  forall seen : list string,
    Pipeline.unready seen (V1 ++ V2)
    = Pipeline.unready seen V1
      ++ Pipeline.unready (Pipeline.produced V1 ++ seen) V2.
Proof.
  induction V1 as [| e V1 IH]; intros seen; [reflexivity |].
  cbn [app Pipeline.unready]. rewrite IH, <- app_assoc. do 2 f_equal.
  apply unready_ext. intros c. cbn. rewrite !in_app_iff. tauto.
Qed.

(** No part is unready when every run condition has been seen. *)
Lemma unready_none (V : list Pipeline.entry) :
  forall seen : list string,
    Forall (fun e => forall c, Pipeline.run_condition e = Some c -> In c seen) V ->
    Pipeline.unready seen V = [].
Proof.
  induction V as [| e V IH]; intros seen H; [reflexivity |].
  inversion H as [| ? ? He HV]; subst. cbn [Pipeline.unready].
  rewrite IH.
  - destruct (Pipeline.run_condition e) as [c |]; [| reflexivity].
    destruct (existsb (String.eqb c) seen) eqn:E; [reflexivity |].
    specialize (He c eq_refl). apply existsb_eqb_In in He. congruence.
  - clear - HV. induction HV as [| x l Hx _ IHl]; constructor; [| exact IHl].
    intros c Hc. apply in_app_iff. right. now apply Hx.
Qed.

Lemma unready_In (V : list Pipeline.entry) :
  forall (seen : list string) (e : Pipeline.entry),
    In e (Pipeline.unready seen V) ->
    In e V /\ exists c, Pipeline.run_condition e = Some c /\ ~ In c seen.
Proof.
  induction V as [| x V IH]; intros seen e H; [destruct H |].
  cbn [Pipeline.unready] in H. apply in_app_iff in H as [H | H].
  - destruct (Pipeline.run_condition x) as [c |] eqn:Ec; [| destruct H].
    destruct (existsb (String.eqb c) seen) eqn:E; [destruct H |].
    destruct H as [<- | []]. split; [now left |].
    exists c. split; [exact Ec |]. intros Hin.
    apply existsb_eqb_In in Hin. congruence.
  - destruct (IH _ _ H) as (Hin & c & Hc & Hn). split; [now right |].
    exists c. split; [exact Hc |]. intros Hs. apply Hn, in_app_iff. now right.
Qed.

(** A part whose run condition no earlier part writes is unready. *)
Lemma unready_complete (V1 V2 : list Pipeline.entry) (e : Pipeline.entry) (c : string) :
  Pipeline.run_condition e = Some c ->
  ~ In c (Pipeline.produced V1) ->
  In e (Pipeline.unready [] (V1 ++ e :: V2)).
Proof.
  intros Hc Hn. rewrite unready_app, in_app_iff. right.
  cbn [Pipeline.unready]. rewrite Hc, app_nil_r.
  destruct (existsb (String.eqb c) (Pipeline.produced V1)) eqn:E.
  - apply existsb_eqb_In in E. contradiction.
  - now left.
Qed.

Lemma not_produced (c : string) (V : list Pipeline.entry) :
  Forall (fun e => ~ In c (Pipeline.outputs e)) V -> ~ In c (Pipeline.produced V).
Proof.
  unfold Pipeline.produced. intros H Hin. apply in_flat_map in Hin as (e & He & Hc).
  rewrite List.Forall_forall in H. exact (H e He Hc).
Qed.

(** Proves [Forall P V] along the structure of an assembled pipeline,
    [tac] proving [P] of one part. *)
Ltac each_entry tac :=
  repeat first
    [ assumption
    | apply List.Forall_nil
    | apply List.Forall_cons; [tac |]
    | apply Forall_app_2
    | match goal with
      | |- Forall _ (when ?b _) => destruct b; cbn [when]
      | |- Forall _ (if ?b then _ else _) => destruct b
      | |- Forall _ (Pipeline.add _ _ _ _ _ _) => unfold Pipeline.add at 1
      | |- Forall _ (map actuator_entry _) =>
          apply List.Forall_forall; intros ? [? [<- _]]%in_map_iff; tac
      end ].

Ltac entry_property :=
  unfold ungated, gated, early_conditions; cbn; intuition (discriminate || eauto).

(** *** The stages of [drive] *)

Lemma add_odometry_ungated (cfg : Config) (opt : Options) :
  Forall ungated (add_odometry cfg opt []).
Proof.
  unfold add_odometry.
  destruct (HAVE_ODOM cfg); [| constructor].
  destruct (_ || _); [| constructor].
  each_entry entry_property.
Qed.

Lemma add_camera_ungated (cfg : Config) (opt : Options) (camera_type : pyval)
    (V V' : list Pipeline.entry) :
  add_camera cfg opt camera_type V = Ok V' ->
  exists added, V' = V ++ added /\ Forall ungated added.
Proof.
  unfold add_camera, Pipeline.add.
  destruct (eq_str camera_type "stereo").
  - destruct (String.eqb (CAMERA_TYPE cfg) "WEBCAM");
      [| destruct (String.eqb (CAMERA_TYPE cfg) "CVCAM"); [| discriminate]];
      intros [= <-]; rewrite <- !app_assoc; eexists; (split; [reflexivity |]);
      cbn [app]; each_entry entry_property.
  - destruct (String.eqb (CAMERA_TYPE cfg) "D435").
    + intros [= <-]. eexists. split; [reflexivity |]. each_entry entry_property.
    + destruct (get_camera cfg) as [cam | e]; [| discriminate].
      intros [= <-]. eexists. split; [reflexivity |].
      constructor; [| constructor].
      unfold ungated. cbn [Pipeline.run_condition Pipeline.outputs].
      split; [reflexivity |].
      cbn [In app]. rewrite !in_when, !in_app_iff, !in_when. cbn [In].
      split; intuition discriminate.
Qed.

Lemma add_inputs_and_conditions_ungated (cfg : Config) (opt : Options)
    (use_joystick : bool) (user_controller : result (option string))
    (V V' : list Pipeline.entry) :
  add_inputs_and_conditions cfg opt use_joystick user_controller V = Ok V' ->
  exists added,
    V' = V ++ added
    /\ Forall ungated added
    /\ incl early_conditions (Pipeline.produced added).
Proof.
  unfold add_inputs_and_conditions, add_user_controller, Pipeline.add.
  set (conditions := [_; _; _; _] ++ _).
  assert (Hc : Forall ungated conditions)
    by (subst conditions; each_entry entry_property).
  assert (Hp : In "run_pilot" (Pipeline.produced conditions)
               /\ In "use_speed_control" (Pipeline.produced conditions)
               /\ In "use_throttle_control" (Pipeline.produced conditions)).
  { subst conditions. rewrite produced_app, in_app_iff. cbn. tauto. }
  clearbody conditions.
  set (pre := when _ _ ++ when _ _).
  assert (Hpre : Forall ungated pre) by (subst pre; each_entry entry_property).
  clearbody pre. cbv zeta.
  destruct (use_joystick || USE_JOYSTICK_AS_DEFAULT opt);
    [destruct user_controller as [[ctr |] | e]; [| | discriminate] |];
    intros [= <-]; rewrite <- ?app_assoc;
    eexists; (split; [reflexivity |]);
    (split; [each_entry entry_property |]);
    intros c Hin; rewrite !produced_app, !in_app_iff;
    unfold early_conditions in Hin; cbn [In] in Hin;
    destruct Hin as [<- | [<- | [<- | [<- | []]]]];
    first [ tauto | right; left; cbn; tauto ].
Qed.

Lemma add_pilot_gated (cfg : Config) (opt : Options) (model_type : option string)
    (V V' : list Pipeline.entry) :
  add_pilot cfg opt model_type V = inr V' ->
  exists rest,
    V' = V ++ [model_file_watcher] ++ reload_chain ++ rest /\ Forall gated rest.
Proof.
  unfold add_pilot.
  destruct (pilot_inputs _ _ _) as [ins | e]; [| discriminate].
  destruct (pilot_outputs _ _) as [e | outs] eqn:Eo; [discriminate |].
  intros [= <-]. eexists. split; [reflexivity |].
  assert (Hs : ~ In "steering" outs).
  { revert Eo. unfold pilot_outputs.
    destruct (endswith _ _), (TRAIN_LOCALIZER cfg); intros [= <-]; cbn;
      intuition discriminate. }
  each_entry entry_property.
Qed.

Lemma add_outputs_gated (cfg : Config) (opt : Options) (model_type : option string)
    (telem_inputs : list string) (V V' : list Pipeline.entry) :
  add_outputs cfg opt model_type telem_inputs V = Ok V' ->
  exists added,
    V' = V ++ added /\ Forall gated added /\ In "ai_running" (Pipeline.produced added).
Proof.
  unfold add_outputs, add_command_stage, add_speed_control, Pipeline.add.
  destruct (add_drivetrain cfg []) as [actuators | e]; [| discriminate].
  intros [= <-].
  destruct (have_speed_control cfg model_type), (is_differential_drive cfg);
    rewrite <- !app_assoc; eexists; (split; [reflexivity |]);
    (split; [each_entry entry_property |]);
    rewrite !produced_app, !in_app_iff;
    repeat first [ left; cbn; left; reflexivity | right ].
Qed.

(** The pipeline [drive] starts: the sensors, inputs and mode conditions,
    all run on every tick; then, with a model, the model-file watcher, the
    reload chain and the pilot; then the outputs. *)
Lemma drive_pipeline_shape (cfg : Config) (opt : Options) (model_type : option string)
    (camera_type : pyval) (use_joystick : bool)
    (user_controller : result (option string)) (loaded : result startup)
    (telem_inputs : list string) (V : list Pipeline.entry) :
  drive_pipeline cfg opt model_type camera_type use_joystick user_controller loaded
    telem_inputs = inr (Some V) ->
  exists front pilot back,
    V = (add_odometry cfg opt [] ++ front) ++ pilot ++ back
    /\ Forall ungated front
    /\ incl early_conditions (Pipeline.produced front)
    /\ Forall gated back
    /\ In "ai_running" (Pipeline.produced back)
    /\ ((loaded = Ok NoModel /\ pilot = [])
        \/ ((loaded = Ok BoundReloadModel \/ loaded = Ok BoundReloadWeights)
            /\ exists rest,
                 pilot = [model_file_watcher] ++ reload_chain ++ rest
                 /\ Forall gated rest)).
Proof.
  unfold drive_pipeline.
  destruct (add_camera _ _ _ _) as [V1 | e] eqn:E1; [| discriminate].
  destruct (add_inputs_and_conditions _ _ _ _ _) as [V2 | e] eqn:E2; [| discriminate].
  apply add_camera_ungated in E1 as (cam & -> & Hcam).
  apply add_inputs_and_conditions_ungated in E2 as (ins & -> & Hins & Hearly).
  assert (Hfront : Forall ungated (cam ++ ins)) by now apply Forall_app_2.
  assert (Hfe : incl early_conditions (Pipeline.produced (cam ++ ins))).
  { intros c Hc. rewrite produced_app, in_app_iff. right. now apply Hearly. }
  destruct loaded as [[| | |] | e]; try discriminate.
  - destruct (add_outputs _ _ _ _ _) as [V4 | e] eqn:E4; [| discriminate].
    apply add_outputs_gated in E4 as (back & -> & Hback & Hai).
    intros [= <-]. exists (cam ++ ins), [], back.
    rewrite <- !app_assoc. cbn [app]. repeat split; auto.
  - destruct (add_pilot _ _ _ _) as [e | V3] eqn:E3; [discriminate |].
    destruct (add_outputs _ _ _ _ _) as [V4 | e] eqn:E4; [| discriminate].
    apply add_pilot_gated in E3 as (rest & -> & Hrest).
    apply add_outputs_gated in E4 as (back & -> & Hback & Hai).
    intros [= <-].
    exists (cam ++ ins), ([model_file_watcher] ++ reload_chain ++ rest), back.
    split; [now rewrite <- !app_assoc |].
    repeat split; auto. right. split; [now left |]. now exists rest.
  - destruct (add_pilot _ _ _ _) as [e | V3] eqn:E3; [discriminate |].
    destruct (add_outputs _ _ _ _ _) as [V4 | e] eqn:E4; [| discriminate].
    apply add_pilot_gated in E3 as (rest & -> & Hrest).
    apply add_outputs_gated in E4 as (back & -> & Hback & Hai).
    intros [= <-].
    exists (cam ++ ins), ([model_file_watcher] ++ reload_chain ++ rest), back.
    split; [now rewrite <- !app_assoc |].
    repeat split; auto. right. split; [now right |]. now exists rest.
Qed.

Lemma reload_chain_gated : Forall gated (model_file_watcher :: reload_chain).
Proof. unfold reload_chain, model_file_watcher. each_entry entry_property. Qed.

(** In the pipeline [drive] starts every part is [gated], and the parts
    before the pilot run on every tick and write the early conditions. *)
Lemma drive_pipeline_gated (cfg : Config) (opt : Options) (model_type : option string)
    (camera_type : pyval) (use_joystick : bool)
    (user_controller : result (option string)) (loaded : result startup)
    (telem_inputs : list string) (V : list Pipeline.entry) :
  drive_pipeline cfg opt model_type camera_type use_joystick user_controller loaded
    telem_inputs = inr (Some V) ->
  exists front rest,
    V = front ++ rest
    /\ Forall ungated front
    /\ incl early_conditions (Pipeline.produced front)
    /\ Forall gated rest.
Proof.
  intros H. apply drive_pipeline_shape in H
    as (front & pilot & back & -> & Hf & He & Hb & _ & Hp).
  exists (add_odometry cfg opt [] ++ front), (pilot ++ back).
  split; [reflexivity |].
  split; [apply Forall_app_2; [apply add_odometry_ungated | exact Hf] |].
  split; [intros c Hc; rewrite produced_app, in_app_iff; right; now apply He |].
  apply Forall_app_2; [| exact Hb].
  destruct Hp as [[_ ->] | [_ (rest & -> & Hrest)]]; [constructor |].
  change ([model_file_watcher] ++ reload_chain ++ rest)
    with ((model_file_watcher :: reload_chain) ++ rest).
  apply Forall_app_2; [apply reload_chain_gated | exact Hrest].
Qed.

(** Whatever the configuration, in the pipeline [drive] starts the run
    condition of a part is a channel written by a part added before it;
    the only exception is [ai_running], under which only the three parts
    of the reload chain run. *)
Theorem drive_run_condition_written_before :
  forall (cfg : Config) (opt : Options) (model_type : option string)
         (camera_type : pyval) (use_joystick : bool)
         (user_controller : result (option string)) (loaded : result startup)
         (telem_inputs : list string)
         (V1 V2 : list Pipeline.entry) (e : Pipeline.entry) (c : string),
    drive_pipeline cfg opt model_type camera_type use_joystick user_controller loaded
      telem_inputs = inr (Some (V1 ++ e :: V2)) ->
    Pipeline.run_condition e = Some c ->
    In c (Pipeline.produced V1)
    \/ (c = "ai_running"
        /\ In (Pipeline.part e) ["FileWatcher"; "DelayedTrigger"; "TriggeredCallback"]).
Proof.
  intros cfg opt model_type camera_type use_joystick user_controller loaded
    telem_inputs V1 V2 e c H Hc.
  destruct (in_dec string_dec c (Pipeline.produced V1)) as [Hin | Hn]; [now left |].
  right.
  pose proof (unready_complete V1 V2 e c Hc Hn) as Hu.
  apply drive_pipeline_gated in H as (front & rest & E & Hf & He & Hr).
  rewrite E, unready_app, in_app_iff in Hu.
  rewrite unready_none in Hu.
  2:{ clear - Hf. induction Hf as [| x l (Hrc & _) _ IH]; constructor; [| exact IH].
      intros c' Hc'. congruence. }
  destruct Hu as [[] | Hu].
  apply unready_In in Hu as (Hin & c' & Hc' & Hn').
  rewrite List.Forall_forall in Hr. destruct (Hr e Hin) as [_ Hg].
  rewrite Hc' in Hg. assert (c' = c) as -> by congruence.
  destruct Hg as [Hearly | Hai]; [| exact Hai].
  exfalso. apply Hn', in_app_iff. left. now apply He.
Qed.

Lemma drive_run_condition_written_before_witness :
  In "run_pilot" (Pipeline.produced (firstn 17 example_pipeline))
  \/ ("run_pilot" = "ai_running"
      /\ In "KerasPilot" ["FileWatcher"; "DelayedTrigger"; "TriggeredCallback"]).
Proof.
  apply (drive_run_condition_written_before example_cfg example_opt None (PyStr "single")
           false (Ok None) (Ok BoundReloadModel) []
           (firstn 17 example_pipeline) (skipn 18 example_pipeline)
           {| Pipeline.part := "KerasPilot";
              Pipeline.inputs := [Some "cam/image_array"; Some "enc/speed"];
              Pipeline.outputs := ["pilot/angle"; "pilot/throttle"];
              Pipeline.threaded := false;
              Pipeline.run_condition := Some "run_pilot" |}
           "run_pilot").
  - vm_compute. reflexivity.
  - reflexivity.
Defined.

(** With a model loaded, the three parts of the reload chain stand in the
    pipeline before every part that writes [ai_running], their run
    condition, and a part that writes it follows them. *)
Theorem drive_reload_chain_before_ai_running :
  forall (cfg : Config) (opt : Options) (model_type : option string)
         (camera_type : pyval) (use_joystick : bool)
         (user_controller : result (option string)) (loaded : result startup)
         (telem_inputs : list string) (V : list Pipeline.entry),
    loaded = Ok BoundReloadModel \/ loaded = Ok BoundReloadWeights ->
    drive_pipeline cfg opt model_type camera_type use_joystick user_controller loaded
      telem_inputs = inr (Some V) ->
    exists V1 V2,
      V = V1 ++ reload_chain ++ V2
      /\ ~ In "ai_running" (Pipeline.produced V1)
      /\ In "ai_running" (Pipeline.produced V2).
Proof.
  intros cfg opt model_type camera_type use_joystick user_controller loaded
    telem_inputs V Hl H.
  apply drive_pipeline_shape in H
    as (front & pilot & back & -> & Hf & _ & _ & Hai & Hp).
  destruct Hp as [[E _] | [_ (rest & -> & _)]];
    [destruct Hl as [Hl | Hl]; rewrite Hl in E; discriminate E |].
  exists ((add_odometry cfg opt [] ++ front) ++ [model_file_watcher]), (rest ++ back).
  split; [now rewrite <- !app_assoc |]. split.
  - apply not_produced. repeat apply Forall_app_2.
    + pose proof (add_odometry_ungated cfg opt) as Ho.
      clear - Ho. induction Ho as [| x l (_ & Hx & _) _ IH]; constructor; assumption.
    + clear - Hf. induction Hf as [| x l (_ & Hx & _) _ IH]; constructor; assumption.
    + constructor; [| constructor]. cbn. intuition discriminate.
  - rewrite produced_app, in_app_iff. now right.
Qed.

Lemma drive_reload_chain_before_ai_running_witness :
  exists V1 V2,
    example_pipeline = V1 ++ reload_chain ++ V2
    /\ ~ In "ai_running" (Pipeline.produced V1)
    /\ In "ai_running" (Pipeline.produced V2).
Proof.
  exact (drive_reload_chain_before_ai_running example_cfg example_opt None
           (PyStr "single") false (Ok None) (Ok BoundReloadModel) [] example_pipeline
           (or_introl eq_refl) eq_refl).
Defined.

(** No part of a pipeline that [drive] starts writes the channel
    'steering'; yet with odometry from a single 'GPIO' or 'arduino'
    encoder the pipeline has a part that reads it, the one that feeds the
    steering angle to the pose estimate. *)
Theorem drive_steering_never_written :
  forall (cfg : Config) (opt : Options) (model_type : option string)
         (camera_type : pyval) (use_joystick : bool)
         (user_controller : result (option string)) (loaded : result startup)
         (telem_inputs : list string) (V : list Pipeline.entry),
    drive_pipeline cfg opt model_type camera_type use_joystick user_controller loaded
      telem_inputs = inr (Some V) ->
    ~ In "steering" (Pipeline.produced V)
    /\ (HAVE_ODOM cfg = true ->
        ENCODER_TYPE opt = "GPIO" \/ ENCODER_TYPE opt = "arduino" ->
        HAVE_ODOM_2 opt = false ->
        In "steering" (Pipeline.consumed V)).
Proof.
  intros cfg opt model_type camera_type use_joystick user_controller loaded
    telem_inputs V H. split.
  - apply drive_pipeline_gated in H as (front & rest & -> & Hf & _ & Hr).
    apply not_produced, Forall_app_2.
    + clear - Hf. induction Hf as [| x l (_ & _ & Hx) _ IH]; constructor; assumption.
    + clear - Hr. induction Hr as [| x l (Hx & _) _ IH]; constructor; assumption.
  - intros Ho He H2.
    apply drive_pipeline_shape in H as (front & pilot & back & -> & _).
    rewrite !consumed_app, !in_app_iff. left. left.
    unfold add_odometry. rewrite Ho, H2.
    destruct He as [-> | ->]; cbn; tauto.
Qed.

Lemma drive_steering_never_written_witness :
  ~ In "steering" (Pipeline.produced example_pipeline)
  /\ (HAVE_ODOM example_cfg = true ->
      ENCODER_TYPE example_opt = "GPIO" \/ ENCODER_TYPE example_opt = "arduino" ->
      HAVE_ODOM_2 example_opt = false ->
      In "steering" (Pipeline.consumed example_pipeline)).
Proof.
  exact (drive_steering_never_written example_cfg example_opt None (PyStr "single") false
           (Ok None) (Ok BoundReloadModel) [] example_pipeline eq_refl).
Defined.
